(** * Tariff cost engine of [app.py]: a shallow embedding and its properties

    The engine part of the Dash application ([usd_to_chf], [local_to_chf],
    [compute_tariff_rate], [compute_costs]) is embedded as Rocq functions.

    Modelling conventions
    - A Python/numpy float is a [pyfloat]: either pandas' missing marker
      [nan] or an exact rational [fl q].  Rounding, overflow and infinities
      are outside the model; [nan] propagation, [pd.isna]/[pd.notna],
      truthiness ([not x]) and comparisons with [nan] are modelled.
    - Division by zero raises [ZeroDivisionError]; the unknown assembly site
      and a colour that the figure refuses raise [ValueError]; the look-up
      of a missing column or key raises [KeyError].  Fallible code lives in
      the [result] monad.
    - A cell of a text column is a [label]: [None] is a missing cell
      (NaN/None), which pandas' [==] never matches.
    - A numeric field read with [row.get(col, default)] is an
      [option pyfloat]: [None] means that the key is absent and the default
      applies, [Some nan] is a present but missing cell.
    - Tables indexed with [set_index] and read by key (FX, Sites, Products)
      are finite maps; tables that are filtered with a mask and read with
      [.iloc[0]] are lists of rows in table order.
    - The engine is given twice: as a function of the values of its tables
      and records, and, for what it does to the objects it is passed, as
      statements on a store of objects ([Objects.compute_costs]). *)

From Stdlib Require Import QArith Qcanon.
From stdpp Require Import base option list strings gmap fin_maps numbers.

Local Open Scope Qc_scope.
Local Open Scope string_scope.

(** ** Floats *)

Inductive pyfloat : Type :=
| nan
| fl (q : Qc).

Definition Qc_is_zero (q : Qc) : bool := (Qnum (this q) =? 0)%Z.
Definition Qc_leb (x y : Qc) : bool := Qle_bool (this x) (this y).
Definition Qc_ltb (x y : Qc) : bool := negb (Qle_bool (this y) (this x)).

Abbreviation c0 := (Q2Qc 0).
Abbreviation c1 := (Q2Qc 1).
Abbreviation c100 := (Q2Qc 100).
Abbreviation c10000 := (Q2Qc 10000).

(** [pd.isna] and [pd.notna] *)
Definition isna (x : pyfloat) : bool :=
  match x with nan => true | fl _ => false end.
Definition notna (x : pyfloat) : bool := negb (isna x).

(** [bool(x)]: zero is falsy, everything else (also NaN) is truthy *)
Definition truthy (x : pyfloat) : bool :=
  match x with nan => true | fl q => negb (Qc_is_zero q) end.

Definition fadd (x y : pyfloat) : pyfloat :=
  match x, y with fl a, fl b => fl (a + b) | _, _ => nan end.
Definition fsub (x y : pyfloat) : pyfloat :=
  match x, y with fl a, fl b => fl (a - b) | _, _ => nan end.
Definition fmul (x y : pyfloat) : pyfloat :=
  match x, y with fl a, fl b => fl (a * b) | _, _ => nan end.

(** [x <= y] and [x > y]; every comparison with NaN is [False] *)
Definition fle (x y : pyfloat) : bool :=
  match x, y with fl a, fl b => Qc_leb a b | _, _ => false end.
Definition fgt (x y : pyfloat) : bool :=
  match x, y with fl a, fl b => Qc_ltb b a | _, _ => false end.

(** [x / k] for a non-zero literal [k] (the [/ 100.0] and [/ 10000.0]) *)
Definition fdiv_lit (x : pyfloat) (k : Qc) : pyfloat :=
  match x with fl a => fl (a / k) | nan => nan end.

(** ** Exceptions *)

Inductive exn : Type :=
| ZeroDivisionError
| ValueError (msg : string)
| KeyError (key : string)
| TypeError.

Inductive result (A : Type) : Type :=
| Ok (a : A)
| Raise (e : exn).
Arguments Ok {A} a.
Arguments Raise {A} e.

#[global] Instance result_ret : MRet result := fun _ a => Ok a.
#[global] Instance result_bind : MBind result := fun _ _ f m =>
  match m with Ok a => f a | Raise e => Raise e end.

(** [x / y] for a divisor that is a run-time value *)
Definition fdiv (x y : pyfloat) : result pyfloat :=
  match y with
  | nan => Ok nan
  | fl b =>
      if Qc_is_zero b then Raise ZeroDivisionError
      else match x with fl a => Ok (fl (a / b)) | nan => Ok nan end
  end.

(** ** Labels *)

Definition label : Type := option string.

(** elementwise [==] of pandas on a text column *)
Definition label_eqb (a b : label) : bool :=
  match a, b with
  | Some x, Some y => String.eqb x y
  | _, _ => false
  end.

(** [row.get(col, default)] *)
Definition getd (cell : option pyfloat) (default : pyfloat) : pyfloat :=
  match cell with Some v => v | None => default end.

(** A date is identified with its rendering [str(d)]. *)
Definition date : Type := string.

(** ** Currency conversion *)

Definition usd_to_chf (amount_usd : pyfloat) (fx_rates : gmap string pyfloat)
  : result pyfloat :=
  if isna amount_usd then Ok (fl c0)
  else
    let usd_per_chf := default (fl c1) (fx_rates !! "CHF") in
    if negb (truthy usd_per_chf) then Ok (fl c0)
    else fdiv amount_usd usd_per_chf.

Definition local_to_chf (amount : pyfloat) (currency : string)
    (fx_rates : gmap string pyfloat) : result pyfloat :=
  if isna amount then Ok (fl c0)
  else
    let usd_per_unit :=
      default (default (fl c1) (fx_rates !! "USD")) (fx_rates !! currency) in
    let amount_usd := fmul amount usd_per_unit in
    usd_to_chf amount_usd fx_rates.

(** ** Tariff resolution *)

Module TariffInputs.
Record row : Type := {
  ComponentClass : label;
  OriginCountry : label;
  DefaultRate_pct : pyfloat;
  UserRate_pct : pyfloat
}.
End TariffInputs.

Module Tariffs_US.
Record row : Type := {
  ScenarioDate : option date;
  ComponentClass : label;
  OriginCountry : label;
  US_AdValoremTariff_pct : pyfloat
}.
End Tariffs_US.

Definition override_mask (component_class origin_country : label)
    (r : TariffInputs.row) : bool :=
  label_eqb (TariffInputs.ComponentClass r) component_class
  && label_eqb (TariffInputs.OriginCountry r) origin_country.

Definition scenario_mask (scenario_date : date)
    (component_class origin_country : label) (r : Tariffs_US.row) : bool :=
  label_eqb (Tariffs_US.ScenarioDate r) (Some scenario_date)
  && label_eqb (Tariffs_US.ComponentClass r) component_class
  && label_eqb (Tariffs_US.OriginCountry r) origin_country.

(** [df.loc[mask]] *)
Definition loc {A : Type} (mask : A -> bool) (df : list A) : list A :=
  List.filter mask df.

(** [df.iloc[0]] guarded by [not df.empty] *)
Definition iloc0 {A : Type} (df : list A) : option A := head df.

Definition compute_tariff_rate (component_class origin_country : label)
    (scenario_date : date) (tariff_inputs : list TariffInputs.row)
    (tariffs_us : list Tariffs_US.row) : pyfloat * string :=
  let candidate :=
    match tariff_inputs with
    | [] => []
    | _ => loc (override_mask component_class origin_country) tariff_inputs
    end in
  let from_override :=
    match iloc0 candidate with
    | Some c =>
        let override_value := TariffInputs.UserRate_pct c in
        if notna override_value
        then Some (fdiv_lit override_value c100, "Override")
        else None
    | None => None
    end in
  match from_override with
  | Some r => r
  | None =>
      let scenario_match :=
        loc (scenario_mask scenario_date component_class origin_country)
            tariffs_us in
      let from_scenario :=
        match iloc0 scenario_match with
        | Some s =>
            let scenario_rate := Tariffs_US.US_AdValoremTariff_pct s in
            if notna scenario_rate
            then Some (fdiv_lit scenario_rate c100,
                       "Scenario " ++ scenario_date)
            else None
        | None => None
        end in
      match from_scenario with
      | Some r => r
      | None =>
          match iloc0 candidate with
          | Some c =>
              let default_rate := TariffInputs.DefaultRate_pct c in
              if notna default_rate
              then (fdiv_lit default_rate c100, "Default")
              else (fl c0, "None")
          | None => (fl c0, "None")
          end
      end
  end.

(** ** Reference tables *)

Definition TARGET_SKUS : list string := ["ACTUATOR_AX100"; "ACTUATOR_AX200"].

Definition COUNTRY_TO_CURRENCY : gmap string string :=
  list_to_map
    [("Switzerland", "CHF"); ("China", "CNY"); ("Serbia", "RSD");
     ("United States", "USD"); ("Mexico", "MXN"); ("Germany", "EUR")].

Module US_CUSTOMER_NODE.
Definition SiteID : string := "US_CUSTOMER".
Definition Country : string := "United States".
Definition Role : string := "Customer demand".
End US_CUSTOMER_NODE.

Module Products.
Record row : Type := {
  UnitWeight_kg : option pyfloat;
  ListPrice_USD : option pyfloat
}.
End Products.

Module BOM.
Record row : Type := {
  ParentSKU : label;
  PartID : string;
  Qty : option pyfloat
}.
End BOM.

Module Components.
Record row : Type := {
  PartID : string;
  Class : label;
  UnitWeight_kg : option pyfloat;
  BasePrice_local : option pyfloat;
  OriginSiteID : label
}.
End Components.

Module Sites.
Record row : Type := {
  Country : label;
  Role : label
}.
End Sites.

Module AssemblyOptions.
Record row : Type := {
  SKU : label;
  AssemblySiteID : label;
  BaseConvCost_USD : option pyfloat;
  Yield : option pyfloat
}.
End AssemblyOptions.

Module LogisticsLanes.
Record row : Type := {
  FromCountry : label;
  ToCountry : label;
  Cost_per_kg_USD : option pyfloat;
  Fixed_per_shipment_USD : option pyfloat;
  LeadTime_days : option pyfloat
}.
End LogisticsLanes.

(** The dictionary [data] of tables.  [FX], [Sites] and [Products] are
    given by their key ([Currency], [SiteID], [SKU]). *)
Record Data : Type := {
  data_Products : gmap string Products.row;
  data_BOM : list BOM.row;
  data_Components : list Components.row;
  data_Sites : gmap string Sites.row;
  data_AssemblyOptions : list AssemblyOptions.row;
  data_LogisticsLanes : list LogisticsLanes.row;
  data_Tariffs_US : list Tariffs_US.row;
  data_FX : gmap string pyfloat
}.

(** ** Derived frames *)

(** a row of [components_df]: a component with the country and role of its
    origin site joined in *)
Module ComponentsDf.
Record row : Type := {
  PartID : string;
  Class : label;
  UnitWeight_kg : option pyfloat;
  BasePrice_local : option pyfloat;
  OriginSiteID : label;
  ComponentOrigin : label;
  OriginRole : label
}.
End ComponentsDf.

(** a row of [bom_components]: a BOM line with its component joined in *)
Module BomComponents.
Record row : Type := {
  PartID : string;
  Qty : option pyfloat;
  Class : label;
  UnitWeight_kg : option pyfloat;
  BasePrice_local : option pyfloat;
  OriginSiteID : label;
  ComponentOrigin : label
}.
End BomComponents.

(** [origin_info.loc[site]] for a cell of [OriginSiteID] *)
Definition origin_lookup (sites : gmap string Sites.row) (origin_site : label)
  : option Sites.row :=
  match origin_site with
  | Some s => sites !! s
  | None => None
  end.

(** [data["Components"].merge(origin_info, how="left", left_on="OriginSiteID")] *)
Definition merge_origin (sites : gmap string Sites.row) (c : Components.row)
  : ComponentsDf.row :=
  let o := origin_lookup sites (Components.OriginSiteID c) in
  {| ComponentsDf.PartID := Components.PartID c;
     ComponentsDf.Class := Components.Class c;
     ComponentsDf.UnitWeight_kg := Components.UnitWeight_kg c;
     ComponentsDf.BasePrice_local := Components.BasePrice_local c;
     ComponentsDf.OriginSiteID := Components.OriginSiteID c;
     ComponentsDf.ComponentOrigin :=
       match o with Some s => Sites.Country s | None => None end;
     ComponentsDf.OriginRole :=
       match o with Some s => Sites.Role s | None => None end |}.

Definition joined (b : BOM.row) (c : ComponentsDf.row) : BomComponents.row :=
  {| BomComponents.PartID := BOM.PartID b;
     BomComponents.Qty := BOM.Qty b;
     BomComponents.Class := ComponentsDf.Class c;
     BomComponents.UnitWeight_kg := ComponentsDf.UnitWeight_kg c;
     BomComponents.BasePrice_local := ComponentsDf.BasePrice_local c;
     BomComponents.OriginSiteID := ComponentsDf.OriginSiteID c;
     BomComponents.ComponentOrigin := ComponentsDf.ComponentOrigin c |}.

(** a BOM line whose part has no component: the right-hand columns are
    missing cells *)
Definition unresolved (b : BOM.row) : BomComponents.row :=
  {| BomComponents.PartID := BOM.PartID b;
     BomComponents.Qty := BOM.Qty b;
     BomComponents.Class := None;
     BomComponents.UnitWeight_kg := Some nan;
     BomComponents.BasePrice_local := Some nan;
     BomComponents.OriginSiteID := None;
     BomComponents.ComponentOrigin := None |}.

Definition part_matches (b : BOM.row) (c : ComponentsDf.row) : bool :=
  String.eqb (ComponentsDf.PartID c) (BOM.PartID b).

(** [sku_bom.merge(components_df, how="left", on="PartID")] *)
Definition merge_bom (sku_bom : list BOM.row)
    (components_df : list ComponentsDf.row) : list BomComponents.row :=
  flat_map
    (fun b =>
       match List.filter (part_matches b) components_df with
       | [] => [unresolved b]
       | cs => List.map (joined b) cs
       end)
    sku_bom.

(** ** Outputs *)

(** a flow record; [cost_share] is [None] until the key is assigned *)
Record Flow : Type := {
  flow_SKU : string;
  flow_component : label;
  from_site : label;
  to_site : string;
  from_country : label;
  to_country : label;
  from_role : label;
  to_role : label;
  tariff_rate : pyfloat;
  tariff_source : string;
  cost_value : pyfloat;
  cost_share : option pyfloat
}.

Record ScenarioResult : Type := {
  ScenarioDate : date;
  AssemblySite : string;
  SKU : string;
  SKU_Display : string;
  MaterialCost_CHF : pyfloat;
  InboundLogistics_CHF : pyfloat;
  OutboundLogistics_CHF : pyfloat;
  Tariffs_CHF : pyfloat;
  ConversionCost_CHF : pyfloat;
  LandedCost_CHF : pyfloat;
  ListPrice_CHF : pyfloat;
  Margin_CHF : pyfloat;
  MarginPct : pyfloat;
  LeadTime_days : pyfloat
}.

Record AssemblyMeta : Type := {
  meta_id : string;
  meta_country : label;
  meta_role : label
}.

(** The returned dictionary.  Its [breakdown] entry is the projection of
    [summary] on thirteen of its columns and is not represented. *)
Record Costs : Type := {
  summary : list ScenarioResult;
  flows : list Flow;
  assembly_site : AssemblyMeta
}.

(** ** String helpers *)

(** [s.replace(old, "")] for a non-empty [old] *)
Fixpoint remove_all_fuel (fuel : nat) (old s : string) : string :=
  match fuel with
  | O => s
  | S fuel' =>
      if String.prefix old s
      then remove_all_fuel fuel'
             old (String.substring (String.length old)
                    (String.length s - String.length old) s)
      else match s with
           | EmptyString => EmptyString
           | String ch s' => String ch (remove_all_fuel fuel' old s')
           end
  end.

Definition str_remove (old s : string) : string :=
  remove_all_fuel (S (String.length s)) old s.

(** [max(xs)] of Python: the first element that no later one exceeds *)
Definition py_max (x : pyfloat) (xs : list pyfloat) : pyfloat :=
  fold_left (fun m y => if fgt y m then y else m) xs x.

(** ** The cost engine *)

(** the arguments of [compute_costs] next to [data] *)
Record Params : Type := {
  scenario_date : date;
  assembly_site_id : string;
  tariff_records : list TariffInputs.row;
  include_fixed_fees : bool
}.

(** the local variables of the loop over the BOM lines of one SKU *)
Record Totals : Type := {
  material_total : pyfloat;
  inbound_logistics_total : pyfloat;
  component_tariffs_total : pyfloat;
  component_leads : list pyfloat;
  component_flow_entries : list Flow
}.

Definition totals0 : Totals :=
  {| material_total := fl c0;
     inbound_logistics_total := fl c0;
     component_tariffs_total := fl c0;
     component_leads := [];
     component_flow_entries := [] |}.

Definition lane_mask (from_c to_c : label) (l : LogisticsLanes.row) : bool :=
  label_eqb (LogisticsLanes.FromCountry l) from_c
  && label_eqb (LogisticsLanes.ToCountry l) to_c.

(** the lane used between two countries: the first match in table order *)
Definition first_lane (d : Data) (from_c to_c : label)
  : option LogisticsLanes.row :=
  iloc0 (loc (lane_mask from_c to_c) (data_LogisticsLanes d)).

(** cost in CHF and lead time of shipping [weight] over the first lane
    between two countries; without a lane both are [0.0] *)
Definition lane_cost (d : Data) (p : Params) (from_c to_c : label)
    (weight : pyfloat) : result (pyfloat * pyfloat) :=
  match first_lane d from_c to_c with
  | Some lane_row =>
      let cost_usd :=
        fmul (getd (LogisticsLanes.Cost_per_kg_USD lane_row) (fl c0)) weight in
      let cost_usd :=
        if include_fixed_fees p
        then fadd cost_usd
               (fdiv_lit (getd (LogisticsLanes.Fixed_per_shipment_USD lane_row)
                               (fl c0)) c10000)
        else cost_usd in
      cost ← usd_to_chf cost_usd (data_FX d);
      mret (cost, getd (LogisticsLanes.LeadTime_days lane_row) (fl c0))
  | None => mret (fl c0, fl c0)
  end.

(** the values computed for one row of [bom_components] *)
Record Line : Type := {
  line_material_cost : pyfloat;
  line_logistics_cost : pyfloat;
  line_lead_time : pyfloat;
  line_tariff_value : pyfloat;
  line_flow_entry : Flow
}.

Definition currency_of (origin_country : label) : string :=
  match origin_country with
  | Some c => default "USD" (COUNTRY_TO_CURRENCY !! c)
  | None => "USD"
  end.

(** the quantity of a BOM line inflated for scrap *)
Definition effective_quantity (component : BomComponents.row)
    (yield_rate : pyfloat) : result pyfloat :=
  fdiv (getd (BomComponents.Qty component) (fl c0)) yield_rate.

(** the origin country of a line: the joined [ComponentOrigin], replaced by
    the country of the origin site when that site is in the index *)
Definition origin_country_of (d : Data) (component : BomComponents.row)
  : label :=
  match origin_lookup (data_Sites d) (BomComponents.OriginSiteID component) with
  | Some s => Sites.Country s
  | None => BomComponents.ComponentOrigin component
  end.

Definition component_line (d : Data) (p : Params) (sku : string)
    (assembly : Sites.row) (yield_rate : pyfloat)
    (component : BomComponents.row) : result Line :=
  let assembly_country := Sites.Country assembly in
  quantity ← effective_quantity component yield_rate;
  let unit_weight := getd (BomComponents.UnitWeight_kg component) (fl c0) in
  let component_weight := fmul quantity unit_weight in
  let origin_site := BomComponents.OriginSiteID component in
  let origin_country := origin_country_of d component in
  let origin_role :=
    match origin_lookup (data_Sites d) origin_site with
    | Some s => Sites.Role s
    | None => None
    end in
  let currency := currency_of origin_country in
  let base_price_local :=
    getd (BomComponents.BasePrice_local component) (fl c0) in
  material_cost ←
    local_to_chf (fmul base_price_local quantity) currency (data_FX d);
  '(logistics_cost, lead_time) ←
    lane_cost d p origin_country assembly_country component_weight;
  let '(rate, source) :=
    if label_eqb assembly_country (Some "United States")
    then compute_tariff_rate (BomComponents.Class component) origin_country
           (scenario_date p) (tariff_records p) (data_Tariffs_US d)
    else (fl c0, "Outside US") in
  let component_tariff_value := fmul material_cost rate in
  mret
    {| line_material_cost := material_cost;
       line_logistics_cost := logistics_cost;
       line_lead_time := lead_time;
       line_tariff_value := component_tariff_value;
       line_flow_entry :=
         {| flow_SKU := sku;
            flow_component := Some (BomComponents.PartID component);
            from_site := origin_site;
            to_site := assembly_site_id p;
            from_country := origin_country;
            to_country := assembly_country;
            from_role := origin_role;
            to_role := Sites.Role assembly;
            tariff_rate := rate;
            tariff_source := source;
            cost_value :=
              fadd (fadd material_cost logistics_cost) component_tariff_value;
            cost_share := None |} |}.

(** the accumulation at the end of one iteration *)
Definition accumulate (t : Totals) (l : Line) : Totals :=
  {| material_total := fadd (material_total t) (line_material_cost l);
     inbound_logistics_total :=
       fadd (inbound_logistics_total t) (line_logistics_cost l);
     component_tariffs_total :=
       fadd (component_tariffs_total t) (line_tariff_value l);
     component_leads := component_leads t ++ [line_lead_time l];
     component_flow_entries :=
       component_flow_entries t ++ [line_flow_entry l] |}.

(** [for _, component in bom_components.iterrows(): ...] *)
Fixpoint component_loop (d : Data) (p : Params) (sku : string)
    (assembly : Sites.row) (yield_rate : pyfloat)
    (rows : list BomComponents.row) (t : Totals) : result Totals :=
  match rows with
  | [] => mret t
  | component :: rows' =>
      l ← component_line d p sku assembly yield_rate component;
      component_loop d p sku assembly yield_rate rows' (accumulate t l)
  end.

(** [option_row.get("Yield", 1.0)] followed by the zero guard *)
Definition yield_rate_of (option_row : AssemblyOptions.row) : pyfloat :=
  let yield_rate := getd (AssemblyOptions.Yield option_row) (fl c1) in
  if negb (truthy yield_rate) then fl c1 else yield_rate.

Definition option_mask (sku assembly_site : string)
    (o : AssemblyOptions.row) : bool :=
  label_eqb (AssemblyOptions.SKU o) (Some sku)
  && label_eqb (AssemblyOptions.AssemblySiteID o) (Some assembly_site).

Definition bom_mask (sku : string) (b : BOM.row) : bool :=
  label_eqb (BOM.ParentSKU b) (Some sku).

(** the comparison [assembly_country != "United States"] *)
Definition outside_us (assembly_country : label) : bool :=
  negb (label_eqb assembly_country (Some "United States")).

Definition final_tariff (d : Data) (p : Params) (assembly_country : label)
  : pyfloat * string :=
  if outside_us assembly_country
  then compute_tariff_rate (Some "FinalAssembly") assembly_country
         (scenario_date p) (tariff_records p) (data_Tariffs_US d)
  else (fl c0, "Domestic").

(** the assignment to the key ["cost_share"] of a flow record *)
Definition with_cost_share (entry : Flow) (s : pyfloat) : Flow :=
  {| flow_SKU := flow_SKU entry;
     flow_component := flow_component entry;
     from_site := from_site entry;
     to_site := to_site entry;
     from_country := from_country entry;
     to_country := to_country entry;
     from_role := from_role entry;
     to_role := to_role entry;
     tariff_rate := tariff_rate entry;
     tariff_source := tariff_source entry;
     cost_value := cost_value entry;
     cost_share := Some s |}.

(** [value / landed_cost if landed_cost else 0.0] *)
Definition share_of (value landed_cost : pyfloat) : result pyfloat :=
  if truthy landed_cost then fdiv value landed_cost else mret (fl c0).

(** the loop that moves the component entries to [flow_records] *)
Fixpoint emit_entries (landed_cost : pyfloat) (entries : list Flow)
  : result (list Flow) :=
  match entries with
  | [] => mret []
  | entry :: rest =>
      if fle (cost_value entry) (fl c0) then emit_entries landed_cost rest
      else
        s ← share_of (cost_value entry) landed_cost;
        out ← emit_entries landed_cost rest;
        mret (with_cost_share entry s :: out)
  end.

(** the local variables of the body of [for sku in TARGET_SKUS] once the
    inbound loop, the outbound leg and the list price are computed *)
Record Locals : Type := {
  sku_product : Products.row;
  option_row : AssemblyOptions.row;
  conversion_cost_chf : pyfloat;
  bom_components : list BomComponents.row;
  totals : Totals;
  outbound_cost : pyfloat;
  outbound_lead : pyfloat;
  final_tariff_rate : pyfloat;
  final_tariff_source : string;
  list_price_chf : pyfloat
}.

(** the first half of the loop body; [None] is a [continue] *)
Definition sku_locals (d : Data) (p : Params) (assembly : Sites.row)
    (sku : string) : result (option Locals) :=
  let assembly_country := Sites.Country assembly in
  match data_Products d !! sku with
  | None => mret None
  | Some product =>
  match iloc0 (loc (option_mask sku (assembly_site_id p))
                   (data_AssemblyOptions d)) with
  | None => mret None
  | Some opt =>
  let yield_rate := yield_rate_of opt in
  conversion ←
    usd_to_chf (getd (AssemblyOptions.BaseConvCost_USD opt) (fl c0))
               (data_FX d);
  match loc (bom_mask sku) (data_BOM d) with
  | [] => mret None
  | sku_bom =>
  let components_df :=
    List.map (merge_origin (data_Sites d)) (data_Components d) in
  let rows := merge_bom sku_bom components_df in
  t ← component_loop d p sku assembly yield_rate rows totals0;
  '(out_cost, out_lead) ←
    lane_cost d p assembly_country (Some "United States")
      (getd (Products.UnitWeight_kg product) (fl c0));
  let '(rate, source) := final_tariff d p assembly_country in
  list_price ←
    usd_to_chf (getd (Products.ListPrice_USD product) (fl c0)) (data_FX d);
  mret (Some {| sku_product := product;
                option_row := opt;
                conversion_cost_chf := conversion;
                bom_components := rows;
                totals := t;
                outbound_cost := out_cost;
                outbound_lead := out_lead;
                final_tariff_rate := rate;
                final_tariff_source := source;
                list_price_chf := list_price |})
  end end end.

Definition final_tariff_base (v : Locals) : pyfloat :=
  fadd (fadd (material_total (totals v)) (inbound_logistics_total (totals v)))
       (conversion_cost_chf v).

Definition final_tariff_value (v : Locals) : pyfloat :=
  fmul (final_tariff_base v) (final_tariff_rate v).

Definition total_tariffs (v : Locals) : pyfloat :=
  fadd (component_tariffs_total (totals v)) (final_tariff_value v).

Definition total_logistics (v : Locals) : pyfloat :=
  fadd (inbound_logistics_total (totals v)) (outbound_cost v).

Definition landed_cost (v : Locals) : pyfloat :=
  fadd (fadd (fadd (material_total (totals v)) (total_logistics v))
             (total_tariffs v))
       (conversion_cost_chf v).

Definition margin_chf (v : Locals) : pyfloat :=
  fsub (list_price_chf v) (landed_cost v).

Definition margin_pct (v : Locals) : result pyfloat :=
  if truthy (list_price_chf v) then fdiv (margin_chf v) (list_price_chf v)
  else mret (fl c0).

Definition lead_time_days (v : Locals) : pyfloat :=
  fadd
    match component_leads (totals v) with
    | [] => fl c0
    | x :: xs => py_max x xs
    end
    (outbound_lead v).

Definition summary_row (p : Params) (sku : string) (v : Locals)
    (pct : pyfloat) : ScenarioResult :=
  {| ScenarioDate := scenario_date p;
     AssemblySite := assembly_site_id p;
     SKU := sku;
     SKU_Display := str_remove "ACTUATOR_" sku;
     MaterialCost_CHF := material_total (totals v);
     InboundLogistics_CHF := inbound_logistics_total (totals v);
     OutboundLogistics_CHF := outbound_cost v;
     Tariffs_CHF := total_tariffs v;
     ConversionCost_CHF := conversion_cost_chf v;
     LandedCost_CHF := landed_cost v;
     ListPrice_CHF := list_price_chf v;
     Margin_CHF := margin_chf v;
     MarginPct := pct;
     LeadTime_days := lead_time_days v |}.

Definition final_flow_value (v : Locals) : pyfloat :=
  fadd (outbound_cost v) (final_tariff_value v).

(** the finished-good record, appended when its value is positive *)
Definition final_flow (p : Params) (assembly : Sites.row) (sku : string)
    (v : Locals) : result (list Flow) :=
  if fgt (final_flow_value v) (fl c0)
  then
    s ← share_of (final_flow_value v) (landed_cost v);
    mret
      [ {| flow_SKU := sku;
           flow_component := Some "Finished Good";
           from_site := Some (assembly_site_id p);
           to_site := US_CUSTOMER_NODE.SiteID;
           from_country := Sites.Country assembly;
           to_country := Some "United States";
           from_role := Sites.Role assembly;
           to_role := Some US_CUSTOMER_NODE.Role;
           tariff_rate := final_tariff_rate v;
           tariff_source := final_tariff_source v;
           cost_value := final_flow_value v;
           cost_share := Some s |} ]
  else mret [].

(** the body of [for sku in TARGET_SKUS]: the summary row and the flow
    records of one SKU, or [None] when the SKU is skipped *)
Definition rollup_sku (d : Data) (p : Params) (assembly : Sites.row)
    (sku : string) : result (option (ScenarioResult * list Flow)) :=
  o ← sku_locals d p assembly sku;
  match o with
  | None => mret None
  | Some v =>
      pct ← margin_pct v;
      emitted ←
        emit_entries (landed_cost v) (component_flow_entries (totals v));
      final ← final_flow p assembly sku v;
      mret (Some (summary_row p sku v pct, (emitted ++ final)%list))
  end.

(** [for sku in TARGET_SKUS: ...] with the two result lists threaded *)
Fixpoint sku_loop (d : Data) (p : Params) (assembly : Sites.row)
    (skus : list string) (scenario_results : list ScenarioResult)
    (flow_records : list Flow) : result (list ScenarioResult * list Flow) :=
  match skus with
  | [] => mret (scenario_results, flow_records)
  | sku :: skus' =>
      r ← rollup_sku d p assembly sku;
      match r with
      | None => sku_loop d p assembly skus' scenario_results flow_records
      | Some (row, edges) =>
          sku_loop d p assembly skus'
            (scenario_results ++ [row])%list (flow_records ++ edges)%list
      end
  end.

Definition compute_costs (d : Data) (p : Params) : result Costs :=
  match data_Sites d !! assembly_site_id p with
  | None =>
      Raise (ValueError ("Unknown assembly site: " ++ assembly_site_id p))
  | Some assembly =>
      '(scenario_results, flow_records) ←
        sku_loop d p assembly TARGET_SKUS [] [];
      mret {| summary := scenario_results;
              flows := flow_records;
              assembly_site :=
                {| meta_id := assembly_site_id p;
                   meta_country := Sites.Country assembly;
                   meta_role := Sites.Role assembly |} |}
  end.

(** ** The override records of a call

    The caller passes the override table as a list of dictionaries, the
    rows of the table on the page, and [compute_costs] builds its frame
    with [pd.DataFrame(tariff_records)].  A dictionary may lack any key: a
    column of the frame exists when some dictionary has its key, a cell is
    missing where a dictionary lacks the key of an existing column, and a
    frame without rows or without columns is [empty].  The engine above
    takes the rows of a frame that has its two key columns; the
    definitions of this section follow the same source lines for a list of
    dictionaries, where the look-up of a missing key column raises
    [KeyError]. *)

Module OverrideRecord.
(** a dictionary of [tariff_records]; a rate is the number that
    [pd.to_numeric(errors="coerce")] reads from the value *)
Record t : Type := {
  ComponentClass : option label;
  OriginCountry : option label;
  DefaultRate_pct : option pyfloat;
  UserRate_pct : option pyfloat;
  (** the dictionary has a key besides these four *)
  other_keys : bool
}.

Definition has_key (r : t) : bool :=
  bool_decide (is_Some (ComponentClass r))
  || bool_decide (is_Some (OriginCountry r))
  || bool_decide (is_Some (DefaultRate_pct r))
  || bool_decide (is_Some (UserRate_pct r))
  || other_keys r.

(** the row of the frame for a dictionary, once the two rate columns are
    assigned *)
Definition to_row (r : t) : TariffInputs.row :=
  {| TariffInputs.ComponentClass := default None (ComponentClass r);
     TariffInputs.OriginCountry := default None (OriginCountry r);
     TariffInputs.DefaultRate_pct := default nan (DefaultRate_pct r);
     TariffInputs.UserRate_pct := default nan (UserRate_pct r) |}.
End OverrideRecord.

(** the frame [tariff_inputs] *)
Record OverrideFrame : Type := {
  frame_empty : bool;
  has_ComponentClass : bool;
  has_OriginCountry : bool;
  frame_rows : list TariffInputs.row
}.

(** [pd.DataFrame(tariff_records)] followed by the assignment of the two
    rate columns *)
Definition DataFrame (records : list OverrideRecord.t) : OverrideFrame :=
  {| frame_empty := negb (existsb OverrideRecord.has_key records);
     has_ComponentClass :=
       existsb
         (fun r => bool_decide (is_Some (OverrideRecord.ComponentClass r)))
         records;
     has_OriginCountry :=
       existsb
         (fun r => bool_decide (is_Some (OverrideRecord.OriginCountry r)))
         records;
     frame_rows := List.map OverrideRecord.to_row records |}.

(** the rows among which the resolver selects its candidate: none for an
    empty frame *)
Definition override_rows (tariff_inputs : OverrideFrame)
  : list TariffInputs.row :=
  if frame_empty tariff_inputs then [] else frame_rows tariff_inputs.

Module Records.
(** [compute_tariff_rate] on a frame: the mask is computed for a frame that
    is not empty, and its two column look-ups raise [KeyError] for a
    missing column; the rest is [compute_tariff_rate] above *)
Definition compute_tariff_rate (component_class origin_country : label)
    (scenario_date : date) (tariff_inputs : OverrideFrame)
    (tariffs_us : list Tariffs_US.row) : result (pyfloat * string) :=
  if negb (frame_empty tariff_inputs)
  then
    if negb (has_ComponentClass tariff_inputs)
    then Raise (KeyError "ComponentClass")
    else if negb (has_OriginCountry tariff_inputs)
    then Raise (KeyError "OriginCountry")
    else
      mret (compute_tariff_rate component_class origin_country scenario_date
              (frame_rows tariff_inputs) tariffs_us)
  else
    mret (compute_tariff_rate component_class origin_country scenario_date
            [] tariffs_us).

(** the body of the loop over the BOM lines *)
Definition component_line (d : Data) (p : Params)
    (tariff_inputs : OverrideFrame) (sku : string) (assembly : Sites.row)
    (yield_rate : pyfloat) (component : BomComponents.row) : result Line :=
  let assembly_country := Sites.Country assembly in
  quantity ← effective_quantity component yield_rate;
  let unit_weight := getd (BomComponents.UnitWeight_kg component) (fl c0) in
  let component_weight := fmul quantity unit_weight in
  let origin_site := BomComponents.OriginSiteID component in
  let origin_country := origin_country_of d component in
  let origin_role :=
    match origin_lookup (data_Sites d) origin_site with
    | Some s => Sites.Role s
    | None => None
    end in
  let currency := currency_of origin_country in
  let base_price_local :=
    getd (BomComponents.BasePrice_local component) (fl c0) in
  material_cost ←
    local_to_chf (fmul base_price_local quantity) currency (data_FX d);
  '(logistics_cost, lead_time) ←
    lane_cost d p origin_country assembly_country component_weight;
  '(rate, source) ←
    (if label_eqb assembly_country (Some "United States")
     then compute_tariff_rate (BomComponents.Class component) origin_country
            (scenario_date p) tariff_inputs (data_Tariffs_US d)
     else mret (fl c0, "Outside US"));
  let component_tariff_value := fmul material_cost rate in
  mret
    {| line_material_cost := material_cost;
       line_logistics_cost := logistics_cost;
       line_lead_time := lead_time;
       line_tariff_value := component_tariff_value;
       line_flow_entry :=
         {| flow_SKU := sku;
            flow_component := Some (BomComponents.PartID component);
            from_site := origin_site;
            to_site := assembly_site_id p;
            from_country := origin_country;
            to_country := assembly_country;
            from_role := origin_role;
            to_role := Sites.Role assembly;
            tariff_rate := rate;
            tariff_source := source;
            cost_value :=
              fadd (fadd material_cost logistics_cost) component_tariff_value;
            cost_share := None |} |}.

Fixpoint component_loop (d : Data) (p : Params)
    (tariff_inputs : OverrideFrame) (sku : string) (assembly : Sites.row)
    (yield_rate : pyfloat) (rows : list BomComponents.row) (t : Totals)
  : result Totals :=
  match rows with
  | [] => mret t
  | component :: rows' =>
      l ← component_line d p tariff_inputs sku assembly yield_rate component;
      component_loop d p tariff_inputs sku assembly yield_rate rows'
        (accumulate t l)
  end.

Definition final_tariff (d : Data) (p : Params)
    (tariff_inputs : OverrideFrame) (assembly_country : label)
  : result (pyfloat * string) :=
  if outside_us assembly_country
  then compute_tariff_rate (Some "FinalAssembly") assembly_country
         (scenario_date p) tariff_inputs (data_Tariffs_US d)
  else mret (fl c0, "Domestic").

Definition sku_locals (d : Data) (p : Params)
    (tariff_inputs : OverrideFrame) (assembly : Sites.row) (sku : string)
  : result (option Locals) :=
  let assembly_country := Sites.Country assembly in
  match data_Products d !! sku with
  | None => mret None
  | Some product =>
  match iloc0 (loc (option_mask sku (assembly_site_id p))
                   (data_AssemblyOptions d)) with
  | None => mret None
  | Some opt =>
  let yield_rate := yield_rate_of opt in
  conversion ←
    usd_to_chf (getd (AssemblyOptions.BaseConvCost_USD opt) (fl c0))
               (data_FX d);
  match loc (bom_mask sku) (data_BOM d) with
  | [] => mret None
  | sku_bom =>
  let components_df :=
    List.map (merge_origin (data_Sites d)) (data_Components d) in
  let rows := merge_bom sku_bom components_df in
  t ← component_loop d p tariff_inputs sku assembly yield_rate rows totals0;
  '(out_cost, out_lead) ←
    lane_cost d p assembly_country (Some "United States")
      (getd (Products.UnitWeight_kg product) (fl c0));
  '(rate, source) ← final_tariff d p tariff_inputs assembly_country;
  list_price ←
    usd_to_chf (getd (Products.ListPrice_USD product) (fl c0)) (data_FX d);
  mret (Some {| sku_product := product;
                option_row := opt;
                conversion_cost_chf := conversion;
                bom_components := rows;
                totals := t;
                outbound_cost := out_cost;
                outbound_lead := out_lead;
                final_tariff_rate := rate;
                final_tariff_source := source;
                list_price_chf := list_price |})
  end end end.

Definition rollup_sku (d : Data) (p : Params)
    (tariff_inputs : OverrideFrame) (assembly : Sites.row) (sku : string)
  : result (option (ScenarioResult * list Flow)) :=
  o ← sku_locals d p tariff_inputs assembly sku;
  match o with
  | None => mret None
  | Some v =>
      pct ← margin_pct v;
      emitted ←
        emit_entries (landed_cost v) (component_flow_entries (totals v));
      final ← final_flow p assembly sku v;
      mret (Some (summary_row p sku v pct, (emitted ++ final)%list))
  end.

Fixpoint sku_loop (d : Data) (p : Params) (tariff_inputs : OverrideFrame)
    (assembly : Sites.row) (skus : list string)
    (scenario_results : list ScenarioResult) (flow_records : list Flow)
  : result (list ScenarioResult * list Flow) :=
  match skus with
  | [] => mret (scenario_results, flow_records)
  | sku :: skus' =>
      r ← rollup_sku d p tariff_inputs assembly sku;
      match r with
      | None =>
          sku_loop d p tariff_inputs assembly skus' scenario_results
            flow_records
      | Some (row, edges) =>
          sku_loop d p tariff_inputs assembly skus'
            (scenario_results ++ [row])%list (flow_records ++ edges)%list
      end
  end.

(** [compute_costs(data, scenario_date, assembly_site_id, tariff_records,
    include_fixed_fees)] *)
Definition compute_costs (d : Data) (scenario : date) (site : string)
    (records : list OverrideRecord.t) (fees : bool) : result Costs :=
  let tariff_inputs := DataFrame records in
  let p :=
    {| scenario_date := scenario;
       assembly_site_id := site;
       tariff_records := override_rows tariff_inputs;
       include_fixed_fees := fees |} in
  match data_Sites d !! site with
  | None => Raise (ValueError ("Unknown assembly site: " ++ site))
  | Some assembly =>
      '(scenario_results, flow_records) ←
        sku_loop d p tariff_inputs assembly TARGET_SKUS [] [];
      mret {| summary := scenario_results;
              flows := flow_records;
              assembly_site :=
                {| meta_id := site;
                   meta_country := Sites.Country assembly;
                   meta_role := Sites.Role assembly |} |}
  end.
End Records.

(** ** Sample tables

    One product built from a motor from China and a gear from Germany, with
    assembly options in the United States and in Mexico.  The third BOM
    line names a part that is not in the Components table. *)

Module Sample.
Definition num (n : Z) : pyfloat := fl (Q2Qc (inject_Z n)).

Definition sites : gmap string Sites.row :=
  list_to_map
    [("S_CN", {| Sites.Country := Some "China";
                 Sites.Role := Some "Supplier" |});
     ("S_DE", {| Sites.Country := Some "Germany";
                 Sites.Role := Some "Supplier" |});
     ("S_US", {| Sites.Country := Some "United States";
                 Sites.Role := Some "Assembly" |});
     ("S_MX", {| Sites.Country := Some "Mexico";
                 Sites.Role := Some "Assembly" |})].

Definition lane (from_c to_c : string) (per_kg fixed days : Z)
  : LogisticsLanes.row :=
  {| LogisticsLanes.FromCountry := Some from_c;
     LogisticsLanes.ToCountry := Some to_c;
     LogisticsLanes.Cost_per_kg_USD := Some (num per_kg);
     LogisticsLanes.Fixed_per_shipment_USD := Some (num fixed);
     LogisticsLanes.LeadTime_days := Some (num days) |}.

Definition assembly_option (site : string) (yield : option pyfloat)
  : AssemblyOptions.row :=
  {| AssemblyOptions.SKU := Some "ACTUATOR_AX100";
     AssemblyOptions.AssemblySiteID := Some site;
     AssemblyOptions.BaseConvCost_USD := Some (num 9);
     AssemblyOptions.Yield := yield |}.

Definition bom_line (part : string) (qty : Z) : BOM.row :=
  {| BOM.ParentSKU := Some "ACTUATOR_AX100";
     BOM.PartID := part;
     BOM.Qty := Some (num qty) |}.

Definition fx : gmap string pyfloat :=
  list_to_map [("CHF", fl (Q2Qc (9 # 10))); ("CNY", num 1); ("EUR", num 1)].

Definition data : Data :=
  {| data_Products :=
       list_to_map
         [("ACTUATOR_AX100",
           {| Products.UnitWeight_kg := Some (num 2);
              Products.ListPrice_USD := Some (num 500) |})];
     data_BOM := [bom_line "P1" 2; bom_line "P2" 1; bom_line "PX" 1];
     data_Components :=
       [ {| Components.PartID := "P1";
            Components.Class := Some "motor";
            Components.UnitWeight_kg := Some (num 1);
            Components.BasePrice_local := Some (num 100);
            Components.OriginSiteID := Some "S_CN" |};
         {| Components.PartID := "P2";
            Components.Class := Some "gear";
            Components.UnitWeight_kg := Some (num 1);
            Components.BasePrice_local := Some (num 50);
            Components.OriginSiteID := Some "S_DE" |} ];
     data_Sites := sites;
     data_AssemblyOptions :=
       [assembly_option "S_US" (Some (num 1)); assembly_option "S_MX" None];
     data_LogisticsLanes :=
       [lane "China" "United States" 1 100 12;
        lane "Germany" "United States" 1 100 5;
        lane "China" "Mexico" 1 100 12;
        lane "Germany" "Mexico" 1 100 5;
        lane "Mexico" "United States" 1 100 3];
     data_Tariffs_US :=
       [ {| Tariffs_US.ScenarioDate := Some "2025-04-02";
            Tariffs_US.ComponentClass := Some "motor";
            Tariffs_US.OriginCountry := Some "China";
            Tariffs_US.US_AdValoremTariff_pct := num 10 |} ];
     data_FX := fx |}.

Definition params (site : string) : Params :=
  {| scenario_date := "2025-04-02";
     assembly_site_id := site;
     tariff_records := [];
     include_fixed_fees := false |}.


Definition us_site : Sites.row :=
  {| Sites.Country := Some "United States"; Sites.Role := Some "Assembly" |}.
Definition mx_site : Sites.row :=
  {| Sites.Country := Some "Mexico"; Sites.Role := Some "Assembly" |}.

(** two override rows for one key: the first has no user rate *)
Definition override (user : pyfloat) : TariffInputs.row :=
  {| TariffInputs.ComponentClass := Some "motor";
     TariffInputs.OriginCountry := Some "China";
     TariffInputs.DefaultRate_pct := num 25;
     TariffInputs.UserRate_pct := user |}.
Definition overrides : list TariffInputs.row :=
  [override nan; override (num 7)].
End Sample.

(** ** Vocabulary of the properties *)

(** a decidable equality test, to refute equations by evaluation *)
Definition feqb (x y : pyfloat) : bool :=
  match x, y with
  | nan, nan => true
  | fl a, fl b => Qeq_bool (this a) (this b)
  | _, _ => false
  end.

Definition returns {A : Type} (r : result A) : Prop := exists a, r = Ok a.

(** [r] is the first row of [df], in table order, that the mask selects *)
Definition first_row {A : Type} (mask : A -> bool) (df : list A) (r : A)
  : Prop :=
  exists pre post,
    df = (pre ++ r :: post)%list
    /\ Forall (fun x => mask x = false) pre
    /\ mask r = true.

(** the first override row of a key *)
Definition override_row (component_class origin_country : label)
    (tariff_inputs : list TariffInputs.row) (c : TariffInputs.row) : Prop :=
  first_row (override_mask component_class origin_country) tariff_inputs c.

(** the first schedule row of a date and key *)
Definition schedule_row (scenario_date : date)
    (component_class origin_country : label)
    (tariffs_us : list Tariffs_US.row) (s : Tariffs_US.row) : Prop :=
  first_row (scenario_mask scenario_date component_class origin_country)
    tariffs_us s.

Definition has_override (component_class origin_country : label)
    (tariff_inputs : list TariffInputs.row) : Prop :=
  exists c, override_row component_class origin_country tariff_inputs c
            /\ notna (TariffInputs.UserRate_pct c) = true.

Definition has_scenario (scenario_date : date)
    (component_class origin_country : label)
    (tariffs_us : list Tariffs_US.row) : Prop :=
  exists s, schedule_row scenario_date component_class origin_country
              tariffs_us s
            /\ notna (Tariffs_US.US_AdValoremTariff_pct s) = true.

Definition has_default (component_class origin_country : label)
    (tariff_inputs : list TariffInputs.row) : Prop :=
  exists c, override_row component_class origin_country tariff_inputs c
            /\ notna (TariffInputs.DefaultRate_pct c) = true.

(** [sum(xs)] *)
Definition fsum (xs : list pyfloat) : pyfloat :=
  fold_right fadd (fl c0) xs.

(** [total = 0.0] followed by [total += x] for every [x], in this order *)
Definition running_sum (xs : list pyfloat) : pyfloat :=
  fold_left fadd xs (fl c0).

Fixpoint component_lines (d : Data) (p : Params) (sku : string)
    (assembly : Sites.row) (yield_rate : pyfloat)
    (rows : list BomComponents.row) : result (list Line) :=
  match rows with
  | [] => mret []
  | component :: rows' =>
      l ← component_line d p sku assembly yield_rate component;
      ls ← component_lines d p sku assembly yield_rate rows';
      mret (l :: ls)
  end.

(** a computation that returns, or raises the [KeyError] of a key *)
Definition returns_or_raises_key {A : Type} (key : string) (r : result A)
  : Prop :=
  returns r \/ r = Raise (KeyError key).

(** the key column that the resolver misses first in a frame *)
Definition missing_key_column (tariff_inputs : OverrideFrame) : string :=
  if has_ComponentClass tariff_inputs then "OriginCountry"
  else "ComponentClass".

(** the outcomes of the engine on a list of override records *)
Definition benign {A : Type} (records : list OverrideRecord.t)
    (r : result A) : Prop :=
  returns_or_raises_key (missing_key_column (DataFrame records)) r.

(** the frame of the records has what the resolver looks up: it is empty,
    or it has the two key columns *)
Definition key_columns (records : list OverrideRecord.t) : bool :=
  frame_empty (DataFrame records)
  || (has_ComponentClass (DataFrame records)
      && has_OriginCountry (DataFrame records)).

(** a record that holds a user rate and nothing else *)
Definition rate_only_record : OverrideRecord.t :=
  {| OverrideRecord.ComponentClass := None;
     OverrideRecord.OriginCountry := None;
     OverrideRecord.DefaultRate_pct := None;
     OverrideRecord.UserRate_pct := Some (Sample.num 5);
     OverrideRecord.other_keys := false |}.

(** a record with the four keys of the table *)
Definition full_record : OverrideRecord.t :=
  {| OverrideRecord.ComponentClass := Some (Some "motor");
     OverrideRecord.OriginCountry := Some (Some "China");
     OverrideRecord.DefaultRate_pct := Some (Sample.num 25);
     OverrideRecord.UserRate_pct := Some nan;
     OverrideRecord.other_keys := false |}.

(** the tariff event on a flow record: rate and provenance *)
Definition tariff_event (e : Flow) : pyfloat * string :=
  (tariff_rate e, tariff_source e).

(** the sample tables with an empty yield cell for assembly in the US *)
Definition sample_nan_yield : Data :=
  {| data_Products := data_Products Sample.data;
     data_BOM := data_BOM Sample.data;
     data_Components := data_Components Sample.data;
     data_Sites := data_Sites Sample.data;
     data_AssemblyOptions := [Sample.assembly_option "S_US" (Some nan)];
     data_LogisticsLanes := data_LogisticsLanes Sample.data;
     data_Tariffs_US := data_Tariffs_US Sample.data;
     data_FX := data_FX Sample.data |}.

(** the test of the loop that moves component entries to the flow list *)
Definition kept (e : Flow) : bool := negb (fle (cost_value e) (fl c0)).
Definition dropped (e : Flow) : bool := fle (cost_value e) (fl c0).

(** the values that did not become flow records: the component entries with
    a non-positive value and the finished-good value when it is not
    positive *)
Definition dropped_values (v : Locals) : list pyfloat :=
  (List.map cost_value
     (List.filter dropped (component_flow_entries (totals v)))
   ++ (if fgt (final_flow_value v) (fl c0) then []
       else [final_flow_value v]))%list.

(** the values of the emitted flow records of a SKU *)
Definition emitted_values (v : Locals) : list pyfloat :=
  (List.map cost_value
     (List.filter kept (component_flow_entries (totals v)))
   ++ (if fgt (final_flow_value v) (fl c0) then [final_flow_value v]
       else []))%list.

(** the rate used for a code that is not in the FX table *)
Definition usd_fallback (fx_rates : gmap string pyfloat) : pyfloat :=
  default (fl c1) (fx_rates !! "USD").

(** an FX table whose USD row is not 1.0 *)
Definition fx_usd2 : gmap string pyfloat :=
  list_to_map [("USD", Sample.num 2); ("CHF", Sample.num 1)].

(** the lead time of the lane used between two countries, [0.0] without a
    lane *)
Definition lane_lead (d : Data) (from_c to_c : label) : pyfloat :=
  match first_lane d from_c to_c with
  | Some lane_row => getd (LogisticsLanes.LeadTime_days lane_row) (fl c0)
  | None => fl c0
  end.

(** the inbound lead time of a BOM line *)
Definition inbound_lead (d : Data) (assembly : Sites.row)
    (c : BomComponents.row) : pyfloat :=
  lane_lead d (origin_country_of d c) (Sites.Country assembly).


(** the flow records of one SKU in the returned list *)
Definition sku_flows (c : Costs) (sku : string) : list Flow :=
  List.filter (fun e => String.eqb (flow_SKU e) sku) (flows c).

(** ** The map, the KPI cards and the dashboard callback

    The functions below build plotly figures and Dash components.  A
    figure is represented by the traces and records it is built from; the
    library functions that turn a number into colours or into formatted
    text are the fields of a [Rendering]. *)

Record Rendering : Type := {
  (** [sample_colorscale(scale, x)]: the list of the colours sampled at the
      points given; a single number is taken as a list of one point *)
  sample_colorscale : string -> pyfloat -> list string;
  (** the strings that plotly accepts as a colour *)
  valid_color : string -> bool;
  (** the message of the [ValueError] of a refused colour *)
  invalid_color : string;
  (** the format specifications [:.1%], [:.1f] and [:.2f] *)
  format_percent1 : pyfloat -> string;
  format_fixed1 : pyfloat -> string;
  format_fixed2 : pyfloat -> string;
  (** the text of a missing cell inside an f-string *)
  missing_text : string
}.

(** [str(x)] of a text cell inside an f-string *)
Definition str_label (R : Rendering) (l : label) : string :=
  match l with Some s => s | None => missing_text R end.

Module MapNodes.
Record row : Type := {
  SiteID : string;
  City : label;
  Role : label;
  Lat : pyfloat;
  Lon : pyfloat
}.
End MapNodes.

(** the dictionary [US_CUSTOMER_NODE] as a row of the node table *)
Definition us_customer_node : MapNodes.row :=
  {| MapNodes.SiteID := US_CUSTOMER_NODE.SiteID;
     MapNodes.City := Some "US Market";
     MapNodes.Role := Some US_CUSTOMER_NODE.Role;
     MapNodes.Lat := fl (Q2Qc (418781 # 10000));
     MapNodes.Lon := fl (Q2Qc (-876298 # 10000)) |}.

(** [drop_duplicates(subset="SiteID", keep="first")], given the identifiers
    already seen *)
Fixpoint drop_duplicates (seen : list string) (rows : list MapNodes.row)
  : list MapNodes.row :=
  match rows with
  | [] => []
  | r :: rows' =>
      if existsb (String.eqb (MapNodes.SiteID r)) seen
      then drop_duplicates seen rows'
      else r :: drop_duplicates (MapNodes.SiteID r :: seen) rows'
  end.

(** [nodes_ext]: the node table with the customer node appended, without
    repeated identifiers, indexed by [SiteID] *)
Definition nodes_ext (nodes : list MapNodes.row) : list MapNodes.row :=
  drop_duplicates [] (nodes ++ [us_customer_node]).

(** [nodes_ext.loc[site]] guarded by [site in nodes_ext.index] *)
Definition node_of (ext : list MapNodes.row) (site : label)
  : option MapNodes.row :=
  match site with
  | Some s => List.find (fun r => String.eqb (MapNodes.SiteID r) s) ext
  | None => None
  end.

Inductive Trace : Type :=
| Lines (lon lat : pyfloat * pyfloat) (colour : string) (width : pyfloat)
    (text : string)
| Markers (lon lat : list pyfloat) (text : list string).

(** a value given for the property [line.color] of a trace *)
Inductive color_value : Type :=
| ColorString (s : string)
| ColorList (l : list string).

(** the validator of the property [line.color] of [go.Scattergeo], which
    runs when the trace is constructed: a colour string passes, a list is
    refused with a [ValueError] *)
Definition validate_line_color (R : Rendering) (v : color_value)
  : result string :=
  match v with
  | ColorString s =>
      if valid_color R s then Ok s else Raise (ValueError (invalid_color R))
  | ColorList _ => Raise (ValueError (invalid_color R))
  end.

(** a row of [comparison_records] *)
Record ComparisonRecord : Type := {
  cmp_AssemblySite : string;
  cmp_SKU : string;
  cmp_LandedCost_CHF : pyfloat
}.

Inductive Figure : Type :=
| EmptyFigure (title : option string)
| GeoFigure (natural_earth : bool) (traces : list Trace)
| BarFigure (title : string) (records : list ComparisonRecord)
| ScatterFigure (title : string) (rows : list ScenarioResult).

(** [flow_df["cost_share"].fillna(0.0).clip(lower=0.0)] for one record *)
Definition clipped_share (e : Flow) : pyfloat :=
  match cost_share e with
  | Some (fl q) => if Qc_ltb q c0 then fl c0 else fl q
  | _ => fl c0
  end.

(** [min(x, y)] of Python for two arguments *)
Definition py_min2 (x y : pyfloat) : pyfloat := if fgt x y then y else x.

Definition hover_text (R : Rendering) (flow : Flow) (share : pyfloat)
  : string :=
  str_label R (flow_component flow) ++ " ("
  ++ str_label R (from_country flow) ++ " → "
  ++ str_label R (to_country flow) ++ ")<br>Share: "
  ++ format_percent1 R share ++ "<br>Tariff: "
  ++ format_fixed1 R (fmul (tariff_rate flow) (fl c100)) ++ "% ("
  ++ tariff_source flow ++ ")".

(** the body of the loop over the flows: [None] is a [continue]; the
    colour that [sample_colorscale] returns is a list, and the trace is
    constructed with it *)
Definition line_trace (R : Rendering) (ext : list MapNodes.row) (flow : Flow)
  : result (option Trace) :=
  match node_of ext (from_site flow), node_of ext (Some (to_site flow)) with
  | Some start, Some finish =>
      let share := clipped_share flow in
      let color :=
        sample_colorscale R "Viridis"
          (py_min2 (py_max share [fl c0]) (fl c1)) in
      let hover := hover_text R flow share in
      colour ← validate_line_color R (ColorList color);
      mret (Some (Lines (MapNodes.Lon start, MapNodes.Lon finish)
                        (MapNodes.Lat start, MapNodes.Lat finish)
                        colour
                        (fadd (fl (Q2Qc 2)) (fmul (fl (Q2Qc 6)) share))
                        hover))
  | _, _ => mret None
  end.

(** [for _, flow in flow_df.iterrows(): ...] *)
Fixpoint flow_loop (R : Rendering) (ext : list MapNodes.row)
    (flows : list Flow) (traces : list Trace) : result (list Trace) :=
  match flows with
  | [] => mret traces
  | flow :: rest =>
      t ← line_trace R ext flow;
      flow_loop R ext rest (traces ++ option_list t)%list
  end.

(** the test that selects [unique_nodes] *)
Definition is_endpoint (flows : list Flow) (r : MapNodes.row) : bool :=
  existsb (fun e => label_eqb (from_site e) (Some (MapNodes.SiteID r))) flows
  || existsb (fun e => String.eqb (to_site e) (MapNodes.SiteID r)) flows.

Definition marker_text (R : Rendering) (r : MapNodes.row) : string :=
  MapNodes.SiteID r ++ ": " ++ str_label R (MapNodes.City r) ++ "<br>"
  ++ str_label R (MapNodes.Role r).

Definition build_map (R : Rendering) (flow_records : list Flow)
    (nodes : list MapNodes.row) : result Figure :=
  match flow_records with
  | [] => mret (GeoFigure false [])
  | _ =>
      let ext := nodes_ext nodes in
      if forallb (fun e => negb (bool_decide (is_Some (cost_share e))))
           flow_records
      then Raise (KeyError "cost_share")
      else
        lines ← flow_loop R ext flow_records [];
        let unique_nodes := List.filter (is_endpoint flow_records) ext in
        mret
          (GeoFigure true
             (lines
              ++ [Markers (List.map MapNodes.Lon unique_nodes)
                          (List.map MapNodes.Lat unique_nodes)
                          (List.map (marker_text R) unique_nodes)])%list)
  end.

(** a KPI card: its title and its three paragraphs *)
Record Card : Type := {
  card_title : string;
  card_lines : list string
}.

Definition kpi_card (R : Rendering) (row : ScenarioResult) : Card :=
  let margin_pct_display :=
    if truthy (ListPrice_CHF row)
    then format_fixed1 R (fmul (MarginPct row) (fl c100)) ++ "%"
    else "N/A" in
  {| card_title := SKU_Display row;
     card_lines :=
       ["Landed cost: CHF " ++ format_fixed2 R (LandedCost_CHF row);
        "Margin: CHF " ++ format_fixed2 R (Margin_CHF row);
        "Margin %: " ++ margin_pct_display] |}.

Definition render_kpi_cards (R : Rendering) (summary : list ScenarioResult)
  : list Card :=
  match summary with
  | [] => []
  | _ => List.map (kpi_card R) summary
  end.

(** a row of the [breakdown] frame: the summary without its [SKU] column *)
Record BreakdownRow : Type := {
  bd_ScenarioDate : date;
  bd_AssemblySite : string;
  bd_SKU_Display : string;
  bd_MaterialCost_CHF : pyfloat;
  bd_InboundLogistics_CHF : pyfloat;
  bd_OutboundLogistics_CHF : pyfloat;
  bd_Tariffs_CHF : pyfloat;
  bd_ConversionCost_CHF : pyfloat;
  bd_LandedCost_CHF : pyfloat;
  bd_ListPrice_CHF : pyfloat;
  bd_Margin_CHF : pyfloat;
  bd_MarginPct : pyfloat;
  bd_LeadTime_days : pyfloat
}.

(** the entry ["breakdown"] of the dictionary that [compute_costs] returns *)
Definition breakdown (c : Costs) : list BreakdownRow :=
  List.map
    (fun row =>
       {| bd_ScenarioDate := ScenarioDate row;
          bd_AssemblySite := AssemblySite row;
          bd_SKU_Display := SKU_Display row;
          bd_MaterialCost_CHF := MaterialCost_CHF row;
          bd_InboundLogistics_CHF := InboundLogistics_CHF row;
          bd_OutboundLogistics_CHF := OutboundLogistics_CHF row;
          bd_Tariffs_CHF := Tariffs_CHF row;
          bd_ConversionCost_CHF := ConversionCost_CHF row;
          bd_LandedCost_CHF := LandedCost_CHF row;
          bd_ListPrice_CHF := ListPrice_CHF row;
          bd_Margin_CHF := Margin_CHF row;
          bd_MarginPct := MarginPct row;
          bd_LeadTime_days := LeadTime_days row |})
    (summary c).

(** a row of the what-if table *)
Record WhatIfRow : Type := {
  wi_AssemblySite : string;
  wi_SKU_Display : string;
  wi_LandedCost_CHF : pyfloat;
  wi_Margin_CHF : pyfloat;
  wi_LeadTime_days : pyfloat
}.

Definition what_if_row (row : ScenarioResult) : WhatIfRow :=
  {| wi_AssemblySite := AssemblySite row;
     wi_SKU_Display := SKU_Display row;
     wi_LandedCost_CHF := LandedCost_CHF row;
     wi_Margin_CHF := Margin_CHF row;
     wi_LeadTime_days := LeadTime_days row |}.

(** the six outputs of the callback *)
Record Dashboard : Type := {
  kpi_cards : list Card;
  comparison_fig : Figure;
  breakdown_data : list BreakdownRow;
  map_fig : Figure;
  scatter_fig : Figure;
  what_if_table_data : list WhatIfRow
}.

(** the value returned from the [except ValueError] branch *)
Definition neutral_dashboard : Dashboard :=
  {| kpi_cards := [];
     comparison_fig := EmptyFigure None;
     breakdown_data := [];
     map_fig := EmptyFigure None;
     scatter_fig := EmptyFigure None;
     what_if_table_data := [] |}.

(** [d[key] = value] on a dictionary kept as its items in insertion order *)
Fixpoint dict_set {V : Type} (key : string) (value : V)
    (items : list (string * V)) : list (string * V) :=
  match items with
  | [] => [(key, value)]
  | (k, v) :: rest =>
      if String.eqb k key then (k, value) :: rest
      else (k, v) :: dict_set key value rest
  end.

(** the arguments that the callback passes to [compute_costs] for a site *)
Definition callback_params (scenario_value : date)
    (tariff_table : list TariffInputs.row) (fixed_fee_selection : list string)
    (site : string) : Params :=
  {| scenario_date := scenario_value;
     assembly_site_id := site;
     tariff_records := tariff_table;
     include_fixed_fees :=
       existsb (String.eqb "include") fixed_fee_selection |}.

(** [for site_id in assembly_sites: site_results[site_id] = compute_costs(...)] *)
Fixpoint site_loop (data : Data) (params : string -> Params)
    (sites : list string) (site_results : list (string * Costs))
  : result (list (string * Costs)) :=
  match sites with
  | [] => mret site_results
  | site_id :: sites' =>
      r ← compute_costs data (params site_id);
      site_loop data params sites' (dict_set site_id r site_results)
  end.

Definition comparison_records (site_results : list (string * Costs))
  : list ComparisonRecord :=
  flat_map
    (fun '(site_id, result) =>
       List.map
         (fun row =>
            {| cmp_AssemblySite := site_id;
               cmp_SKU := SKU_Display row;
               cmp_LandedCost_CHF := LandedCost_CHF row |})
         (summary result))
    site_results.

(** the callback [refresh_dashboard]; [data], the node table and
    [assembly_sites] are the variables it closes over *)
Definition refresh_dashboard (R : Rendering) (data : Data)
    (map_nodes : list MapNodes.row) (assembly_sites : list string)
    (scenario_value : date) (assembly_value : string)
    (tariff_table : list TariffInputs.row)
    (fixed_fee_selection : list string) (motor_route_site : string)
  : result Dashboard :=
  let params :=
    callback_params scenario_value tariff_table fixed_fee_selection in
  match compute_costs data (params assembly_value) with
  | Raise (ValueError _) => mret neutral_dashboard
  | Raise e => Raise e
  | Ok base_result =>
      site_results ← site_loop data params assembly_sites [];
      let records := comparison_records site_results in
      let comparison :=
        match records with
        | [] => EmptyFigure (Some "Landed cost by assembly site")
        | _ => BarFigure "Landed cost by assembly site" records
        end in
      let cards := render_kpi_cards R (summary base_result) in
      map ← build_map R (flows base_result) map_nodes;
      what_if_result ← compute_costs data (params motor_route_site);
      let what_if_summary := summary what_if_result in
      mret
        {| kpi_cards := cards;
           comparison_fig := comparison;
           breakdown_data := breakdown base_result;
           map_fig := map;
           scatter_fig :=
             match what_if_summary with
             | [] =>
                 EmptyFigure
                   (Some "Cost vs lead time (what-if motor routing)")
             | _ =>
                 ScatterFigure "Cost vs lead time (what-if motor routing)"
                   what_if_summary
             end;
           what_if_table_data := List.map what_if_row what_if_summary |}
  end.

(** a rendering to evaluate the functions with: one colour for every
    sample, formatted numbers left out of the text *)
Definition plain_rendering : Rendering :=
  {| sample_colorscale := fun _ _ => ["rgb(68, 1, 84)"];
     valid_color := fun _ => true;
     invalid_color := "Invalid value received for the 'color' property";
     format_percent1 := fun _ => "";
     format_fixed1 := fun _ => "";
     format_fixed2 := fun _ => "";
     missing_text := "nan" |}.

(** a node table for the sample sites; the Mexican plant is not on it *)
Definition sample_nodes : list MapNodes.row :=
  [ {| MapNodes.SiteID := "S_CN"; MapNodes.City := Some "Shenzhen";
       MapNodes.Role := Some "Supplier";
       MapNodes.Lat := Sample.num 22; MapNodes.Lon := Sample.num 114 |};
    {| MapNodes.SiteID := "S_DE"; MapNodes.City := Some "Stuttgart";
       MapNodes.Role := Some "Supplier";
       MapNodes.Lat := Sample.num 48; MapNodes.Lon := Sample.num 9 |};
    {| MapNodes.SiteID := "S_US"; MapNodes.City := Some "Monroe";
       MapNodes.Role := Some "Assembly";
       MapNodes.Lat := Sample.num 42; MapNodes.Lon := Sample.num (-83) |} ].

(** ** Vocabulary of the further properties *)

(** the three tests that decide whether the loop body rolls a SKU up or
    skips it: the product row, an assembly option for the chosen site and
    at least one BOM line *)
Definition buildable (d : Data) (p : Params) (sku : string) : bool :=
  match data_Products d !! sku with
  | None => false
  | Some _ =>
      match iloc0 (loc (option_mask sku (assembly_site_id p))
                       (data_AssemblyOptions d)) with
      | None => false
      | Some _ =>
          match loc (bom_mask sku) (data_BOM d) with
          | [] => false
          | _ => true
          end
      end
  end.

(** the tables with the column [Fixed_per_shipment_USD] of the lanes
    replaced *)
Definition with_fixed_fee (fee : LogisticsLanes.row -> option pyfloat)
    (l : LogisticsLanes.row) : LogisticsLanes.row :=
  {| LogisticsLanes.FromCountry := LogisticsLanes.FromCountry l;
     LogisticsLanes.ToCountry := LogisticsLanes.ToCountry l;
     LogisticsLanes.Cost_per_kg_USD := LogisticsLanes.Cost_per_kg_USD l;
     LogisticsLanes.Fixed_per_shipment_USD := fee l;
     LogisticsLanes.LeadTime_days := LogisticsLanes.LeadTime_days l |}.

Definition with_fixed_fees (fee : LogisticsLanes.row -> option pyfloat)
    (d : Data) : Data :=
  {| data_Products := data_Products d;
     data_BOM := data_BOM d;
     data_Components := data_Components d;
     data_Sites := data_Sites d;
     data_AssemblyOptions := data_AssemblyOptions d;
     data_LogisticsLanes :=
       List.map (with_fixed_fee fee) (data_LogisticsLanes d);
     data_Tariffs_US := data_Tariffs_US d;
     data_FX := data_FX d |}.

(** a site identifier is on the map: it is the identifier of a row of the
    node table or the identifier of the customer node *)
Definition on_map (nodes : list MapNodes.row) (site : label) : bool :=
  match site with
  | Some s =>
      existsb (fun r => String.eqb (MapNodes.SiteID r) s) nodes
      || String.eqb US_CUSTOMER_NODE.SiteID s
  | None => false
  end.

(** the test of the loop of [build_map] on a flow record: both its sites are
    on the map, so a line is constructed for it *)
Definition drawable (nodes : list MapNodes.row) (e : Flow) : bool :=
  on_map nodes (from_site e) && on_map nodes (Some (to_site e)).

(** a figure without a line trace *)
Definition no_line (f : Figure) : Prop :=
  match f with
  | GeoFigure _ traces =>
      Forall (fun t => match t with Lines _ _ _ _ _ => False | _ => True end)
        traces
  | _ => True
  end.

(** two summary rows that agree on every column that does not depend on
    tariffs *)
Definition same_untaxed (row row' : ScenarioResult) : Prop :=
  SKU row = SKU row'
  /\ SKU_Display row = SKU_Display row'
  /\ AssemblySite row = AssemblySite row'
  /\ MaterialCost_CHF row = MaterialCost_CHF row'
  /\ InboundLogistics_CHF row = InboundLogistics_CHF row'
  /\ OutboundLogistics_CHF row = OutboundLogistics_CHF row'
  /\ ConversionCost_CHF row = ConversionCost_CHF row'
  /\ ListPrice_CHF row = ListPrice_CHF row'
  /\ LeadTime_days row = LeadTime_days row'.

(** the records behind a comparison figure *)
Definition figure_records (f : Figure) : list ComparisonRecord :=
  match f with
  | BarFigure _ records => records
  | _ => []
  end.

(** the comparison records of one site and its result *)
Definition site_records (site_id : string) (result : Costs)
  : list ComparisonRecord :=
  List.map
    (fun row =>
       {| cmp_AssemblySite := site_id;
          cmp_SKU := SKU_Display row;
          cmp_LandedCost_CHF := LandedCost_CHF row |})
    (summary result).

(** the message of the [ValueError] for a site *)
Definition unknown_site (site : string) : exn :=
  ValueError ("Unknown assembly site: " ++ site).

(** ** The objects of a call

    [compute_costs] receives references: the dictionary [data] of frames
    and the list [tariff_records] of dictionaries.  The definitions of this
    section follow the statements of the function on a store of objects,
    with every object the function creates allocated in the store, every
    look-up of an object it did not copy read from the store at the place
    of the statement, and every assignment to a column, every item
    assignment and every [append] written to the store.  The frames that
    [set_index], [merge], [copy] and [pd.DataFrame] return are new objects
    that no other statement can reach, so they are local values of the
    call; [assembly_options], [logistics_lanes], [tariffs_us] and
    [data["BOM"]] are the frames of the caller.  The dictionaries of
    [component_flow_entries] are the objects that end up in
    [flow_records].  The module constants [TARGET_SKUS],
    [COUNTRY_TO_CURRENCY] and [US_CUSTOMER_NODE] are set when the module
    is loaded and only read afterwards, so they are constants here.  A
    look-up through a reference that holds an object of another kind
    raises [TypeError].  The numbers are computed with the functions
    above. *)

(** a reference is the place of its object in the store *)
Abbreviation address := nat (only parsing).

(** a frame of the dictionary [data] *)
Inductive Frame : Type :=
| Products_frame (t : gmap string Products.row)
| BOM_frame (t : list BOM.row)
| Components_frame (t : list Components.row)
| Sites_frame (t : gmap string Sites.row)
| AssemblyOptions_frame (t : list AssemblyOptions.row)
| LogisticsLanes_frame (t : list LogisticsLanes.row)
| Tariffs_US_frame (t : list Tariffs_US.row)
| FX_frame (t : gmap string pyfloat).

(** the dictionary [data]: the frame of every sheet the function uses *)
Record DataRefs : Type := {
  ref_Products : address;
  ref_BOM : address;
  ref_Components : address;
  ref_Sites : address;
  ref_AssemblyOptions : address;
  ref_LogisticsLanes : address;
  ref_Tariffs_US : address;
  ref_FX : address
}.

Inductive object : Type :=
| ODataDict (refs : DataRefs)
| OFrame (f : Frame)
| ORecords (items : list address)
| ORecord (r : OverrideRecord.t)
| OOverrides (f : OverrideFrame)
| OFloats (items : list pyfloat)
| OFlows (items : list address)
| OFlow (e : Flow)
| ORows (items : list address)
| ORow (r : ScenarioResult)
| OSummary (rows : list ScenarioResult).

Abbreviation store := (list object) (only parsing).

(** a statement: it runs on a store and leaves a store, also when it
    raises *)
Definition Run (A : Type) : Type := store -> result A * store.

#[global] Instance Run_ret : MRet Run := fun _ a h => (Ok a, h).
#[global] Instance Run_bind : MBind Run := fun _ _ f m h =>
  match m h with
  | (Ok a, h') => f a h'
  | (Raise e, h') => (Raise e, h')
  end.

(** a computation on values *)
Definition lift {A : Type} (r : result A) : Run A := fun h => (r, h).

(** a new object *)
Definition alloc (o : object) : Run address :=
  fun h => (Ok (length h), (h ++ [o])%list).

Definition read (l : address) : Run object :=
  fun h =>
    match h !! l with
    | Some o => (Ok o, h)
    | None => (Raise TypeError, h)
    end.

(** an assignment into the object of a reference *)
Definition write (l : address) (o : object) : Run unit :=
  fun h => (Ok tt, <[l := o]> h).

(** the object of a reference, read as a value of one kind *)
Definition read_as {A : Type} (kind : object -> option A) (l : address)
  : Run A :=
   o ← read l;
   match kind o with
   | Some a => mret a
   | None => lift (Raise TypeError)
   end.

Fixpoint read_each {A : Type} (kind : object -> option A) (ls : list address)
  : Run (list A) :=
  match ls with
  | [] => mret []
  | l :: ls' =>
       a ← read_as kind l;
       rest ← read_each kind ls';
       mret (a :: rest)
  end.

Definition as_data (o : object) : option DataRefs :=
  match o with ODataDict refs => Some refs | _ => None end.
Definition as_Products (o : object) : option (gmap string Products.row) :=
  match o with OFrame (Products_frame t) => Some t | _ => None end.
Definition as_BOM (o : object) : option (list BOM.row) :=
  match o with OFrame (BOM_frame t) => Some t | _ => None end.
Definition as_Components (o : object) : option (list Components.row) :=
  match o with OFrame (Components_frame t) => Some t | _ => None end.
Definition as_Sites (o : object) : option (gmap string Sites.row) :=
  match o with OFrame (Sites_frame t) => Some t | _ => None end.
Definition as_AssemblyOptions (o : object)
  : option (list AssemblyOptions.row) :=
  match o with OFrame (AssemblyOptions_frame t) => Some t | _ => None end.
Definition as_LogisticsLanes (o : object)
  : option (list LogisticsLanes.row) :=
  match o with OFrame (LogisticsLanes_frame t) => Some t | _ => None end.
Definition as_Tariffs_US (o : object) : option (list Tariffs_US.row) :=
  match o with OFrame (Tariffs_US_frame t) => Some t | _ => None end.
Definition as_FX (o : object) : option (gmap string pyfloat) :=
  match o with OFrame (FX_frame t) => Some t | _ => None end.
Definition as_records (o : object) : option (list address) :=
  match o with ORecords items => Some items | _ => None end.
Definition as_record (o : object) : option OverrideRecord.t :=
  match o with ORecord r => Some r | _ => None end.
Definition as_overrides (o : object) : option OverrideFrame :=
  match o with OOverrides f => Some f | _ => None end.
Definition as_floats (o : object) : option (list pyfloat) :=
  match o with OFloats items => Some items | _ => None end.
Definition as_flows (o : object) : option (list address) :=
  match o with OFlows items => Some items | _ => None end.
Definition as_flow (o : object) : option Flow :=
  match o with OFlow e => Some e | _ => None end.
Definition as_rows (o : object) : option (list address) :=
  match o with ORows items => Some items | _ => None end.
Definition as_row (o : object) : option ScenarioResult :=
  match o with ORow r => Some r | _ => None end.
Definition as_summary (o : object) : option (list ScenarioResult) :=
  match o with OSummary rows => Some rows | _ => None end.

(** [data[sheet]] *)
Definition sheet {A : Type} (data : address) (ref : DataRefs -> address)
    (kind : object -> option A) : Run A :=
   refs ← read_as as_data data; read_as kind (ref refs).

(** the local variables of a call that hold a reference or a frame made
    in the call *)
Record Env : Type := {
  env_data : address;
  env_tariff_inputs : address;
  (** [fx_rates], [sites] and [origin_info], [products], [components_df]:
      new frames *)
  env_fx_rates : gmap string pyfloat;
  env_sites : gmap string Sites.row;
  env_products : gmap string Products.row;
  env_components : list Components.row;
  (** [assembly_options], [logistics_lanes], [tariffs_us]: the frames of
      [data] themselves *)
  env_assembly_options : address;
  env_logistics_lanes : address;
  env_tariffs_us : address;
  env_scenario_results : address;
  env_flow_records : address
}.

(** the tables that the statements at one place of the loop read: the
    frames made in the call, and the frames of [data] as they are in the
    store at that place *)
Definition tables (env : Env) : Run Data :=
   assembly_options ←
     read_as as_AssemblyOptions (env_assembly_options env);
   logistics_lanes ← read_as as_LogisticsLanes (env_logistics_lanes env);
   tariffs_us ← read_as as_Tariffs_US (env_tariffs_us env);
   bom ← sheet (env_data env) ref_BOM as_BOM;
   mret {| data_Products := env_products env;
          data_BOM := bom;
          data_Components := env_components env;
          data_Sites := env_sites env;
          data_AssemblyOptions := assembly_options;
          data_LogisticsLanes := logistics_lanes;
          data_Tariffs_US := tariffs_us;
          data_FX := env_fx_rates env |}.

Module Objects.
(** the tariff of a BOM line: the resolver is called for an assembly in
    the United States, with [tariff_inputs] and [tariffs_us] as they are in
    the store *)
Definition component_tariff (env : Env) (p : Params)
    (assembly_country : label) (component : BomComponents.row)
    (origin_country : label) : Run (pyfloat * string) :=
  if label_eqb assembly_country (Some "United States")
  then
     d ← tables env;
     tariff_inputs ← read_as as_overrides (env_tariff_inputs env);
     lift (Records.compute_tariff_rate (BomComponents.Class component)
             origin_country (scenario_date p) tariff_inputs
             (data_Tariffs_US d))
  else mret (fl c0, "Outside US").

(** [for _, component in bom_components.iterrows(): ...]: the three totals
    are numbers, the two lists are objects; the statements are those of
    [Records.component_line], with the [append] to [component_leads]
    before the resolver is called and the dictionary of the flow entry
    made after it *)
Fixpoint component_loop (env : Env) (p : Params) (sku : string)
    (assembly : Sites.row) (yield_rate : pyfloat)
    (component_leads component_flow_entries : address)
    (rows : list BomComponents.row)
    (sums : pyfloat * pyfloat * pyfloat)
  : Run (pyfloat * pyfloat * pyfloat) :=
  match rows with
  | [] => mret sums
  | component :: rows' =>
      let '(material_total, inbound_logistics_total,
            component_tariffs_total) := sums in
      let assembly_country := Sites.Country assembly in
       quantity ← lift (effective_quantity component yield_rate);
       let unit_weight :=
         getd (BomComponents.UnitWeight_kg component) (fl c0) in
       let component_weight := fmul quantity unit_weight in
       let origin_site := BomComponents.OriginSiteID component in
       d ← tables env;
       let origin_country := origin_country_of d component in
       let origin_role :=
         match origin_lookup (data_Sites d) origin_site with
         | Some s => Sites.Role s
         | None => None
         end in
       let currency := currency_of origin_country in
       let base_price_local :=
         getd (BomComponents.BasePrice_local component) (fl c0) in
       material_cost ←
         lift (local_to_chf (fmul base_price_local quantity) currency
                 (data_FX d));
       let material_total := fadd material_total material_cost in
       d ← tables env;
       '(logistics_cost, lead_time) ←
         lift (lane_cost d p origin_country assembly_country
                 component_weight);
       let inbound_logistics_total :=
         fadd inbound_logistics_total logistics_cost in
       leads ← read_as as_floats component_leads;
       write component_leads (OFloats (leads ++ [lead_time])%list);;
       '(rate, source) ←
         component_tariff env p assembly_country component origin_country;
       let component_tariff_value := fmul material_cost rate in
       let component_tariffs_total :=
         fadd component_tariffs_total component_tariff_value in
       flow_entry ←
         alloc (OFlow
                  {| flow_SKU := sku;
                     flow_component := Some (BomComponents.PartID component);
                     from_site := origin_site;
                     to_site := assembly_site_id p;
                     from_country := origin_country;
                     to_country := assembly_country;
                     from_role := origin_role;
                     to_role := Sites.Role assembly;
                     tariff_rate := rate;
                     tariff_source := source;
                     cost_value :=
                       fadd (fadd material_cost logistics_cost)
                         component_tariff_value;
                     cost_share := None |});
       entries ← read_as as_flows component_flow_entries;
       write component_flow_entries (OFlows (entries ++ [flow_entry])%list);;
       component_loop env p sku assembly yield_rate component_leads
         component_flow_entries rows'
         (material_total, inbound_logistics_total, component_tariffs_total)
  end.

(** [for entry in component_flow_entries: ...]: the share is assigned into
    the dictionary of the entry, and the same dictionary is appended to
    [flow_records] *)
Fixpoint emit_entries (env : Env) (landed_cost : pyfloat)
    (entries : list address) : Run unit :=
  match entries with
  | [] => mret tt
  | entry :: rest =>
       e ← read_as as_flow entry;
       if fle (cost_value e) (fl c0) then emit_entries env landed_cost rest
       else
         s ← lift (share_of (cost_value e) landed_cost);
         write entry (OFlow (with_cost_share e s));;
         flow_records ← read_as as_flows (env_flow_records env);
         write (env_flow_records env) (OFlows (flow_records ++ [entry])%list);;
         emit_entries env landed_cost rest
  end.

(** the finished-good dictionary, its share and its [append] *)
Definition final_flow (env : Env) (p : Params) (assembly : Sites.row)
    (sku : string) (v : Locals) : Run unit :=
  if fgt (final_flow_value v) (fl c0)
  then
     final ←
       alloc (OFlow
                {| flow_SKU := sku;
                   flow_component := Some "Finished Good";
                   from_site := Some (assembly_site_id p);
                   to_site := US_CUSTOMER_NODE.SiteID;
                   from_country := Sites.Country assembly;
                   to_country := Some "United States";
                   from_role := Sites.Role assembly;
                   to_role := Some US_CUSTOMER_NODE.Role;
                   tariff_rate := final_tariff_rate v;
                   tariff_source := final_tariff_source v;
                   cost_value := final_flow_value v;
                   cost_share := None |});
     s ← lift (share_of (final_flow_value v) (landed_cost v));
     e ← read_as as_flow final;
     write final (OFlow (with_cost_share e s));;
     flow_records ← read_as as_flows (env_flow_records env);
     write (env_flow_records env) (OFlows (flow_records ++ [final])%list)
  else mret tt.

(** the body of [for sku in TARGET_SKUS] *)
Definition rollup_sku (env : Env) (p : Params) (assembly : Sites.row)
    (sku : string) : Run unit :=
  let assembly_country := Sites.Country assembly in
  match env_products env !! sku with
  | None => mret tt
  | Some product =>
       d ← tables env;
       match iloc0 (loc (option_mask sku (assembly_site_id p))
                        (data_AssemblyOptions d)) with
       | None => mret tt
       | Some opt =>
           let yield_rate := yield_rate_of opt in
           conversion ←
             lift (usd_to_chf
                     (getd (AssemblyOptions.BaseConvCost_USD opt) (fl c0))
                     (data_FX d));
           match loc (bom_mask sku) (data_BOM d) with
           | [] => mret tt
           | sku_bom =>
               let components_df :=
                 List.map (merge_origin (data_Sites d))
                   (data_Components d) in
               let rows := merge_bom sku_bom components_df in
               component_leads ← alloc (OFloats []);
               component_flow_entries ← alloc (OFlows []);
               '(material_total, inbound_logistics_total,
                  component_tariffs_total) ←
                 component_loop env p sku assembly yield_rate
                   component_leads component_flow_entries rows
                   (fl c0, fl c0, fl c0);
               d ← tables env;
               '(out_cost, out_lead) ←
                 lift (lane_cost d p assembly_country
                         (Some "United States")
                         (getd (Products.UnitWeight_kg product) (fl c0)));
               tariff_inputs ←
                 read_as as_overrides (env_tariff_inputs env);
               '(rate, source) ←
                 lift (Records.final_tariff d p tariff_inputs
                         assembly_country);
               list_price ←
                 lift (usd_to_chf
                         (getd (Products.ListPrice_USD product) (fl c0))
                         (data_FX d));
               leads ← read_as as_floats component_leads;
               entries ← read_as as_flows component_flow_entries;
               entry_values ← read_each as_flow entries;
               let v :=
                 {| sku_product := product;
                    option_row := opt;
                    conversion_cost_chf := conversion;
                    bom_components := rows;
                    totals :=
                      {| material_total := material_total;
                         inbound_logistics_total := inbound_logistics_total;
                         component_tariffs_total := component_tariffs_total;
                         component_leads := leads;
                         component_flow_entries := entry_values |};
                    outbound_cost := out_cost;
                    outbound_lead := out_lead;
                    final_tariff_rate := rate;
                    final_tariff_source := source;
                    list_price_chf := list_price |} in
               pct ← lift (margin_pct v);
               row ← alloc (ORow (summary_row p sku v pct));
               scenario_results ←
                 read_as as_rows (env_scenario_results env);
               write (env_scenario_results env)
                 (ORows (scenario_results ++ [row])%list);;
               emit_entries env (landed_cost v) entries;;
               final_flow env p assembly sku v
           end
       end
  end.

Fixpoint sku_loop (env : Env) (p : Params) (assembly : Sites.row)
    (skus : list string) : Run unit :=
  match skus with
  | [] => mret tt
  | sku :: skus' =>
       rollup_sku env p assembly sku;;
       sku_loop env p assembly skus'
  end.

(** the dictionary that a call returns: the frame [summary_df], the list
    [flow_records] and the entry of the assembly site *)
Record CostsRefs : Type := {
  summary_ref : address;
  flows_ref : address;
  assembly_site_entry : AssemblyMeta
}.

(** [compute_costs(data, scenario_date, assembly_site_id, tariff_records,
    include_fixed_fees)] *)
Definition compute_costs (data : address) (scenario : date) (site : string)
    (tariff_records : address) (fees : bool) : Run CostsRefs :=
   record_refs ← read_as as_records tariff_records;
   records ← read_each as_record record_refs;
   tariff_inputs ← alloc (OOverrides (DataFrame records));
   (if negb (frame_empty (DataFrame records))
    then
      frame ← read_as as_overrides tariff_inputs;
      write tariff_inputs (OOverrides frame);;
      frame ← read_as as_overrides tariff_inputs;
      write tariff_inputs (OOverrides frame)
    else mret tt);;
   fx_rates ← sheet data ref_FX as_FX;
   sites ← sheet data ref_Sites as_Sites;
   match sites !! site with
   | None => lift (Raise (ValueError ("Unknown assembly site: " ++ site)))
   | Some assembly =>
       products ← sheet data ref_Products as_Products;
       components ← sheet data ref_Components as_Components;
       refs ← read_as as_data data;
       scenario_results ← alloc (ORows []);
       flow_records ← alloc (OFlows []);
       let env :=
         {| env_data := data;
            env_tariff_inputs := tariff_inputs;
            env_fx_rates := fx_rates;
            env_sites := sites;
            env_products := products;
            env_components := components;
            env_assembly_options := ref_AssemblyOptions refs;
            env_logistics_lanes := ref_LogisticsLanes refs;
            env_tariffs_us := ref_Tariffs_US refs;
            env_scenario_results := scenario_results;
            env_flow_records := flow_records |} in
       let p :=
         {| scenario_date := scenario;
            assembly_site_id := site;
            tariff_records := override_rows (DataFrame records);
            include_fixed_fees := fees |} in
       sku_loop env p assembly TARGET_SKUS;;
       row_refs ← read_as as_rows scenario_results;
       rows ← read_each as_row row_refs;
       summary_df ← alloc (OSummary rows);
       mret {| summary_ref := summary_df;
              flows_ref := flow_records;
              assembly_site_entry :=
                {| meta_id := site;
                   meta_country := Sites.Country assembly;
                   meta_role := Sites.Role assembly |} |}
   end.

(** the tables behind the references of a returned dictionary *)
Definition contents (c : CostsRefs) : Run Costs :=
   rows ← read_as as_summary (summary_ref c);
   flow_refs ← read_as as_flows (flows_ref c);
   flow_records ← read_each as_flow flow_refs;
   mret {| summary := rows;
          flows := flow_records;
          assembly_site := assembly_site_entry c |}.
End Objects.

(** the outcome of a call as values: the tables of the returned
    dictionary, or the exception *)
Definition outcome_of (run : result Objects.CostsRefs * store)
  : result Costs :=
  match fst run with
  | Ok c => fst (Objects.contents c (snd run))
  | Raise e => Raise e
  end.

(** the store holds the tables [d] behind [data] and the dictionaries
    [records] behind [tariff_records] *)
Definition holds (h : store) (data tariff_records : address) (d : Data)
    (records : list OverrideRecord.t) : Prop :=
  exists refs record_refs,
    h !! data = Some (ODataDict refs)
    /\ h !! ref_Products refs = Some (OFrame (Products_frame (data_Products d)))
    /\ h !! ref_BOM refs = Some (OFrame (BOM_frame (data_BOM d)))
    /\ h !! ref_Components refs
       = Some (OFrame (Components_frame (data_Components d)))
    /\ h !! ref_Sites refs = Some (OFrame (Sites_frame (data_Sites d)))
    /\ h !! ref_AssemblyOptions refs
       = Some (OFrame (AssemblyOptions_frame (data_AssemblyOptions d)))
    /\ h !! ref_LogisticsLanes refs
       = Some (OFrame (LogisticsLanes_frame (data_LogisticsLanes d)))
    /\ h !! ref_Tariffs_US refs
       = Some (OFrame (Tariffs_US_frame (data_Tariffs_US d)))
    /\ h !! ref_FX refs = Some (OFrame (FX_frame (data_FX d)))
    /\ h !! tariff_records = Some (ORecords record_refs)
    /\ Forall2 (fun l r => h !! l = Some (ORecord r)) record_refs records.

(** a store with the sample tables and one override record *)
Definition sample_store : store :=
  [ ODataDict {| ref_Products := 1%nat; ref_BOM := 2%nat; ref_Components := 3%nat;
                 ref_Sites := 4%nat; ref_AssemblyOptions := 5%nat;
                 ref_LogisticsLanes := 6%nat; ref_Tariffs_US := 7%nat;
                 ref_FX := 8%nat |};
    OFrame (Products_frame (data_Products Sample.data));
    OFrame (BOM_frame (data_BOM Sample.data));
    OFrame (Components_frame (data_Components Sample.data));
    OFrame (Sites_frame (data_Sites Sample.data));
    OFrame (AssemblyOptions_frame (data_AssemblyOptions Sample.data));
    OFrame (LogisticsLanes_frame (data_LogisticsLanes Sample.data));
    OFrame (Tariffs_US_frame (data_Tariffs_US Sample.data));
    OFrame (FX_frame (data_FX Sample.data));
    ORecords [10%nat];
    ORecord full_record ].

(** the objects [ext] allocated after the store [h0]: the reference [a] is
    to one of them, which holds [o] *)
Definition new_at (h0 : store) (ext : list object) (a : address)
    (o : object) : Prop :=
  exists k, a = (length h0 + k)%nat /\ ext !! k = Some o.

(** the values behind a list of references to new objects *)
Definition all_at {A : Type} (h0 : store) (wrap : A -> object)
    (ext : list object) (ls : list address) (vs : list A) : Prop :=
  Forall2 (fun a v => new_at h0 ext a (wrap v)) ls vs.

(** the local variables of a call on the tables [d] behind [data], with
    the three objects it made before the loop *)
Definition call_env (data : address) (d : Data) (refs : DataRefs)
    (tariff_inputs scenario_results flow_records : address) : Env :=
  {| env_data := data;
     env_tariff_inputs := tariff_inputs;
     env_fx_rates := data_FX d;
     env_sites := data_Sites d;
     env_products := data_Products d;
     env_components := data_Components d;
     env_assembly_options := ref_AssemblyOptions refs;
     env_logistics_lanes := ref_LogisticsLanes refs;
     env_tariffs_us := ref_Tariffs_US refs;
     env_scenario_results := scenario_results;
     env_flow_records := flow_records |}.

(** the two result lists after the body of one SKU *)
Definition appended (o : option (ScenarioResult * list Flow))
    (rs : list ScenarioResult) (fs : list Flow)
  : list ScenarioResult * list Flow :=
  match o with
  | None => (rs, fs)
  | Some (row, edges) => ((rs ++ [row])%list, (fs ++ edges)%list)
  end.

(** the objects of a call between two SKUs: its frame of overrides and its
    two result lists, which hold the rows [rs] and the flow records [fs] *)
Definition call_objects (h0 : store) (ti sr fr : address)
    (F : OverrideFrame) (rs : list ScenarioResult) (fs : list Flow)
    (ext : list object) : Prop :=
  new_at h0 ext ti (OOverrides F)
  /\ exists rlocs flocs,
       new_at h0 ext sr (ORows rlocs)
       /\ all_at h0 ORow ext rlocs rs
       /\ new_at h0 ext fr (OFlows flocs)
       /\ all_at h0 OFlow ext flocs fs.

(** * Properties *)

(** ** Arithmetic of [pyfloat] *)

Lemma Qc_is_zero_spec (q : Qc) : Qc_is_zero q = true <-> q = c0.
Proof.
  unfold Qc_is_zero. rewrite Z.eqb_eq. split.
  - intros H. apply Qc_is_canon. unfold Qeq. simpl. rewrite H. reflexivity.
  - intros ->. reflexivity.
Qed.

Lemma feqb_false (x y : pyfloat) : feqb x y = false -> x <> y.
Proof.
  intros H ->. destruct y as [|b]; simpl in H; [discriminate |].
  assert (Qeq_bool (this b) (this b) = true)
    by (apply Qeq_bool_iff; reflexivity).
  congruence.
Qed.

Lemma feqb_true (x y : pyfloat) : feqb x y = true -> x = y.
Proof.
  destruct x as [|a], y as [|b]; simpl; try discriminate; [reflexivity |].
  intros H. f_equal. apply Qc_is_canon, Qeq_bool_iff, H.
Qed.

Lemma eval_Ok (r : result pyfloat) (y : pyfloat) :
  match r with Ok x => feqb x y | Raise _ => false end = true -> r = Ok y.
Proof.
  destruct r as [x|e]; [| discriminate].
  intros H. f_equal. apply feqb_true, H.
Qed.

Lemma truthy_fl_zero : truthy (fl c0) = false.
Proof. reflexivity. Qed.

Lemma truthy_false (x : pyfloat) : truthy x = false <-> x = fl c0.
Proof.
  destruct x as [|q]; simpl.
  - split; discriminate.
  - rewrite negb_false_iff, Qc_is_zero_spec. split; congruence.
Qed.

Lemma fadd_comm (x y : pyfloat) : fadd x y = fadd y x.
Proof. destruct x, y; simpl; try reflexivity. f_equal. apply Qcplus_comm. Qed.

Lemma fadd_assoc (x y z : pyfloat) : fadd x (fadd y z) = fadd (fadd x y) z.
Proof.
  destruct x, y, z; simpl; try reflexivity. f_equal. apply Qcplus_assoc.
Qed.

Lemma fadd_0_r (x : pyfloat) : fadd x (fl c0) = x.
Proof. destruct x; simpl; try reflexivity. f_equal. apply Qcplus_0_r. Qed.

Lemma fadd_0_l (x : pyfloat) : fadd (fl c0) x = x.
Proof. rewrite fadd_comm. apply fadd_0_r. Qed.


(** ** The [result] monad *)

Lemma returns_Ok {A : Type} (a : A) : returns (Ok a).
Proof. exists a. reflexivity. Qed.

Lemma returns_mret {A : Type} (a : A) : returns (mret a : result A).
Proof. exists a. reflexivity. Qed.

Lemma returns_bind {A B : Type} (m : result A) (f : A -> result B) :
  returns m -> (forall a, m = Ok a -> returns (f a)) -> returns (m ≫= f).
Proof. intros [a ->] H. simpl. apply H. reflexivity. Qed.

Lemma bind_Ok_inv {A B : Type} (m : result A) (f : A -> result B) (b : B) :
  m ≫= f = Ok b -> exists a, m = Ok a /\ f a = Ok b.
Proof. destruct m as [a|e]; simpl; [eauto | discriminate]. Qed.

Create HintDb totality.
#[local] Hint Resolve returns_Ok returns_mret : totality.

(** ** Division is guarded everywhere *)

Lemma fdiv_returns (x y : pyfloat) : truthy y = true -> returns (fdiv x y).
Proof.
  destruct y as [|b]; simpl; [eauto with totality |].
  intros H. apply negb_true_iff in H. rewrite H.
  destruct x; eauto with totality.
Qed.

Lemma usd_to_chf_returns (amount_usd : pyfloat) (fx : gmap string pyfloat) :
  returns (usd_to_chf amount_usd fx).
Proof.
  unfold usd_to_chf. destruct (isna amount_usd); [eauto with totality |].
  destruct (truthy (default (fl c1) (fx !! "CHF"))) eqn:Ht; simpl.
  - apply fdiv_returns, Ht.
  - eauto with totality.
Qed.

Lemma local_to_chf_returns (amount : pyfloat) (currency : string)
    (fx : gmap string pyfloat) : returns (local_to_chf amount currency fx).
Proof.
  unfold local_to_chf. destruct (isna amount); [eauto with totality |].
  apply usd_to_chf_returns.
Qed.

Lemma yield_rate_of_truthy (o : AssemblyOptions.row) :
  truthy (yield_rate_of o) = true.
Proof.
  unfold yield_rate_of.
  destruct (truthy (getd (AssemblyOptions.Yield o) (fl c1))) eqn:Ht; simpl;
    [exact Ht | reflexivity].
Qed.

Lemma lane_cost_returns (d : Data) (p : Params) (from_c to_c : label)
    (weight : pyfloat) : returns (lane_cost d p from_c to_c weight).
Proof.
  unfold lane_cost.
  destruct (first_lane _ _ _) as [lane_row|]; [| eauto with totality].
  apply returns_bind; [apply usd_to_chf_returns | eauto with totality].
Qed.

Lemma component_line_returns (d : Data) (p : Params) (sku : string)
    (assembly : Sites.row) (yield_rate : pyfloat) (c : BomComponents.row) :
  truthy yield_rate = true ->
  returns (component_line d p sku assembly yield_rate c).
Proof.
  intros Hy. unfold component_line.
  apply returns_bind; [apply fdiv_returns, Hy | intros quantity _].
  apply returns_bind; [apply local_to_chf_returns | intros material_cost _].
  apply returns_bind; [apply lane_cost_returns | intros [lc lt] _].
  destruct (if label_eqb _ _ then _ else _) as [rate source].
  eauto with totality.
Qed.

Lemma component_loop_returns (d : Data) (p : Params) (sku : string)
    (assembly : Sites.row) (yield_rate : pyfloat)
    (rows : list BomComponents.row) (t : Totals) :
  truthy yield_rate = true ->
  returns (component_loop d p sku assembly yield_rate rows t).
Proof.
  intros Hy. revert t.
  induction rows as [|c rows IH]; intros t; simpl; [eauto with totality |].
  apply returns_bind; [apply component_line_returns, Hy | intros l _].
  apply IH.
Qed.

Lemma share_of_returns (value landed_cost : pyfloat) :
  returns (share_of value landed_cost).
Proof.
  unfold share_of. destruct (truthy landed_cost) eqn:Ht;
    [apply fdiv_returns, Ht | eauto with totality].
Qed.

Lemma emit_entries_returns (landed_cost : pyfloat) (entries : list Flow) :
  returns (emit_entries landed_cost entries).
Proof.
  induction entries as [|e rest IH]; simpl; [eauto with totality |].
  destruct (fle (cost_value e) (fl c0)); [exact IH |].
  apply returns_bind; [apply share_of_returns | intros s _].
  apply returns_bind; [exact IH | eauto with totality].
Qed.

Lemma sku_locals_returns (d : Data) (p : Params) (assembly : Sites.row)
    (sku : string) : returns (sku_locals d p assembly sku).
Proof.
  unfold sku_locals.
  destruct (data_Products d !! sku) as [product|]; [| eauto with totality].
  destruct (iloc0 _) as [opt|]; [| eauto with totality].
  apply returns_bind; [apply usd_to_chf_returns | intros conv _].
  destruct (loc (bom_mask sku) (data_BOM d)) as [|b bs] eqn:Hbom;
    [eauto with totality |].
  apply returns_bind;
    [apply component_loop_returns, yield_rate_of_truthy | intros t _].
  apply returns_bind; [apply lane_cost_returns | intros [oc ol] _].
  destruct (final_tariff d p (Sites.Country assembly)) as [fr fs].
  apply returns_bind; [apply usd_to_chf_returns | eauto with totality].
Qed.

Lemma margin_pct_returns (v : Locals) : returns (margin_pct v).
Proof.
  unfold margin_pct. destruct (truthy (list_price_chf v)) eqn:Ht;
    [apply fdiv_returns, Ht | eauto with totality].
Qed.

Lemma final_flow_returns (p : Params) (assembly : Sites.row) (sku : string)
    (v : Locals) : returns (final_flow p assembly sku v).
Proof.
  unfold final_flow. destruct (fgt _ _); [| eauto with totality].
  apply returns_bind; [apply share_of_returns | eauto with totality].
Qed.

Lemma rollup_sku_returns (d : Data) (p : Params) (assembly : Sites.row)
    (sku : string) : returns (rollup_sku d p assembly sku).
Proof.
  unfold rollup_sku.
  apply returns_bind; [apply sku_locals_returns | intros [v|] _];
    [| eauto with totality].
  apply returns_bind; [apply margin_pct_returns | intros pct _].
  apply returns_bind; [apply emit_entries_returns | intros em _].
  apply returns_bind; [apply final_flow_returns | eauto with totality].
Qed.

Lemma sku_loop_returns (d : Data) (p : Params) (assembly : Sites.row)
    (skus : list string) (rs : list ScenarioResult) (fs : list Flow) :
  returns (sku_loop d p assembly skus rs fs).
Proof.
  revert rs fs. induction skus as [|sku skus IH]; intros rs fs; simpl;
    [eauto with totality |].
  apply returns_bind; [apply rollup_sku_returns | intros r _].
  destruct r as [[row edges]|]; apply IH.
Qed.

Lemma compute_costs_known (d : Data) (p : Params) :
  is_Some (data_Sites d !! assembly_site_id p) ->
  exists c, compute_costs d p = Ok c.
Proof.
  intros [assembly Hs]. unfold compute_costs. rewrite Hs.
  destruct (sku_loop_returns d p assembly TARGET_SKUS [] []) as [[rs fs] Hl].
  rewrite Hl. cbn [mbind result_bind]. eauto.
Qed.

Lemma compute_costs_unknown (d : Data) (p : Params) :
  data_Sites d !! assembly_site_id p = None ->
  compute_costs d p
  = Raise (ValueError ("Unknown assembly site: " ++ assembly_site_id p)).
Proof. intros Hs. unfold compute_costs. rewrite Hs. reflexivity. Qed.

(** *** The engine on override records *)

Lemma key_columns_resolver (records : list OverrideRecord.t)
    (cls org : label) (dt : date) (tus : list Tariffs_US.row) :
  key_columns records = true ->
  Records.compute_tariff_rate cls org dt (DataFrame records) tus
  = Ok (compute_tariff_rate cls org dt (override_rows (DataFrame records))
          tus).
Proof.
  unfold key_columns, Records.compute_tariff_rate, override_rows.
  destruct (frame_empty (DataFrame records)); [reflexivity |].
  cbn [orb negb]. intros H. apply andb_true_iff in H as [-> ->].
  reflexivity.
Qed.

Lemma missing_column_resolver (records : list OverrideRecord.t)
    (cls org : label) (dt : date) (tus : list Tariffs_US.row) :
  key_columns records = false ->
  Records.compute_tariff_rate cls org dt (DataFrame records) tus
  = Raise (KeyError (missing_key_column (DataFrame records))).
Proof.
  unfold key_columns, Records.compute_tariff_rate, missing_key_column.
  destruct (frame_empty (DataFrame records)); [discriminate |].
  cbn [orb negb].
  destruct (has_ComponentClass (DataFrame records)); [| reflexivity].
  cbn [andb negb]. intros ->. reflexivity.
Qed.

Section WithRecords.
Variables (d : Data) (p : Params) (records : list OverrideRecord.t).
Hypothesis rows_of_p : tariff_records p = override_rows (DataFrame records).

(** with the key columns, the engine on the records is the engine on the
    rows of their frame *)
Section KeyColumns.
Hypothesis Hkeys : key_columns records = true.

Lemma component_line_of_records (sku : string) (assembly : Sites.row)
    (y : pyfloat) (c : BomComponents.row) :
  Records.component_line d p (DataFrame records) sku assembly y c
  = component_line d p sku assembly y c.
Proof.
  unfold Records.component_line, component_line.
  destruct (effective_quantity c y) as [q|e]; [| reflexivity].
  cbn [mbind result_bind].
  destruct (local_to_chf _ _ _) as [m|e]; [| reflexivity].
  cbn [mbind result_bind].
  destruct (lane_cost _ _ _ _ _) as [[lc lt]|e]; [| reflexivity].
  cbn [mbind result_bind].
  rewrite key_columns_resolver by exact Hkeys. rewrite <- rows_of_p.
  destruct (label_eqb (Sites.Country assembly) (Some "United States"));
    cbn [mbind result_bind mret result_ret].
  - destruct (compute_tariff_rate _ _ _ _ _) as [rate source]. reflexivity.
  - reflexivity.
Qed.

Lemma component_loop_of_records (sku : string) (assembly : Sites.row)
    (y : pyfloat) (rows : list BomComponents.row) (t : Totals) :
  Records.component_loop d p (DataFrame records) sku assembly y rows t
  = component_loop d p sku assembly y rows t.
Proof.
  revert t. induction rows as [|c rows IH]; intros t; [reflexivity |].
  cbn [Records.component_loop component_loop].
  rewrite component_line_of_records.
  destruct (component_line d p sku assembly y c) as [l|e]; [| reflexivity].
  cbn [mbind result_bind]. apply IH.
Qed.

Lemma sku_locals_of_records (assembly : Sites.row) (sku : string) :
  Records.sku_locals d p (DataFrame records) assembly sku
  = sku_locals d p assembly sku.
Proof.
  unfold Records.sku_locals, sku_locals.
  destruct (data_Products d !! sku) as [product|]; [| reflexivity].
  destruct (iloc0 _) as [opt|]; [| reflexivity].
  destruct (usd_to_chf
              (getd (AssemblyOptions.BaseConvCost_USD opt) (fl c0))
              (data_FX d)) as [conv|e]; [| reflexivity].
  cbn [mbind result_bind].
  destruct (loc (bom_mask sku) (data_BOM d)) as [|b bs]; [reflexivity |].
  rewrite component_loop_of_records.
  destruct (component_loop _ _ _ _ _ _ _) as [t|e]; [| reflexivity].
  cbn [mbind result_bind].
  destruct (lane_cost _ _ _ _ _) as [[oc ol]|e]; [| reflexivity].
  cbn [mbind result_bind].
  unfold Records.final_tariff, final_tariff.
  rewrite key_columns_resolver by exact Hkeys. rewrite <- rows_of_p.
  destruct (outside_us (Sites.Country assembly));
    cbn [mbind result_bind mret result_ret].
  - destruct (compute_tariff_rate _ _ _ _ _) as [rate source]. reflexivity.
  - reflexivity.
Qed.

Lemma rollup_sku_of_records (assembly : Sites.row) (sku : string) :
  Records.rollup_sku d p (DataFrame records) assembly sku
  = rollup_sku d p assembly sku.
Proof.
  unfold Records.rollup_sku, rollup_sku. rewrite sku_locals_of_records.
  reflexivity.
Qed.

Lemma sku_loop_of_records (assembly : Sites.row) (skus : list string)
    (rs : list ScenarioResult) (fs : list Flow) :
  Records.sku_loop d p (DataFrame records) assembly skus rs fs
  = sku_loop d p assembly skus rs fs.
Proof.
  revert rs fs. induction skus as [|sku skus IH]; intros rs fs;
    [reflexivity |].
  cbn [Records.sku_loop sku_loop]. rewrite rollup_sku_of_records.
  destruct (rollup_sku d p assembly sku) as [[[row edges]|]|e];
    cbn [mbind result_bind]; [apply IH | apply IH | reflexivity].
Qed.
End KeyColumns.

(** whatever the records hold, the engine on them returns or raises the
    [KeyError] of the missing key column *)
Lemma benign_bind {A B : Type} (m : result A) (f : A -> result B) :
  benign records m -> (forall a, m = Ok a -> benign records (f a)) -> benign records (m ≫= f).
Proof.
  intros [[a ->] | ->] H; [apply H; reflexivity | right; reflexivity].
Qed.

Lemma benign_returns {A : Type} (m : result A) : returns m -> benign records m.
Proof. intros H. left. exact H. Qed.

Lemma resolver_benign (cls org : label) (dt : date)
    (tus : list Tariffs_US.row) :
  benign records (Records.compute_tariff_rate cls org dt (DataFrame records) tus).
Proof.
  destruct (key_columns records) eqn:E.
  - left. rewrite key_columns_resolver by exact E. eexists. reflexivity.
  - right. apply missing_column_resolver, E.
Qed.

Lemma component_line_benign (sku : string) (assembly : Sites.row)
    (y : pyfloat) (c : BomComponents.row) :
  truthy y = true ->
  benign records (Records.component_line d p (DataFrame records) sku assembly y c).
Proof.
  intros Hy. unfold Records.component_line.
  apply benign_bind; [apply benign_returns, fdiv_returns, Hy | intros q _].
  apply benign_bind;
    [apply benign_returns, local_to_chf_returns | intros m _].
  apply benign_bind;
    [apply benign_returns, lane_cost_returns | intros [lc lt] _].
  apply benign_bind.
  - destruct (label_eqb _ _); [apply resolver_benign |].
    left. eexists. reflexivity.
  - intros [rate source] _. left. eexists. reflexivity.
Qed.

Lemma component_loop_benign (sku : string) (assembly : Sites.row)
    (y : pyfloat) (rows : list BomComponents.row) (t : Totals) :
  truthy y = true ->
  benign records (Records.component_loop d p (DataFrame records) sku assembly y
            rows t).
Proof.
  intros Hy. revert t. induction rows as [|c rows IH]; intros t;
    cbn [Records.component_loop]; [left; eexists; reflexivity |].
  apply benign_bind; [apply component_line_benign, Hy | intros l _].
  apply IH.
Qed.

Lemma sku_locals_benign (assembly : Sites.row) (sku : string) :
  benign records (Records.sku_locals d p (DataFrame records) assembly sku).
Proof.
  unfold Records.sku_locals.
  destruct (data_Products d !! sku) as [product|];
    [| left; eexists; reflexivity].
  destruct (iloc0 _) as [opt|]; [| left; eexists; reflexivity].
  apply benign_bind;
    [apply benign_returns, usd_to_chf_returns | intros conv _].
  destruct (loc (bom_mask sku) (data_BOM d)) as [|b bs];
    [left; eexists; reflexivity |].
  apply benign_bind;
    [apply component_loop_benign, yield_rate_of_truthy | intros t _].
  apply benign_bind;
    [apply benign_returns, lane_cost_returns | intros [oc ol] _].
  apply benign_bind.
  - unfold Records.final_tariff.
    destruct (outside_us _); [apply resolver_benign |].
    left. eexists. reflexivity.
  - intros [rate source] _.
    apply benign_bind;
      [apply benign_returns, usd_to_chf_returns | intros lp _].
    left. eexists. reflexivity.
Qed.

Lemma rollup_sku_benign (assembly : Sites.row) (sku : string) :
  benign records (Records.rollup_sku d p (DataFrame records) assembly sku).
Proof.
  unfold Records.rollup_sku.
  apply benign_bind; [apply sku_locals_benign | intros [v|] _];
    [| left; eexists; reflexivity].
  apply benign_bind;
    [apply benign_returns, margin_pct_returns | intros pct _].
  apply benign_bind;
    [apply benign_returns, emit_entries_returns | intros em _].
  apply benign_bind;
    [apply benign_returns, final_flow_returns | intros fin _].
  left. eexists. reflexivity.
Qed.

Lemma sku_loop_benign (assembly : Sites.row) (skus : list string)
    (rs : list ScenarioResult) (fs : list Flow) :
  benign records (Records.sku_loop d p (DataFrame records) assembly skus rs fs).
Proof.
  revert rs fs. induction skus as [|sku skus IH]; intros rs fs;
    cbn [Records.sku_loop]; [left; eexists; reflexivity |].
  apply benign_bind; [apply rollup_sku_benign | intros r _].
  destruct r as [[row edges]|]; apply IH.
Qed.
End WithRecords.

(** the two embeddings of [compute_costs] agree on records whose frame has
    the key columns *)
Lemma compute_costs_of_records (d : Data) (scenario : date) (site : string)
    (records : list OverrideRecord.t) (fees : bool) :
  key_columns records = true ->
  Records.compute_costs d scenario site records fees
  = compute_costs d
      {| scenario_date := scenario;
         assembly_site_id := site;
         tariff_records := override_rows (DataFrame records);
         include_fixed_fees := fees |}.
Proof.
  intros Hkeys. unfold Records.compute_costs, compute_costs.
  cbn [assembly_site_id].
  destruct (data_Sites d !! site) as [assembly|]; [| reflexivity].
  rewrite sku_loop_of_records by (reflexivity || exact Hkeys).
  reflexivity.
Qed.

Lemma compute_costs_benign (d : Data) (scenario : date) (site : string)
    (records : list OverrideRecord.t) (fees : bool) :
  is_Some (data_Sites d !! site) ->
  returns_or_raises_key (missing_key_column (DataFrame records))
    (Records.compute_costs d scenario site records fees).
Proof.
  intros [assembly Hs]. unfold Records.compute_costs. rewrite Hs.
  apply benign_bind; [apply sku_loop_benign | intros [rs fs] _].
  left. eexists. reflexivity.
Qed.

(** C3 (amended): [compute_costs] raises the unknown-assembly-site
    [ValueError] exactly when the assembly site identifier is not a key of
    the Sites table, whatever the scenario date, override records and fee
    flag are, and it raises no other [ValueError].  When the site is
    present it returns a result for every list of override records whose
    frame is empty or has the two key columns; for the other lists it
    returns or raises the [KeyError] of the missing key column. *)
Theorem compute_costs_unknown_site_iff (d : Data) (scenario : date)
    (site : string) (records : list OverrideRecord.t) (fees : bool) :
  let outcome := Records.compute_costs d scenario site records fees in
  (outcome = Raise (ValueError ("Unknown assembly site: " ++ site))
   <-> data_Sites d !! site = None)
  /\ (forall msg,
        outcome = Raise (ValueError msg) -> data_Sites d !! site = None)
  /\ (returns outcome -> is_Some (data_Sites d !! site))
  /\ (is_Some (data_Sites d !! site) ->
      (key_columns records = true -> returns outcome)
      /\ (returns outcome
          \/ outcome
             = Raise (KeyError (missing_key_column (DataFrame records))))).
Proof.
  intros outcome. subst outcome.
  destruct (data_Sites d !! site) as [assembly|] eqn:Hs.
  - pose proof (compute_costs_benign d scenario site records fees) as Hb.
    rewrite Hs in Hb. specialize (Hb (ex_intro _ assembly eq_refl)).
    split; [| split; [| split]].
    + split; [| discriminate].
      intros H. rewrite H in Hb. destruct Hb as [[c Hc] | Hb]; discriminate.
    + intros msg H. rewrite H in Hb.
      destruct Hb as [[c Hc] | Hb]; discriminate.
    + eauto.
    + intros _. split; [| exact Hb].
      intros Hkeys. rewrite compute_costs_of_records by exact Hkeys.
      apply compute_costs_known. cbn [assembly_site_id]. rewrite Hs. eauto.
  - unfold Records.compute_costs. rewrite Hs.
    split; [| split; [| split]].
    + split; reflexivity.
    + reflexivity.
    + intros [c Hc]. discriminate.
    + intros [x Hx]. discriminate.
Qed.

(** C3, as stated, fails for a known site when the override records lack
    a key column: with one record that holds a user rate only, the call
    for the US site of the sample tables raises [KeyError] at the first
    look-up of the resolver. *)
Lemma known_site_raises_key_error :
  is_Some (data_Sites Sample.data !! "S_US")
  /\ Records.compute_costs Sample.data "2025-04-02" "S_US"
       [rate_only_record] false
     = Raise (KeyError "ComponentClass")
  /\ ~ returns
         (Records.compute_costs Sample.data "2025-04-02" "S_US"
            [rate_only_record] false).
Proof.
  assert (H : Records.compute_costs Sample.data "2025-04-02" "S_US"
                [rate_only_record] false
              = Raise (KeyError "ComponentClass"))
    by (vm_compute; reflexivity).
  split; [eexists; reflexivity |]. split; [exact H |].
  rewrite H. intros [c Hc]. discriminate.
Qed.

(** ** Tariff precedence *)

Lemma iloc0_loc_Some {A : Type} (mask : A -> bool) (df : list A) (r : A) :
  iloc0 (loc mask df) = Some r <-> first_row mask df r.
Proof.
  unfold iloc0, loc. split.
  - induction df as [|x df IH]; simpl; [discriminate |].
    destruct (mask x) eqn:Hx; simpl.
    + intros [= ->]. exists [], df. repeat split; [constructor | exact Hx].
    + intros H. destruct (IH H) as (pre & post & -> & Hpre & Hr).
      exists (x :: pre), post. repeat split; [constructor; assumption | exact Hr].
  - intros (pre & post & -> & Hpre & Hr).
    induction Hpre as [|x pre Hx _ IH]; simpl.
    + rewrite Hr. reflexivity.
    + rewrite Hx. exact IH.
Qed.

Lemma iloc0_loc_None {A : Type} (mask : A -> bool) (df : list A) :
  iloc0 (loc mask df) = None <-> Forall (fun x => mask x = false) df.
Proof.
  unfold iloc0, loc. induction df as [|x df IH]; simpl.
  - split; [constructor | reflexivity].
  - destruct (mask x) eqn:Hx; simpl.
    + split; [discriminate |]. intros H. inversion H; congruence.
    + rewrite IH. split; [constructor; assumption |].
      intros H. inversion H; assumption.
Qed.

Lemma first_row_unique {A : Type} (mask : A -> bool) (df : list A) (r r' : A) :
  first_row mask df r -> first_row mask df r' -> r = r'.
Proof. rewrite <- !iloc0_loc_Some. congruence. Qed.

Section Precedence.
Variables (component_class origin_country : label) (scenario_date : date).
Variables (tariff_inputs : list TariffInputs.row).
Variables (tariffs_us : list Tariffs_US.row).

Let resolved :=
  compute_tariff_rate component_class origin_country scenario_date
    tariff_inputs tariffs_us.

Lemma candidate_is_loc :
  match tariff_inputs with
  | [] => []
  | _ => loc (override_mask component_class origin_country) tariff_inputs
  end = loc (override_mask component_class origin_country) tariff_inputs.
Proof. destruct tariff_inputs; reflexivity. Qed.

(** C1 (amended): the resolver follows the first-match-wins chain, where
    "the override row" is the first row of the override table for
    (class, origin) and "the schedule row" the first row of the US
    schedule for (date, class, origin).  A numeric user rate of the
    override row gives (userRate/100, "Override"); otherwise a numeric
    rate of the schedule row gives (rate/100, "Scenario <date>");
    otherwise a numeric default rate of the override row gives
    (defaultRate/100, "Default"); otherwise the result is (0.0, "None"). *)
Theorem compute_tariff_rate_precedence :
  let override_row :=
    override_row component_class origin_country tariff_inputs in
  let schedule_row :=
    schedule_row scenario_date component_class origin_country tariffs_us in
  let has_override :=
    has_override component_class origin_country tariff_inputs in
  let has_scenario :=
    has_scenario scenario_date component_class origin_country tariffs_us in
  let has_default :=
    has_default component_class origin_country tariff_inputs in
  (forall c, override_row c ->
     notna (TariffInputs.UserRate_pct c) = true ->
     resolved = (fdiv_lit (TariffInputs.UserRate_pct c) c100, "Override"))
  /\ (~ has_override ->
      forall s, schedule_row s ->
        notna (Tariffs_US.US_AdValoremTariff_pct s) = true ->
        resolved = (fdiv_lit (Tariffs_US.US_AdValoremTariff_pct s) c100,
                    "Scenario " ++ scenario_date))
  /\ (~ has_override -> ~ has_scenario ->
      forall c, override_row c ->
        notna (TariffInputs.DefaultRate_pct c) = true ->
        resolved = (fdiv_lit (TariffInputs.DefaultRate_pct c) c100,
                    "Default"))
  /\ (~ has_override -> ~ has_scenario -> ~ has_default ->
      resolved = (fl c0, "None")).
Proof.
  intros orow srow hov hsc hdf. subst orow srow hov hsc hdf resolved.
  unfold compute_tariff_rate.
  rewrite candidate_is_loc.
  unfold has_override, has_scenario, has_default, override_row, schedule_row.
  set (ov := override_mask component_class origin_country).
  set (sc := scenario_mask scenario_date component_class origin_country).
  assert (Hov : forall c,
            first_row ov tariff_inputs c ->
            iloc0 (loc ov tariff_inputs) = Some c)
    by (intros c; apply iloc0_loc_Some).
  assert (Hsc : forall s,
            first_row sc tariffs_us s -> iloc0 (loc sc tariffs_us) = Some s)
    by (intros s; apply iloc0_loc_Some).
  repeat split.
  - intros c Hc Hu. rewrite (Hov c Hc), Hu. reflexivity.
  - intros Hno s Hs Hr. rewrite (Hsc s Hs), Hr.
    destruct (iloc0 (loc ov tariff_inputs)) as [c|] eqn:Hc; [| reflexivity].
    destruct (notna (TariffInputs.UserRate_pct c)) eqn:Hu; [| reflexivity].
    exfalso. apply Hno. exists c. split; [apply iloc0_loc_Some, Hc | exact Hu].
  - intros Hno Hns c Hc Hd. rewrite (Hov c Hc), Hd.
    destruct (notna (TariffInputs.UserRate_pct c)) eqn:Hu.
    { exfalso. apply Hno. exists c. split; assumption. }
    destruct (iloc0 (loc sc tariffs_us)) as [s|] eqn:Hs; [| reflexivity].
    destruct (notna (Tariffs_US.US_AdValoremTariff_pct s)) eqn:Hr;
      [| reflexivity].
    exfalso. apply Hns. exists s. split; [apply iloc0_loc_Some, Hs | exact Hr].
  - intros Hno Hns Hnd.
    assert (Hs' :
      match iloc0 (loc sc tariffs_us) with
      | Some s =>
          if notna (Tariffs_US.US_AdValoremTariff_pct s)
          then Some (fdiv_lit (Tariffs_US.US_AdValoremTariff_pct s) c100,
                     "Scenario " ++ scenario_date)
          else None
      | None => None
      end = None).
    { destruct (iloc0 (loc sc tariffs_us)) as [s|] eqn:Hs; [| reflexivity].
      destruct (notna (Tariffs_US.US_AdValoremTariff_pct s)) eqn:Hr;
        [| reflexivity].
      exfalso. apply Hns. exists s.
      split; [apply iloc0_loc_Some, Hs | exact Hr]. }
    rewrite Hs'.
    destruct (iloc0 (loc ov tariff_inputs)) as [c|] eqn:Hc; [| reflexivity].
    apply iloc0_loc_Some in Hc.
    destruct (notna (TariffInputs.UserRate_pct c)) eqn:Hu.
    { exfalso. apply Hno. exists c. split; assumption. }
    destruct (notna (TariffInputs.DefaultRate_pct c)) eqn:Hd; [| reflexivity].
    exfalso. apply Hnd. exists c. split; assumption.
Qed.
End Precedence.

(** ** The inbound loop as a list of lines *)

Lemma fsum_app (xs ys : list pyfloat) :
  fsum (xs ++ ys) = fadd (fsum xs) (fsum ys).
Proof.
  induction xs as [|x xs IH]; simpl.
  - symmetry. apply fadd_0_l.
  - fold (fsum (xs ++ ys)). fold (fsum xs). rewrite IH. apply fadd_assoc.
Qed.

Lemma component_loop_lines (d : Data) (p : Params) (sku : string)
    (assembly : Sites.row) (y : pyfloat) (rows : list BomComponents.row)
    (t t' : Totals) :
  component_loop d p sku assembly y rows t = Ok t' <->
  exists ls,
    component_lines d p sku assembly y rows = Ok ls
    /\ t' = fold_left accumulate ls t.
Proof.
  revert t. induction rows as [|c rows IH]; intros t; simpl.
  - split.
    + intros [= <-]. exists []. split; reflexivity.
    + intros (ls & [= <-] & ->). reflexivity.
  - destruct (component_line d p sku assembly y c) as [l|e]; simpl.
    + rewrite IH. split.
      * intros (ls & -> & ->). exists (l :: ls). split; reflexivity.
      * intros (ls & Hls & ->).
        destruct (component_lines d p sku assembly y rows) as [ls'|e];
          simpl in Hls; [| discriminate].
        injection Hls as <-. exists ls'. split; reflexivity.
    + split; [discriminate | intros (ls & H & _); discriminate].
Qed.

Lemma component_lines_length (d : Data) (p : Params) (sku : string)
    (assembly : Sites.row) (y : pyfloat) (rows : list BomComponents.row)
    (ls : list Line) :
  component_lines d p sku assembly y rows = Ok ls ->
  Forall2 (fun c l => component_line d p sku assembly y c = Ok l) rows ls.
Proof.
  revert ls. induction rows as [|c rows IH]; intros ls; simpl.
  - intros [= <-]. constructor.
  - destruct (component_line d p sku assembly y c) as [l|e] eqn:Hl; simpl;
      [| discriminate].
    destruct (component_lines d p sku assembly y rows) as [ls'|e]; simpl;
      [| discriminate].
    intros [= <-]. constructor; [exact Hl | apply IH; reflexivity].
Qed.

Lemma fold_accumulate (ls : list Line) (t : Totals) :
  let t' := fold_left accumulate ls t in
  material_total t'
    = fadd (material_total t) (fsum (List.map line_material_cost ls))
  /\ inbound_logistics_total t'
     = fadd (inbound_logistics_total t)
            (fsum (List.map line_logistics_cost ls))
  /\ component_tariffs_total t'
     = fadd (component_tariffs_total t)
            (fsum (List.map line_tariff_value ls))
  /\ component_leads t'
     = (component_leads t ++ List.map line_lead_time ls)%list
  /\ component_flow_entries t'
     = (component_flow_entries t ++ List.map line_flow_entry ls)%list.
Proof.
  revert t. induction ls as [|l ls IH]; intros t; simpl.
  - rewrite !fadd_0_r, !app_nil_r. repeat split; reflexivity.
  - destruct (IH (accumulate t l)) as (Hm & Hi & Ht & Hl & He).
    rewrite Hm, Hi, Ht, Hl, He. simpl.
    rewrite <- !fadd_assoc, <- !app_assoc. repeat split; reflexivity.
Qed.

(** the totals of a completed inbound loop, in terms of its lines *)
Lemma component_loop_totals (d : Data) (p : Params) (sku : string)
    (assembly : Sites.row) (y : pyfloat) (rows : list BomComponents.row)
    (t : Totals) :
  component_loop d p sku assembly y rows totals0 = Ok t ->
  exists ls,
    Forall2 (fun c l => component_line d p sku assembly y c = Ok l) rows ls
    /\ material_total t = fsum (List.map line_material_cost ls)
    /\ inbound_logistics_total t = fsum (List.map line_logistics_cost ls)
    /\ component_tariffs_total t = fsum (List.map line_tariff_value ls)
    /\ component_leads t = List.map line_lead_time ls
    /\ component_flow_entries t = List.map line_flow_entry ls.
Proof.
  intros H. apply component_loop_lines in H as (ls & Hls & ->).
  exists ls. split; [apply component_lines_length, Hls |].
  destruct (fold_accumulate ls totals0) as (Hm & Hi & Ht & Hl & He).
  rewrite Hm, Hi, Ht, Hl, He.
  cbn [totals0 material_total inbound_logistics_total component_tariffs_total
       component_leads component_flow_entries app].
  rewrite !fadd_0_l. repeat split; reflexivity.
Qed.

Lemma component_line_cost_value (d : Data) (p : Params) (sku : string)
    (assembly : Sites.row) (y : pyfloat) (c : BomComponents.row) (l : Line) :
  component_line d p sku assembly y c = Ok l ->
  cost_value (line_flow_entry l)
  = fadd (fadd (line_material_cost l) (line_logistics_cost l))
         (line_tariff_value l).
Proof.
  unfold component_line. intros H.
  apply bind_Ok_inv in H as (q & _ & H).
  apply bind_Ok_inv in H as (m & _ & H).
  apply bind_Ok_inv in H as ([lc lt] & _ & H).
  destruct (if label_eqb _ _ then _ else _) as [rate source].
  injection H as <-. reflexivity.
Qed.

(** ** What a completed SKU body computed *)

Lemma sku_locals_Some (d : Data) (p : Params) (assembly : Sites.row)
    (sku : string) (v : Locals) :
  sku_locals d p assembly sku = Ok (Some v) ->
  data_Products d !! sku = Some (sku_product v)
  /\ iloc0 (loc (option_mask sku (assembly_site_id p))
                (data_AssemblyOptions d)) = Some (option_row v)
  /\ usd_to_chf (getd (AssemblyOptions.BaseConvCost_USD (option_row v))
                      (fl c0)) (data_FX d)
     = Ok (conversion_cost_chf v)
  /\ loc (bom_mask sku) (data_BOM d) <> []
  /\ bom_components v
     = merge_bom (loc (bom_mask sku) (data_BOM d))
         (List.map (merge_origin (data_Sites d)) (data_Components d))
  /\ component_loop d p sku assembly (yield_rate_of (option_row v))
       (bom_components v) totals0 = Ok (totals v)
  /\ lane_cost d p (Sites.Country assembly) (Some "United States")
       (getd (Products.UnitWeight_kg (sku_product v)) (fl c0))
     = Ok (outbound_cost v, outbound_lead v)
  /\ final_tariff d p (Sites.Country assembly)
     = (final_tariff_rate v, final_tariff_source v)
  /\ usd_to_chf (getd (Products.ListPrice_USD (sku_product v)) (fl c0))
       (data_FX d)
     = Ok (list_price_chf v).
Proof.
  unfold sku_locals. intros H.
  destruct (data_Products d !! sku) as [product|]; [| discriminate].
  destruct (iloc0 _) as [opt|]; [| discriminate].
  apply bind_Ok_inv in H as (conv & Hconv & H).
  destruct (loc (bom_mask sku) (data_BOM d)) as [|b bs] eqn:Hbom;
    [discriminate |].
  apply bind_Ok_inv in H as (t & Ht & H).
  apply bind_Ok_inv in H as ([oc ol] & Hlane & H).
  destruct (final_tariff d p (Sites.Country assembly)) as [fr fs].
  apply bind_Ok_inv in H as (lp & Hlp & H).
  injection H as <-. simpl. repeat split; try assumption; try reflexivity.
  discriminate.
Qed.

Lemma rollup_sku_Some (d : Data) (p : Params) (assembly : Sites.row)
    (sku : string) (row : ScenarioResult) (edges : list Flow) :
  rollup_sku d p assembly sku = Ok (Some (row, edges)) ->
  exists v pct emitted final,
    sku_locals d p assembly sku = Ok (Some v)
    /\ margin_pct v = Ok pct
    /\ emit_entries (landed_cost v) (component_flow_entries (totals v))
       = Ok emitted
    /\ final_flow p assembly sku v = Ok final
    /\ row = summary_row p sku v pct
    /\ edges = (emitted ++ final)%list.
Proof.
  unfold rollup_sku. intros H.
  apply bind_Ok_inv in H as ([v|] & Hv & H); [| discriminate].
  apply bind_Ok_inv in H as (pct & Hpct & H).
  apply bind_Ok_inv in H as (emitted & Hem & H).
  apply bind_Ok_inv in H as (final & Hfin & H).
  injection H as <- <-. exists v, pct, emitted, final.
  repeat split; assumption.
Qed.

Lemma emit_entries_kept (landed : pyfloat) (entries emitted : list Flow) :
  emit_entries landed entries = Ok emitted ->
  Forall2
    (fun e e' =>
       exists s, share_of (cost_value e) landed = Ok s
                 /\ e' = with_cost_share e s)
    (List.filter kept entries) emitted.
Proof.
  revert emitted. induction entries as [|e rest IH]; intros emitted; simpl.
  - intros [= <-]. constructor.
  - unfold kept at 1. destruct (fle (cost_value e) (fl c0)); simpl.
    + apply IH.
    + intros H. apply bind_Ok_inv in H as (s & Hs & H).
      apply bind_Ok_inv in H as (out & Hout & H). injection H as <-.
      constructor; [exists s; split; [exact Hs | reflexivity] | apply IH, Hout].
Qed.

Lemma emit_entries_values (landed : pyfloat) (entries emitted : list Flow) :
  emit_entries landed entries = Ok emitted ->
  List.map cost_value emitted
  = List.map cost_value (List.filter kept entries).
Proof.
  intros H. apply emit_entries_kept in H.
  induction H as [|e e' es es' (s & _ & ->) _ IH]; simpl;
    [reflexivity | f_equal; exact IH].
Qed.

Lemma fsum_cons (x : pyfloat) (xs : list pyfloat) :
  fsum (x :: xs) = fadd x (fsum xs).
Proof. reflexivity. Qed.

Lemma final_flow_values (p : Params) (assembly : Sites.row) (sku : string)
    (v : Locals) (final : list Flow) :
  final_flow p assembly sku v = Ok final ->
  List.map cost_value final
  = if fgt (final_flow_value v) (fl c0) then [final_flow_value v] else [].
Proof.
  unfold final_flow. destruct (fgt (final_flow_value v) (fl c0)).
  - intros H. apply bind_Ok_inv in H as (s & _ & H). injection H as <-.
    reflexivity.
  - intros [= <-]. reflexivity.
Qed.

(** ** From the SKU body to the returned tables *)

Lemma sku_loop_outputs (d : Data) (p : Params) (assembly : Sites.row)
    (skus : list string) (rs rs' : list ScenarioResult) (fs fs' : list Flow) :
  sku_loop d p assembly skus rs fs = Ok (rs', fs') ->
  exists outs : list (ScenarioResult * list Flow),
    Forall
      (fun out =>
         exists sku,
           In sku skus
           /\ rollup_sku d p assembly sku = Ok (Some (fst out, snd out)))
      outs
    /\ rs' = (rs ++ List.map fst outs)%list
    /\ fs' = (fs ++ concat (List.map snd outs))%list.
Proof.
  revert rs fs. induction skus as [|sku skus IH]; intros rs fs; simpl.
  - intros [= <- <-]. exists []. simpl. rewrite !app_nil_r.
    repeat split; constructor.
  - intros H. apply bind_Ok_inv in H as (r & Hr & H).
    destruct r as [[row edges]|].
    + apply IH in H as (outs & Houts & -> & ->).
      exists ((row, edges) :: outs). simpl. rewrite <- !app_assoc.
      split; [| split; reflexivity].
      constructor; [exists sku; split; [left; reflexivity | exact Hr] |].
      refine (List.Forall_impl _ _ Houts).
      intros out (s & Hs & Hout). exists s. split; [right; exact Hs | exact Hout].
    + apply IH in H as (outs & Houts & -> & ->).
      exists outs. split; [| split; reflexivity].
      refine (List.Forall_impl _ _ Houts).
      intros out (s & Hs & Hout). exists s. split; [right; exact Hs | exact Hout].
Qed.

(** the summary rows and flow records that [compute_costs] returns are the
    rows and records of the SKU bodies that were not skipped, in the order
    of [TARGET_SKUS] *)
Lemma compute_costs_outputs (d : Data) (p : Params) (c : Costs) :
  compute_costs d p = Ok c ->
  exists assembly (outs : list (ScenarioResult * list Flow)),
    data_Sites d !! assembly_site_id p = Some assembly
    /\ Forall
         (fun out =>
            exists sku,
              In sku TARGET_SKUS
              /\ rollup_sku d p assembly sku = Ok (Some (fst out, snd out)))
         outs
    /\ summary c = List.map fst outs
    /\ flows c = concat (List.map snd outs).
Proof.
  unfold compute_costs.
  destruct (data_Sites d !! assembly_site_id p) as [assembly|];
    [| discriminate].
  intros H. apply bind_Ok_inv in H as ([rs fs] & Hloop & H).
  injection H as <-.
  apply sku_loop_outputs in Hloop as (outs & Houts & -> & ->).
  exists assembly, outs.
  split; [reflexivity |]. split; [exact Houts |]. split; reflexivity.
Qed.

Lemma component_line_SKU (d : Data) (p : Params) (sku : string)
    (assembly : Sites.row) (y : pyfloat) (c : BomComponents.row) (l : Line) :
  component_line d p sku assembly y c = Ok l ->
  flow_SKU (line_flow_entry l) = sku.
Proof.
  unfold component_line. intros H.
  apply bind_Ok_inv in H as (q & _ & H).
  apply bind_Ok_inv in H as (m & _ & H).
  apply bind_Ok_inv in H as ([lc lt] & _ & H).
  destruct (if label_eqb _ _ then _ else _) as [rate source].
  injection H as <-. reflexivity.
Qed.

Lemma rollup_sku_SKU (d : Data) (p : Params) (assembly : Sites.row)
    (sku : string) (row : ScenarioResult) (edges : list Flow) :
  rollup_sku d p assembly sku = Ok (Some (row, edges)) ->
  SKU row = sku /\ Forall (fun e => flow_SKU e = sku) edges.
Proof.
  intros H.
  apply rollup_sku_Some in H
    as (v & pct & emitted & final & Hv & _ & Hem & Hfin & -> & ->).
  split; [reflexivity |].
  apply sku_locals_Some in Hv as (_ & _ & _ & _ & _ & Hloop & _).
  apply component_loop_totals in Hloop as (ls & Hls & _ & _ & _ & _ & He).
  assert (Hentries :
    Forall (fun e => flow_SKU e = sku) (component_flow_entries (totals v))).
  { rewrite He. apply List.Forall_map. clear -Hls.
    induction Hls as [|c l rows ls Hl _ IH]; constructor; [| exact IH].
    eapply component_line_SKU, Hl. }
  apply List.Forall_app. split.
  - apply emit_entries_kept in Hem.
    assert (Hkept :
      Forall (fun e => flow_SKU e = sku)
        (List.filter kept (component_flow_entries (totals v)))).
    { apply List.Forall_forall. intros e He'.
      apply List.filter_In in He' as [He' _].
      eapply List.Forall_forall in Hentries; eassumption. }
    clear -Hem Hkept.
    induction Hem as [|e e' es es' (s & _ & ->) _ IH]; constructor.
    + exact (List.Forall_inv Hkept).
    + apply IH. exact (List.Forall_inv_tail Hkept).
  - unfold final_flow in Hfin. destruct (fgt _ _).
    + apply bind_Ok_inv in Hfin as (s & _ & Hfin). injection Hfin as <-.
      constructor; [reflexivity | constructor].
    + injection Hfin as <-. constructor.
Qed.

Lemma sku_loop_flows (d : Data) (p : Params) (assembly : Sites.row)
    (skus : list string) (rs rs' : list ScenarioResult) (fs fs' : list Flow) :
  sku_loop d p assembly skus rs fs = Ok (rs', fs') ->
  exists rest,
    fs' = (fs ++ rest)%list /\ Forall (fun e => In (flow_SKU e) skus) rest.
Proof.
  intros H. apply sku_loop_outputs in H as (outs & Houts & _ & ->).
  exists (concat (List.map snd outs)). split; [reflexivity |].
  induction Houts as [|[row edges] outs (sku & Hin & Hout) _ IH]; simpl;
    [constructor |].
  apply List.Forall_app. split; [| exact IH].
  apply rollup_sku_SKU in Hout as [_ Hedges].
  refine (List.Forall_impl _ _ Hedges). intros e ->. exact Hin.
Qed.

Lemma filter_SKU_none (sku : string) (fs : list Flow) :
  Forall (fun e => flow_SKU e <> sku) fs ->
  List.filter (fun e => String.eqb (flow_SKU e) sku) fs = [].
Proof.
  induction 1 as [|e fs He _ IH]; simpl; [reflexivity |].
  destruct (String.eqb_spec (flow_SKU e) sku); [contradiction | exact IH].
Qed.

Lemma filter_SKU_all (sku : string) (fs : list Flow) :
  Forall (fun e => flow_SKU e = sku) fs ->
  List.filter (fun e => String.eqb (flow_SKU e) sku) fs = fs.
Proof.
  induction 1 as [|e fs He _ IH]; simpl; [reflexivity |].
  destruct (String.eqb_spec (flow_SKU e) sku); [| contradiction].
  f_equal. exact IH.
Qed.

Lemma sku_loop_rows (d : Data) (p : Params) (assembly : Sites.row)
    (skus : list string) (rs rs' : list ScenarioResult) (fs fs' : list Flow) :
  List.NoDup skus ->
  Forall (fun e => ~ In (flow_SKU e) skus) fs ->
  sku_loop d p assembly skus rs fs = Ok (rs', fs') ->
  forall row,
    In row rs' ->
    In row rs
    \/ (In (SKU row) skus
        /\ rollup_sku d p assembly (SKU row)
           = Ok (Some (row,
                       List.filter
                         (fun e => String.eqb (flow_SKU e) (SKU row)) fs'))).
Proof.
  revert rs fs. induction skus as [|sku skus IH]; intros rs fs Hnd Hfs; simpl.
  - intros [= <- <-] row Hrow. left. exact Hrow.
  - intros H row Hrow. apply bind_Ok_inv in H as (r & Hr & H).
    inversion Hnd as [|? ? Hnotin Hnd']; subst.
    assert (Hfs_sku : Forall (fun e => flow_SKU e <> sku) fs).
    { refine (List.Forall_impl _ _ Hfs). intros e He Heq. apply He. left.
      symmetry. exact Heq. }
    assert (Hfs_tl : Forall (fun e => ~ In (flow_SKU e) skus) fs).
    { refine (List.Forall_impl _ _ Hfs). intros e He Hin. apply He. right.
      exact Hin. }
    destruct r as [[row0 edges0]|].
    + pose proof (rollup_sku_SKU _ _ _ _ _ _ Hr) as [Hsku0 Hedges0].
      assert (Hpre : Forall (fun e => ~ In (flow_SKU e) skus)
                       (fs ++ edges0)).
      { apply List.Forall_app. split; [exact Hfs_tl |].
        refine (List.Forall_impl _ _ Hedges0). intros e Heq Hin.
        cbn beta in Heq. rewrite Heq in Hin. contradiction. }
      pose proof (sku_loop_flows _ _ _ _ _ _ _ _ H) as (rest & Hfs' & Hrest).
      destruct (IH _ _ Hnd' Hpre H row Hrow) as [Hin | [Hin Hroll]].
      * apply in_app_or in Hin as [Hin | [<- | []]]; [left; exact Hin |].
        right. split; [left; symmetry; exact Hsku0 |].
        rewrite Hsku0, Hfs', !List.filter_app.
        rewrite (filter_SKU_none _ _ Hfs_sku), (filter_SKU_all _ _ Hedges0).
        rewrite filter_SKU_none, app_nil_r; [exact Hr |].
        refine (List.Forall_impl _ _ Hrest). intros e Hin Heq.
        cbn beta in Hin. rewrite Heq in Hin. contradiction.
      * right. split; [right; exact Hin | exact Hroll].
    + destruct (IH _ _ Hnd' Hfs_tl H row Hrow) as [Hin | [Hin Hroll]].
      * left. exact Hin.
      * right. split; [right; exact Hin | exact Hroll].
Qed.

Lemma TARGET_SKUS_NoDup : List.NoDup TARGET_SKUS.
Proof.
  unfold TARGET_SKUS. constructor.
  - intros [H | []]. discriminate.
  - constructor; [intros [] | constructor].
Qed.

(** every row of the returned summary is the row of the loop body for its
    own SKU, one of [TARGET_SKUS], and the flow records of that SKU in the
    returned list are the records that this body emitted *)
Lemma compute_costs_row (d : Data) (p : Params) (c : Costs)
    (row : ScenarioResult) :
  compute_costs d p = Ok c ->
  In row (summary c) ->
  exists assembly,
    data_Sites d !! assembly_site_id p = Some assembly
    /\ In (SKU row) TARGET_SKUS
    /\ rollup_sku d p assembly (SKU row)
       = Ok (Some (row, sku_flows c (SKU row))).
Proof.
  unfold compute_costs.
  destruct (data_Sites d !! assembly_site_id p) as [assembly|];
    [| discriminate].
  intros H Hrow. apply bind_Ok_inv in H as ([rs fs] & Hloop & H).
  injection H as <-. cbn [summary] in Hrow.
  exists assembly. split; [reflexivity |].
  destruct (sku_loop_rows _ _ _ _ _ _ _ _ TARGET_SKUS_NoDup
              (Forall_nil _) Hloop row Hrow) as [[] | [Hin Hroll]].
  split; [exact Hin | exact Hroll].
Qed.

(** ** Sum check *)

Lemma fold_accumulate_running (ls : list Line) (t : Totals) :
  let t' := fold_left accumulate ls t in
  material_total t'
    = fold_left fadd (List.map line_material_cost ls) (material_total t)
  /\ inbound_logistics_total t'
     = fold_left fadd (List.map line_logistics_cost ls)
         (inbound_logistics_total t)
  /\ component_tariffs_total t'
     = fold_left fadd (List.map line_tariff_value ls)
         (component_tariffs_total t).
Proof.
  revert t. induction ls as [|l ls IH]; intros t; [repeat split |].
  cbn [fold_left List.map]. destruct (IH (accumulate t l)) as (Hm & Hi & Ht).
  rewrite Hm, Hi, Ht. repeat split.
Qed.

(** C2 (amended): for every SKU row produced by [compute_costs], the
    emitted flow records are the component entries whose cost value is not
    [<= 0], followed by the finished-good record when outbound logistics
    plus final tariff is [> 0].  The value of a component entry is the
    material cost plus the logistics cost plus the tariff of its BOM line,
    the value of the finished-good record is outbound logistics plus final
    tariff, and the landed cost is material + (inbound + outbound
    logistics) + tariffs + conversion cost, where material, inbound
    logistics and component tariffs are the running sums of the same
    values of the lines.  So the landed cost is made of the values on the
    emitted and on the filtered-out records and of the conversion cost,
    which is on no flow record; the sums are taken in different orders. *)
Theorem landed_cost_sum_check (d : Data) (p : Params) (c : Costs)
    (row : ScenarioResult) :
  compute_costs d p = Ok c ->
  In row (summary c) ->
  exists assembly v ls,
    data_Sites d !! assembly_site_id p = Some assembly
    /\ sku_locals d p assembly (SKU row) = Ok (Some v)
    /\ Forall2
         (fun component l =>
            component_line d p (SKU row) assembly
              (yield_rate_of (option_row v)) component = Ok l)
         (bom_components v) ls
    /\ component_flow_entries (totals v) = List.map line_flow_entry ls
    /\ Forall
         (fun l =>
            cost_value (line_flow_entry l)
            = fadd (fadd (line_material_cost l) (line_logistics_cost l))
                   (line_tariff_value l))
         ls
    /\ final_flow_value v
       = fadd (OutboundLogistics_CHF row) (final_tariff_value v)
    /\ List.map cost_value (sku_flows c (SKU row)) = emitted_values v
    /\ MaterialCost_CHF row
       = running_sum (List.map line_material_cost ls)
    /\ InboundLogistics_CHF row
       = running_sum (List.map line_logistics_cost ls)
    /\ Tariffs_CHF row
       = fadd (running_sum (List.map line_tariff_value ls))
              (final_tariff_value v)
    /\ LandedCost_CHF row
       = fadd (fadd (fadd (MaterialCost_CHF row)
                          (fadd (InboundLogistics_CHF row)
                                (OutboundLogistics_CHF row)))
                    (Tariffs_CHF row))
              (ConversionCost_CHF row).
Proof.
  intros Hc Hrow.
  destruct (compute_costs_row _ _ _ _ Hc Hrow) as (assembly & Hs & _ & Hroll).
  apply rollup_sku_Some in Hroll
    as (v & pct & emitted & final & Hv & _ & Hem & Hfin & Hrow' & Hedges).
  pose proof Hv as Hv'.
  apply sku_locals_Some in Hv' as (_ & _ & _ & _ & _ & Hloop & _).
  apply component_loop_lines in Hloop as (ls & Hls & Ht).
  destruct (fold_accumulate ls totals0) as (_ & _ & _ & _ & He).
  destruct (fold_accumulate_running ls totals0) as (Hm & Hi & Htar).
  rewrite <- Ht in He, Hm, Hi, Htar.
  apply component_lines_length in Hls.
  exists assembly, v, ls.
  split; [exact Hs |]. split; [exact Hv |]. split; [exact Hls |].
  split; [exact He |]. split.
  { clear -Hls. induction Hls as [|x l xs ls Hl _ IH]; constructor;
      [eapply component_line_cost_value, Hl | exact IH]. }
  rewrite Hedges, map_app, (emit_entries_values _ _ _ Hem),
    (final_flow_values _ _ _ _ _ Hfin).
  rewrite Hrow'.
  cbn [OutboundLogistics_CHF MaterialCost_CHF InboundLogistics_CHF
       Tariffs_CHF LandedCost_CHF ConversionCost_CHF summary_row].
  unfold running_sum, landed_cost, total_logistics, total_tariffs.
  rewrite Hm, Hi, Htar. repeat split.
Qed.

(** C2, as stated, fails on the sample tables with assembly in Mexico: the
    filtered-out values add up to zero, yet the flow records of the SKU do
    not add up to its landed cost (they miss the conversion cost). *)
Lemma sum_check_misses_conversion_cost :
  exists c row v,
    compute_costs Sample.data (Sample.params "S_MX") = Ok c
    /\ summary c = [row]
    /\ sku_locals Sample.data (Sample.params "S_MX") Sample.mx_site (SKU row)
       = Ok (Some v)
    /\ List.map cost_value (sku_flows c (SKU row)) = emitted_values v
    /\ fsum (dropped_values v) = fl c0
    /\ LandedCost_CHF row = fl (Q2Qc (880 # 3))
    /\ ConversionCost_CHF row = Sample.num 10
    /\ fsum (List.map cost_value (sku_flows c (SKU row)))
       = fl (Q2Qc (850 # 3))
    /\ fsum (List.map cost_value (sku_flows c (SKU row)))
       <> fsub (LandedCost_CHF row) (fsum (dropped_values v)).
Proof.
  eexists _, _, _.
  split; [vm_compute; reflexivity |].
  split; [vm_compute; reflexivity |].
  split; [vm_compute; reflexivity |].
  split; [vm_compute; reflexivity |].
  split; [vm_compute; reflexivity |].
  split; [apply feqb_true; vm_compute; reflexivity |].
  split; [apply feqb_true; vm_compute; reflexivity |].
  split; [apply feqb_true; vm_compute; reflexivity |].
  apply feqb_false. vm_compute. reflexivity.
Qed.

Lemma landed_cost_sum_check_witness :
  exists c row,
    compute_costs Sample.data (Sample.params "S_MX") = Ok c
    /\ In row (summary c)
    /\ exists assembly v ls,
         data_Sites Sample.data !! assembly_site_id (Sample.params "S_MX")
         = Some assembly
         /\ sku_locals Sample.data (Sample.params "S_MX") assembly (SKU row)
            = Ok (Some v)
         /\ Forall2
              (fun component l =>
                 component_line Sample.data (Sample.params "S_MX") (SKU row)
                   assembly (yield_rate_of (option_row v)) component = Ok l)
              (bom_components v) ls
         /\ component_flow_entries (totals v) = List.map line_flow_entry ls
         /\ Forall
              (fun l =>
                 cost_value (line_flow_entry l)
                 = fadd (fadd (line_material_cost l) (line_logistics_cost l))
                        (line_tariff_value l))
              ls
         /\ final_flow_value v
            = fadd (OutboundLogistics_CHF row) (final_tariff_value v)
         /\ List.map cost_value (sku_flows c (SKU row)) = emitted_values v
         /\ MaterialCost_CHF row
            = running_sum (List.map line_material_cost ls)
         /\ InboundLogistics_CHF row
            = running_sum (List.map line_logistics_cost ls)
         /\ Tariffs_CHF row
            = fadd (running_sum (List.map line_tariff_value ls))
                   (final_tariff_value v)
         /\ LandedCost_CHF row
            = fadd (fadd (fadd (MaterialCost_CHF row)
                               (fadd (InboundLogistics_CHF row)
                                     (OutboundLogistics_CHF row)))
                         (Tariffs_CHF row))
                   (ConversionCost_CHF row).
Proof.
  eexists _, _. split; [vm_compute; reflexivity |].
  split; [left; reflexivity |].
  apply (landed_cost_sum_check Sample.data (Sample.params "S_MX")).
  - vm_compute. reflexivity.
  - left. reflexivity.
Defined.

(** C1, as stated, fails when the override table has two rows for one key:
    the second row of [Sample.overrides] has the numeric user rate 7, but
    the resolver reads the first row only and answers (0.25, "Default"). *)
Lemma later_override_row_is_ignored :
  compute_tariff_rate (Some "motor") (Some "China") "2025-04-02"
    Sample.overrides []
  = (fdiv_lit (Sample.num 25) c100, "Default")
  /\ ~ (forall r,
          In r Sample.overrides ->
          override_mask (Some "motor") (Some "China") r = true ->
          notna (TariffInputs.UserRate_pct r) = true ->
          compute_tariff_rate (Some "motor") (Some "China") "2025-04-02"
            Sample.overrides []
          = (fdiv_lit (TariffInputs.UserRate_pct r) c100, "Override")).
Proof.
  split; [reflexivity |].
  intros H.
  specialize (H (Sample.override (Sample.num 7))).
  assert (Hr : compute_tariff_rate (Some "motor") (Some "China") "2025-04-02"
                 Sample.overrides []
               = (fdiv_lit (Sample.num 25) c100, "Default")) by reflexivity.
  rewrite Hr in H.
  assert (Habs : (fdiv_lit (Sample.num 25) c100, "Default")
                 = (fdiv_lit (Sample.num 7) c100, "Override")).
  { apply H; [right; left; reflexivity | reflexivity | reflexivity]. }
  apply (f_equal snd) in Habs. discriminate.
Qed.

(** ** Currency conversion with absent codes *)

Lemma fmul_1_r (x : pyfloat) : fmul x (fl c1) = x.
Proof. destruct x; simpl; try reflexivity. f_equal. apply Qcmult_1_r. Qed.

Lemma usd_to_chf_same_chf (a : pyfloat) (fx fx' : gmap string pyfloat) :
  default (fl c1) (fx !! "CHF") = default (fl c1) (fx' !! "CHF") ->
  usd_to_chf a fx = usd_to_chf a fx'.
Proof. unfold usd_to_chf. intros ->. reflexivity. Qed.

(** C4 (amended): for a currency code other than CHF that is absent from
    the FX table, conversion from that code to CHF behaves as if the table
    held, for that code, the table's own USD rate (which is 1.0 only when
    USD is absent too); when CHF itself is absent, conversion of a USD
    amount and conversion from any other code behave as if the CHF rate
    were 1.0.  When USD is absent as well, conversion from the absent code
    is the identity into the USD intermediate. *)
Theorem absent_currency_conversion (fx : gmap string pyfloat)
    (amount : pyfloat) (currency : string) :
  fx !! currency = None ->
  (currency <> "CHF" ->
   local_to_chf amount currency fx
   = local_to_chf amount currency (<[currency := usd_fallback fx]> fx))
  /\ (currency = "CHF" ->
      usd_to_chf amount fx = usd_to_chf amount (<["CHF" := fl c1]> fx)
      /\ forall source,
           source <> "CHF" ->
           local_to_chf amount source fx
           = local_to_chf amount source (<["CHF" := fl c1]> fx))
  /\ (fx !! "USD" = None ->
      local_to_chf amount currency fx = usd_to_chf amount fx).
Proof.
  intros Habsent. split; [| split].
  - intros Hne. unfold local_to_chf.
    destruct (isna amount); [reflexivity |].
    rewrite Habsent, lookup_insert_eq. cbn [default].
    apply usd_to_chf_same_chf.
    rewrite lookup_insert_ne by exact Hne. reflexivity.
  - intros ->. split.
    + apply usd_to_chf_same_chf.
      rewrite Habsent, lookup_insert_eq. reflexivity.
    + intros source Hne. unfold local_to_chf.
      destruct (isna amount); [reflexivity |].
      rewrite !(lookup_insert_ne fx "CHF") by congruence.
      apply usd_to_chf_same_chf.
      rewrite Habsent, lookup_insert_eq. reflexivity.
  - intros Husd. unfold local_to_chf, usd_to_chf.
    rewrite Habsent, Husd. cbn [default].
    destruct amount as [|a]; [reflexivity |].
    rewrite fmul_1_r. reflexivity.
Qed.

(** C4, as stated, fails on [fx_usd2]: EUR is absent, and 10 EUR convert to
    20, whereas a EUR rate of 1.0 would give 10. *)
Lemma absent_code_takes_usd_rate :
  fx_usd2 !! "EUR" = None
  /\ local_to_chf (Sample.num 10) "EUR" fx_usd2 = Ok (Sample.num 20)
  /\ local_to_chf (Sample.num 10) "EUR" (<["EUR" := fl c1]> fx_usd2)
     = Ok (Sample.num 10)
  /\ local_to_chf (Sample.num 10) "EUR" fx_usd2
     <> local_to_chf (Sample.num 10) "EUR" (<["EUR" := fl c1]> fx_usd2).
Proof.
  assert (H20 : local_to_chf (Sample.num 10) "EUR" fx_usd2
                = Ok (Sample.num 20)).
  { apply eval_Ok. vm_compute. reflexivity. }
  assert (H10 : local_to_chf (Sample.num 10) "EUR" (<["EUR" := fl c1]> fx_usd2)
                = Ok (Sample.num 10)).
  { apply eval_Ok. vm_compute. reflexivity. }
  repeat split; try assumption.
  rewrite H20, H10. intros [=].
Qed.

Lemma absent_currency_conversion_witness :
  fx_usd2 !! "EUR" = None
  /\ ("EUR" <> "CHF" ->
      local_to_chf (Sample.num 10) "EUR" fx_usd2
      = local_to_chf (Sample.num 10) "EUR"
          (<["EUR" := usd_fallback fx_usd2]> fx_usd2))
  /\ ("EUR" = "CHF" ->
      usd_to_chf (Sample.num 10) fx_usd2
      = usd_to_chf (Sample.num 10) (<["CHF" := fl c1]> fx_usd2)
      /\ forall source,
           source <> "CHF" ->
           local_to_chf (Sample.num 10) source fx_usd2
           = local_to_chf (Sample.num 10) source (<["CHF" := fl c1]> fx_usd2))
  /\ (fx_usd2 !! "USD" = None ->
      local_to_chf (Sample.num 10) "EUR" fx_usd2
      = usd_to_chf (Sample.num 10) fx_usd2).
Proof.
  split; [reflexivity |].
  apply (absent_currency_conversion fx_usd2 (Sample.num 10) "EUR").
  reflexivity.
Defined.

(** ** A zero CHF rate *)













(** ** Where tariffs are charged *)

Lemma component_line_tariff (d : Data) (p : Params) (sku : string)
    (assembly : Sites.row) (y : pyfloat) (c : BomComponents.row) (l : Line) :
  component_line d p sku assembly y c = Ok l ->
  from_country (line_flow_entry l) = origin_country_of d c
  /\ (tariff_rate (line_flow_entry l), tariff_source (line_flow_entry l))
     = (if label_eqb (Sites.Country assembly) (Some "United States")
        then compute_tariff_rate (BomComponents.Class c)
               (origin_country_of d c) (scenario_date p) (tariff_records p)
               (data_Tariffs_US d)
        else (fl c0, "Outside US"))
  /\ line_tariff_value l
     = fmul (line_material_cost l) (tariff_rate (line_flow_entry l)).
Proof.
  unfold component_line. intros H.
  apply bind_Ok_inv in H as (q & _ & H).
  apply bind_Ok_inv in H as (m & _ & H).
  apply bind_Ok_inv in H as ([lc lt] & _ & H).
  destruct (if label_eqb _ _ then _ else _) as [rate source].
  injection H as <-. repeat split; reflexivity.
Qed.

(** C5: on the rows and flow records that [compute_costs] returns.  When
    the assembly country is not the United States, every BOM line carries
    the tariff event (0.0, "Outside US"), and the finished-good record,
    when there is one, carries the resolver's answer for the class
    "FinalAssembly" with the assembly country as origin; when the assembly
    country is the United States, every BOM line carries the resolver's
    answer for the line's class and origin country, and the finished-good
    record carries (0.0, "Domestic").  The tariff value of a line is its
    material cost times its rate; the flow records of the SKU are the
    entries of the lines that were not filtered out, with these events,
    followed by the finished-good record; and the tariff column of the row
    is the running sum of the lines' tariff values plus the final rate
    applied to material total + inbound logistics total + conversion
    cost. *)
Theorem tariff_events_by_assembly_country (d : Data) (p : Params)
    (c : Costs) (row : ScenarioResult) :
  compute_costs d p = Ok c ->
  In row (summary c) ->
  exists assembly v ls emitted final,
    data_Sites d !! assembly_site_id p = Some assembly
    /\ sku_locals d p assembly (SKU row) = Ok (Some v)
    /\ Forall2
         (fun component l =>
            component_line d p (SKU row) assembly
              (yield_rate_of (option_row v)) component = Ok l)
         (bom_components v) ls
    /\ sku_flows c (SKU row) = (emitted ++ final)%list
    /\ Forall2
         (fun entry e =>
            tariff_event e = tariff_event entry
            /\ flow_component e = flow_component entry)
         (List.filter kept (List.map line_flow_entry ls)) emitted
    /\ let country := Sites.Country assembly in
       let final_event :=
         if outside_us country
         then compute_tariff_rate (Some "FinalAssembly") country
                (scenario_date p) (tariff_records p) (data_Tariffs_US d)
         else (fl c0, "Domestic") in
       Forall2
         (fun component l =>
            tariff_event (line_flow_entry l)
            = (if outside_us country then (fl c0, "Outside US")
               else compute_tariff_rate (BomComponents.Class component)
                      (origin_country_of d component) (scenario_date p)
                      (tariff_records p) (data_Tariffs_US d))
            /\ line_tariff_value l
               = fmul (line_material_cost l)
                      (tariff_rate (line_flow_entry l)))
         (bom_components v) ls
       /\ Forall
            (fun e =>
               flow_component e = Some "Finished Good"
               /\ tariff_event e = final_event)
            final
       /\ (length final <= 1)%nat
       /\ Tariffs_CHF row
          = fadd (running_sum (List.map line_tariff_value ls))
                 (fmul (fadd (fadd (MaterialCost_CHF row)
                                   (InboundLogistics_CHF row))
                             (ConversionCost_CHF row))
                       (fst final_event)).
Proof.
  intros Hc Hrow.
  destruct (compute_costs_row _ _ _ _ Hc Hrow) as (assembly & Hs & _ & Hroll).
  apply rollup_sku_Some in Hroll
    as (v & pct & emitted & final & Hv & _ & Hem & Hfin & Hrow' & Hedges).
  pose proof Hv as Hv'.
  apply sku_locals_Some in Hv'
    as (_ & _ & _ & _ & _ & Hloop & _ & Hft & _).
  apply component_loop_lines in Hloop as (ls & Hls & Ht).
  destruct (fold_accumulate ls totals0) as (_ & _ & _ & _ & He).
  destruct (fold_accumulate_running ls totals0) as (_ & _ & Htar).
  rewrite <- Ht in He, Htar. cbn [component_flow_entries totals0 app] in He.
  apply component_lines_length in Hls.
  exists assembly, v, ls, emitted, final.
  split; [exact Hs |]. split; [exact Hv |]. split; [exact Hls |].
  split; [exact Hedges |]. split.
  { apply emit_entries_kept in Hem. rewrite He in Hem. clear -Hem.
    induction Hem as [|e e' es es' (s & _ & ->) _ IH]; constructor;
      [split; reflexivity | exact IH]. }
  cbv zeta. unfold final_tariff in Hft. split; [| split; [| split]].
  - clear -Hls.
    induction Hls as [|x l xs ls Hl _ IH]; constructor; [| exact IH].
    apply component_line_tariff in Hl as (_ & Hl & Hval).
    split; [| exact Hval]. unfold tariff_event, outside_us. rewrite Hl.
    destruct (label_eqb (Sites.Country assembly) (Some "United States"));
      reflexivity.
  - unfold final_flow in Hfin. destruct (fgt (final_flow_value v) (fl c0)).
    + apply bind_Ok_inv in Hfin as (s & _ & Hfin). injection Hfin as <-.
      constructor; [| constructor]. split; [reflexivity |].
      unfold tariff_event. cbn [tariff_rate tariff_source].
      symmetry. exact Hft.
    + injection Hfin as <-. constructor.
  - unfold final_flow in Hfin. destruct (fgt (final_flow_value v) (fl c0)).
    + apply bind_Ok_inv in Hfin as (s & _ & Hfin). injection Hfin as <-.
      cbn [length]. lia.
    + injection Hfin as <-. cbn [length]. lia.
  - rewrite Hft, Hrow'.
    cbn [Tariffs_CHF MaterialCost_CHF InboundLogistics_CHF
         ConversionCost_CHF summary_row fst].
    unfold total_tariffs, final_tariff_value, final_tariff_base, running_sum.
    rewrite Htar. reflexivity.
Qed.

Lemma tariff_events_by_assembly_country_witness :
  exists c row,
    compute_costs Sample.data (Sample.params "S_MX") = Ok c
    /\ In row (summary c)
    /\ exists assembly v ls emitted final,
         data_Sites Sample.data !! assembly_site_id (Sample.params "S_MX")
         = Some assembly
         /\ sku_locals Sample.data (Sample.params "S_MX") assembly (SKU row)
            = Ok (Some v)
         /\ Forall2
              (fun component l =>
                 component_line Sample.data (Sample.params "S_MX") (SKU row)
                   assembly (yield_rate_of (option_row v)) component = Ok l)
              (bom_components v) ls
         /\ sku_flows c (SKU row) = (emitted ++ final)%list
         /\ Forall2
              (fun entry e =>
                 tariff_event e = tariff_event entry
                 /\ flow_component e = flow_component entry)
              (List.filter kept (List.map line_flow_entry ls)) emitted
         /\ let country := Sites.Country assembly in
            let final_event :=
              if outside_us country
              then compute_tariff_rate (Some "FinalAssembly") country
                     (scenario_date (Sample.params "S_MX"))
                     (tariff_records (Sample.params "S_MX"))
                     (data_Tariffs_US Sample.data)
              else (fl c0, "Domestic") in
            Forall2
              (fun component l =>
                 tariff_event (line_flow_entry l)
                 = (if outside_us country then (fl c0, "Outside US")
                    else compute_tariff_rate (BomComponents.Class component)
                           (origin_country_of Sample.data component)
                           (scenario_date (Sample.params "S_MX"))
                           (tariff_records (Sample.params "S_MX"))
                           (data_Tariffs_US Sample.data))
                 /\ line_tariff_value l
                    = fmul (line_material_cost l)
                           (tariff_rate (line_flow_entry l)))
              (bom_components v) ls
            /\ Forall
                 (fun e =>
                    flow_component e = Some "Finished Good"
                    /\ tariff_event e = final_event)
                 final
            /\ (length final <= 1)%nat
            /\ Tariffs_CHF row
               = fadd (running_sum (List.map line_tariff_value ls))
                      (fmul (fadd (fadd (MaterialCost_CHF row)
                                        (InboundLogistics_CHF row))
                                  (ConversionCost_CHF row))
                            (fst final_event)).
Proof.
  eexists _, _. split; [vm_compute; reflexivity |].
  split; [left; reflexivity |].
  apply (tariff_events_by_assembly_country Sample.data
           (Sample.params "S_MX")).
  - vm_compute. reflexivity.
  - left. reflexivity.
Defined.

(** the two cases of C5 on the sample tables: the provenances on the flow
    records for assembly in Mexico and for assembly in the United States *)
Lemma tariff_events_on_the_sample :
  (exists c,
     compute_costs Sample.data (Sample.params "S_MX") = Ok c
     /\ List.map tariff_source (flows c)
        = ["Outside US"; "Outside US"; "None"])
  /\ (exists c,
        compute_costs Sample.data (Sample.params "S_US") = Ok c
        /\ List.map tariff_source (flows c)
           = ["Scenario 2025-04-02"; "None"]).
Proof.
  split; eexists; (split; [vm_compute; reflexivity |]); vm_compute;
    reflexivity.
Qed.

(** ** Yield *)

Lemma fmul_nan_r (x : pyfloat) : fmul x nan = nan.
Proof. destruct x; reflexivity. Qed.

Lemma lane_cost_nan_weight (d : Data) (p : Params) (from_c to_c : label) :
  exists lead, lane_cost d p from_c to_c nan = Ok (fl c0, lead).
Proof.
  unfold lane_cost. destruct (first_lane d from_c to_c) as [lane_row|];
    [| eexists; reflexivity].
  rewrite fmul_nan_r.
  destruct (include_fixed_fees p); eexists; reflexivity.
Qed.

(** C6 fails for an empty yield cell: [load_data] turns it into NaN, the
    key "Yield" is there, so the default 1.0 is not taken, and NaN is
    truthy, so the zero guard does not replace it.  The yield stays NaN,
    the quantity of every BOM line is NaN, and the material and logistics
    costs of the line are 0.0 (the NaN guard of the converters), where a
    yield of 1.0 gives the declared quantity and its costs. *)
Theorem nan_yield_is_not_guarded (d : Data) (p : Params) (sku : string)
    (assembly : Sites.row) (o : AssemblyOptions.row)
    (component : BomComponents.row) :
  AssemblyOptions.Yield o = Some nan ->
  yield_rate_of o = nan
  /\ effective_quantity component (yield_rate_of o) = Ok nan
  /\ exists l,
       component_line d p sku assembly (yield_rate_of o) component = Ok l
       /\ line_material_cost l = fl c0
       /\ line_logistics_cost l = fl c0.
Proof.
  intros Hy.
  assert (Hrate : yield_rate_of o = nan).
  { unfold yield_rate_of. rewrite Hy. reflexivity. }
  rewrite Hrate. split; [reflexivity |]. split; [reflexivity |].
  unfold component_line, effective_quantity.
  destruct (getd (BomComponents.Qty component) (fl c0)) as [|q];
    cbn [fdiv mbind result_bind fmul]; rewrite !fmul_nan_r;
    change (local_to_chf nan
              (currency_of (origin_country_of d component)) (data_FX d))
      with (Ok (A := pyfloat) (fl c0));
    cbn [mbind result_bind];
    destruct (lane_cost_nan_weight d p (origin_country_of d component)
                (Sites.Country assembly)) as [lead ->];
    cbn [mbind result_bind];
    destruct (if label_eqb _ _ then _ else _) as [rate source];
    eexists; repeat split.
Qed.

Lemma nan_yield_is_not_guarded_witness :
  AssemblyOptions.Yield (Sample.assembly_option "S_US" (Some nan)) = Some nan
  /\ yield_rate_of (Sample.assembly_option "S_US" (Some nan)) = nan
  /\ forall component,
       effective_quantity component
         (yield_rate_of (Sample.assembly_option "S_US" (Some nan)))
       = Ok nan
       /\ exists l,
            component_line sample_nan_yield (Sample.params "S_US")
              "ACTUATOR_AX100" Sample.us_site
              (yield_rate_of (Sample.assembly_option "S_US" (Some nan)))
              component = Ok l
            /\ line_material_cost l = fl c0
            /\ line_logistics_cost l = fl c0.
Proof.
  split; [reflexivity |]. split; [reflexivity |]. intros component.
  apply (nan_yield_is_not_guarded sample_nan_yield (Sample.params "S_US")
           "ACTUATOR_AX100" Sample.us_site
           (Sample.assembly_option "S_US" (Some nan)) component).
  reflexivity.
Defined.

(** the failing input of C6 on the sample tables: with the yield 1.0 the
    material of the product costs 2500/9 CHF, with the empty yield cell it
    costs 0.0 and the product is rolled up all the same *)
Lemma nan_yield_on_the_sample :
  (exists c row,
     compute_costs Sample.data (Sample.params "S_US") = Ok c
     /\ summary c = [row]
     /\ MaterialCost_CHF row = fl (Q2Qc (2500 # 9)))
  /\ (exists c row,
        compute_costs sample_nan_yield (Sample.params "S_US") = Ok c
        /\ summary c = [row]
        /\ MaterialCost_CHF row = fl c0
        /\ InboundLogistics_CHF row = fl c0).
Proof.
  split; eexists _, _.
  - split; [vm_compute; reflexivity |]. split; [reflexivity |].
    apply feqb_true. vm_compute. reflexivity.
  - split; [vm_compute; reflexivity |]. split; [reflexivity |].
    split; apply feqb_true; vm_compute; reflexivity.
Qed.

(** ** Lead time *)

Lemma lane_cost_lead (d : Data) (p : Params) (from_c to_c : label)
    (w cost lead : pyfloat) :
  lane_cost d p from_c to_c w = Ok (cost, lead) ->
  lead = lane_lead d from_c to_c.
Proof.
  unfold lane_cost, lane_lead.
  destruct (first_lane d from_c to_c) as [lane_row|].
  - intros H. apply bind_Ok_inv in H as (c & _ & H). injection H as _ <-.
    reflexivity.
  - intros [= _ <-]. reflexivity.
Qed.

Lemma component_line_lead (d : Data) (p : Params) (sku : string)
    (assembly : Sites.row) (y : pyfloat) (c : BomComponents.row) (l : Line) :
  component_line d p sku assembly y c = Ok l ->
  line_lead_time l
  = lane_lead d (origin_country_of d c) (Sites.Country assembly).
Proof.
  unfold component_line. intros H.
  apply bind_Ok_inv in H as (q & _ & H).
  apply bind_Ok_inv in H as (m & _ & H).
  apply bind_Ok_inv in H as ([lc lt] & Hlane & H).
  apply lane_cost_lead in Hlane.
  destruct (if label_eqb _ _ then _ else _) as [rate source].
  injection H as <-. exact Hlane.
Qed.

Lemma fle_trans (a b c : pyfloat) :
  fle a b = true -> fle b c = true -> fle a c = true.
Proof.
  destruct a as [|a], b as [|b], c as [|c]; simpl; try discriminate.
  unfold Qc_leb. rewrite !Qle_bool_iff. apply Qle_trans.
Qed.

Lemma fle_refl (a : pyfloat) : notna a = true -> fle a a = true.
Proof.
  destruct a as [|a]; [discriminate |]. intros _. simpl.
  unfold Qc_leb. apply Qle_bool_iff, Qle_refl.
Qed.

Lemma fgt_true_fle (y m : pyfloat) : fgt y m = true -> fle m y = true.
Proof.
  destruct y as [|y], m as [|m]; simpl; try discriminate.
  unfold Qc_ltb, Qc_leb. rewrite negb_true_iff, Qle_bool_iff.
  intros H. destruct (Qlt_le_dec (this m) (this y)) as [Hl|Hl].
  - apply Qlt_le_weak, Hl.
  - apply Qle_bool_iff in Hl. congruence.
Qed.

Lemma fgt_false_fle (y m : pyfloat) :
  notna y = true -> notna m = true -> fgt y m = false -> fle y m = true.
Proof.
  destruct y as [|y], m as [|m]; simpl; try discriminate.
  intros _ _. unfold Qc_ltb, Qc_leb. apply negb_false_iff.
Qed.

Lemma py_max_In (x : pyfloat) (xs : list pyfloat) : In (py_max x xs) (x :: xs).
Proof.
  unfold py_max. revert x. induction xs as [|y xs IH]; intros x; simpl.
  - left. reflexivity.
  - destruct (IH (if fgt y x then y else x)) as [H | H].
    + destruct (fgt y x); [right; left | left]; exact H.
    + right. right. exact H.
Qed.

Lemma py_max_upper (x : pyfloat) (xs : list pyfloat) :
  Forall (fun l => notna l = true) (x :: xs) ->
  Forall (fun l => fle l (py_max x xs) = true) (x :: xs).
Proof.
  unfold py_max. revert x. induction xs as [|y xs IH]; intros x Hn; simpl.
  - constructor; [| constructor]. apply fle_refl. inversion Hn; assumption.
  - inversion Hn as [|? ? Hx Hn']; subst.
    inversion Hn' as [|? ? Hy Hxs]; subst.
    set (m := if fgt y x then y else x).
    assert (Hm : notna m = true) by (subst m; destruct (fgt y x); assumption).
    specialize (IH m (Forall_cons _ _ _ Hm Hxs)).
    inversion IH as [|? ? Hmm Hrest]; subst.
    assert (Hxm : fle x m = true).
    { subst m. destruct (fgt y x) eqn:E;
        [apply fgt_true_fle, E | apply fle_refl, Hx]. }
    assert (Hym : fle y m = true).
    { subst m. destruct (fgt y x) eqn:E;
        [apply fle_refl, Hy | apply fgt_false_fle; assumption]. }
    constructor; [eapply fle_trans; eassumption |].
    constructor; [eapply fle_trans; eassumption | exact Hrest].
Qed.

Lemma merge_bom_cons (b : BOM.row) (bs : list BOM.row)
    (cdf : list ComponentsDf.row) :
  merge_bom (b :: bs) cdf = (merge_bom [b] cdf ++ merge_bom bs cdf)%list.
Proof. unfold merge_bom. simpl. rewrite app_nil_r. reflexivity. Qed.

Lemma merge_bom_single_nonempty (b : BOM.row) (cdf : list ComponentsDf.row) :
  merge_bom [b] cdf <> [].
Proof.
  unfold merge_bom. simpl. rewrite app_nil_r.
  destruct (List.filter (part_matches b) cdf); discriminate.
Qed.

Lemma merge_bom_nonempty (bs : list BOM.row) (cdf : list ComponentsDf.row) :
  bs <> [] -> merge_bom bs cdf <> [].
Proof.
  destruct bs as [|b bs]; [congruence |]. intros _.
  rewrite merge_bom_cons. intros H. apply app_eq_nil in H as [H _].
  eapply merge_bom_single_nonempty, H.
Qed.

(** the lead time computed by the loop body of one SKU *)
Lemma rollup_sku_lead_time (d : Data) (p : Params)
    (assembly : Sites.row) (sku : string) (row : ScenarioResult)
    (edges : list Flow) :
  rollup_sku d p assembly sku = Ok (Some (row, edges)) ->
  exists v x xs,
    sku_locals d p assembly sku = Ok (Some v)
    /\ List.map (inbound_lead d assembly) (bom_components v) = x :: xs
    /\ LeadTime_days row
       = fadd (py_max x xs)
              (lane_lead d (Sites.Country assembly) (Some "United States"))
    /\ In (py_max x xs) (x :: xs)
    /\ (Forall (fun l => notna l = true) (x :: xs) ->
        Forall (fun l => fle l (py_max x xs) = true) (x :: xs)).
Proof.
  intros H.
  apply rollup_sku_Some in H
    as (v & pct & emitted & final & Hv & _ & _ & _ & -> & _).
  pose proof Hv as Hv'.
  apply sku_locals_Some in Hv'
    as (_ & _ & _ & Hbom & Hrows & Hloop & Hlane & _ & _).
  apply lane_cost_lead in Hlane.
  apply component_loop_totals in Hloop as (ls & Hls & _ & _ & _ & Hl & _).
  assert (Hleads : component_leads (totals v)
                   = List.map (inbound_lead d assembly) (bom_components v)).
  { rewrite Hl. clear -Hls.
    induction Hls as [|c l rows ls Hc _ IH]; simpl; [reflexivity |].
    rewrite IH. f_equal. eapply component_line_lead, Hc. }
  destruct (List.map (inbound_lead d assembly) (bom_components v))
    as [|x xs] eqn:Hmap.
  { exfalso. apply map_eq_nil in Hmap.
    eapply merge_bom_nonempty; [exact Hbom |]. rewrite <- Hrows. exact Hmap. }
  exists v, x, xs. split; [exact Hv |]. split; [exact Hmap |].
  split; [| split; [apply py_max_In | apply py_max_upper]].
  cbn [LeadTime_days summary_row]. unfold lead_time_days.
  rewrite Hleads, Hlane. reflexivity.
Qed.

(** C7: the lead time of a produced row is Python's [max] of the inbound
    lead times of its BOM lines (for a line without a lane the lead time is
    0.0) plus the lead time of the outbound lane; the maximum is one of the
    inbound lead times and, when these are numbers, at least each of them.
    Inbound lead times are not added up. *)
Theorem lead_time_is_max_plus_outbound (d : Data) (p : Params) (c : Costs)
    (row : ScenarioResult) :
  compute_costs d p = Ok c ->
  In row (summary c) ->
  exists assembly v x xs,
    data_Sites d !! assembly_site_id p = Some assembly
    /\ sku_locals d p assembly (SKU row) = Ok (Some v)
    /\ List.map (inbound_lead d assembly) (bom_components v) = x :: xs
    /\ LeadTime_days row
       = fadd (py_max x xs)
              (lane_lead d (Sites.Country assembly) (Some "United States"))
    /\ In (py_max x xs) (x :: xs)
    /\ (Forall (fun l => notna l = true) (x :: xs) ->
        Forall (fun l => fle l (py_max x xs) = true) (x :: xs)).
Proof.
  intros Hc Hrow.
  destruct (compute_costs_row _ _ _ _ Hc Hrow) as (assembly & Hs & _ & Hroll).
  destruct (rollup_sku_lead_time _ _ _ _ _ _ Hroll) as (v & x & xs & Hv & H).
  exists assembly, v, x, xs. split; [exact Hs |]. split; [exact Hv | exact H].
Qed.

Lemma lead_time_is_max_plus_outbound_witness :
  exists c row,
    compute_costs Sample.data (Sample.params "S_MX") = Ok c
    /\ In row (summary c)
    /\ LeadTime_days row = Sample.num 15
    /\ exists assembly v x xs,
         data_Sites Sample.data !! assembly_site_id (Sample.params "S_MX")
         = Some assembly
         /\ sku_locals Sample.data (Sample.params "S_MX") assembly (SKU row)
            = Ok (Some v)
         /\ List.map (inbound_lead Sample.data assembly) (bom_components v)
            = x :: xs
         /\ LeadTime_days row
            = fadd (py_max x xs)
                   (lane_lead Sample.data (Sites.Country assembly)
                      (Some "United States"))
         /\ In (py_max x xs) (x :: xs)
         /\ (Forall (fun l => notna l = true) (x :: xs) ->
             Forall (fun l => fle l (py_max x xs) = true) (x :: xs)).
Proof.
  eexists _, _. split; [vm_compute; reflexivity |].
  split; [left; reflexivity |].
  split; [apply feqb_true; vm_compute; reflexivity |].
  eapply (lead_time_is_max_plus_outbound Sample.data (Sample.params "S_MX")).
  - vm_compute. reflexivity.
  - left. reflexivity.
Defined.

(** the example of the specification: inbound lead times 5 and 12 with an
    outbound lead time of 3 give 15, not 20 *)
Example lead_time_5_12_3 :
  fadd (py_max (Sample.num 5) [Sample.num 12]) (Sample.num 3) = Sample.num 15.
Proof. apply feqb_true. vm_compute. reflexivity. Qed.

(** the display name of the two target SKUs *)
Example SKU_Display_of_targets :
  List.map (str_remove "ACTUATOR_") TARGET_SKUS = ["AX100"; "AX200"].
Proof. reflexivity. Qed.

(** ** Unresolved parts *)

Lemma label_eqb_None_r (a : label) : label_eqb a None = false.
Proof. destruct a; reflexivity. Qed.

Lemma loc_none {A : Type} (mask : A -> bool) (df : list A) :
  (forall x, mask x = false) -> loc mask df = [].
Proof.
  intros H. unfold loc. induction df as [|x df IH]; simpl;
    [reflexivity | rewrite H; exact IH].
Qed.

Lemma first_lane_missing_origin (d : Data) (to_c : label) :
  first_lane d None to_c = None.
Proof.
  unfold first_lane. rewrite loc_none; [reflexivity |].
  intros l. unfold lane_mask. rewrite label_eqb_None_r. reflexivity.
Qed.

Lemma compute_tariff_rate_missing_class (org : label) (dt : date)
    (tis : list TariffInputs.row) (tus : list Tariffs_US.row) :
  compute_tariff_rate None org dt tis tus = (fl c0, "None").
Proof.
  unfold compute_tariff_rate.
  replace (match tis with [] => [] | _ => loc (override_mask None org) tis end)
    with (@nil TariffInputs.row).
  2:{ destruct tis; [reflexivity |]. symmetry. apply loc_none.
      intros x. unfold override_mask. rewrite label_eqb_None_r. reflexivity. }
  rewrite loc_none; [reflexivity |].
  intros x. unfold scenario_mask. rewrite label_eqb_None_r.
  apply andb_false_iff. left. apply andb_false_r.
Qed.

Lemma unresolved_line (d : Data) (p : Params) (sku : string)
    (assembly : Sites.row) (y : pyfloat) (b : BOM.row) :
  truthy y = true ->
  exists l,
    component_line d p sku assembly y (unresolved b) = Ok l
    /\ line_material_cost l = fl c0
    /\ line_logistics_cost l = fl c0
    /\ line_tariff_value l = fl c0
    /\ line_lead_time l = fl c0
    /\ cost_value (line_flow_entry l) = fl c0.
Proof.
  intros Hy. unfold component_line.
  destruct (fdiv_returns (getd (BOM.Qty b) (fl c0)) y Hy) as [q Hq].
  unfold effective_quantity. cbn [unresolved BomComponents.Qty]. rewrite Hq.
  cbn [mbind result_bind].
  assert (Ho : origin_country_of d (unresolved b) = None) by reflexivity.
  rewrite Ho.
  cbn [BomComponents.BasePrice_local BomComponents.UnitWeight_kg
       BomComponents.Class BomComponents.OriginSiteID BomComponents.PartID
       unresolved getd fmul].
  assert (Hm : local_to_chf nan (currency_of None) (data_FX d) = Ok (fl c0))
    by reflexivity.
  rewrite Hm. cbn [mbind result_bind].
  unfold lane_cost. rewrite first_lane_missing_origin.
  cbn [mbind result_bind mret result_ret].
  rewrite compute_tariff_rate_missing_class.
  destruct (label_eqb (Sites.Country assembly) (Some "United States"));
    eexists; (split; [reflexivity |]);
    cbn [line_material_cost line_logistics_cost line_tariff_value
         line_lead_time line_flow_entry cost_value];
    repeat split; try reflexivity.
Qed.

Lemma merge_bom_app (bs1 bs2 : list BOM.row) (cdf : list ComponentsDf.row) :
  merge_bom (bs1 ++ bs2) cdf = (merge_bom bs1 cdf ++ merge_bom bs2 cdf)%list.
Proof. unfold merge_bom. apply flat_map_app. Qed.

Lemma merge_bom_unresolved (b : BOM.row) (cdf : list ComponentsDf.row) :
  List.filter (part_matches b) cdf = [] -> merge_bom [b] cdf = [unresolved b].
Proof. intros H. unfold merge_bom. simpl. rewrite H. reflexivity. Qed.

Lemma component_lines_functional (d : Data) (p : Params) (sku : string)
    (assembly : Sites.row) (y : pyfloat) (rows : list BomComponents.row)
    (ls ls' : list Line) :
  Forall2 (fun c l => component_line d p sku assembly y c = Ok l) rows ls ->
  Forall2 (fun c l => component_line d p sku assembly y c = Ok l) rows ls' ->
  ls = ls'.
Proof.
  intros H. revert ls'. induction H as [|c l rows ls Hl _ IH]; intros ls' H';
    inversion H' as [|? l' ? ls'' Hl' Hrest]; subst; [reflexivity |].
  f_equal; [congruence | apply IH, Hrest].
Qed.

Lemma fsum_skip_zero {A : Type} (f : A -> pyfloat) (xs ys : list A) (z : A) :
  f z = fl c0 ->
  fsum (List.map f (xs ++ z :: ys)) = fsum (List.map f (xs ++ ys)).
Proof.
  intros Hz. rewrite !map_app, !fsum_app. cbn [List.map].
  rewrite fsum_cons, Hz, fadd_0_l. reflexivity.
Qed.

(** C8: a BOM line whose part matches no row of the Components table is
    not an error: its line has zero material cost, zero logistics cost
    (its weight is charged on no lane), zero tariff and zero lead time, and
    the inbound loop returns the same material, logistics and tariff totals
    as for the BOM without that line. *)
Theorem unresolved_part_contributes_zero (d : Data) (p : Params)
    (sku : string) (assembly : Sites.row) (o : AssemblyOptions.row)
    (b : BOM.row) (bs1 bs2 : list BOM.row) (cdf : list ComponentsDf.row) :
  List.filter (part_matches b) cdf = [] ->
  let y := yield_rate_of o in
  (exists l,
     component_line d p sku assembly y (unresolved b) = Ok l
     /\ line_material_cost l = fl c0
     /\ line_logistics_cost l = fl c0
     /\ line_tariff_value l = fl c0
     /\ line_lead_time l = fl c0
     /\ cost_value (line_flow_entry l) = fl c0)
  /\ exists t t',
       component_loop d p sku assembly y
         (merge_bom (bs1 ++ b :: bs2) cdf) totals0 = Ok t
       /\ component_loop d p sku assembly y
            (merge_bom (bs1 ++ bs2) cdf) totals0 = Ok t'
       /\ material_total t = material_total t'
       /\ inbound_logistics_total t = inbound_logistics_total t'
       /\ component_tariffs_total t = component_tariffs_total t'.
Proof.
  intros Hnone y. subst y.
  pose proof (yield_rate_of_truthy o) as Hy.
  destruct (unresolved_line d p sku assembly _ b Hy)
    as (l & Hl & Hm & Hi & Ht & Hlead & Hcv).
  split; [exists l; repeat split; assumption |].
  destruct (component_loop_returns d p sku assembly _
              (merge_bom (bs1 ++ b :: bs2) cdf) totals0 Hy) as [t Ht1].
  destruct (component_loop_returns d p sku assembly _
              (merge_bom (bs1 ++ bs2) cdf) totals0 Hy) as [t' Ht2].
  exists t, t'. split; [exact Ht1 |]. split; [exact Ht2 |].
  apply component_loop_totals in Ht1 as (ls & Hls & -> & -> & -> & _ & _).
  apply component_loop_totals in Ht2 as (ls' & Hls' & -> & -> & -> & _ & _).
  rewrite merge_bom_app, merge_bom_cons, (merge_bom_unresolved _ _ Hnone)
    in Hls.
  rewrite merge_bom_app in Hls'.
  apply Forall2_app_inv_l in Hls as (ls1 & lsr & H1 & Hr & ->).
  apply (Forall2_app_inv_l [unresolved b]) in Hr as (lsu & ls2 & Hu & H2 & ->).
  inversion Hu as [|? lu ? ? Hlu Hnil]; subst. inversion Hnil; subst.
  assert (lu = l) by congruence. subst lu.
  apply Forall2_app_inv_l in Hls' as (ls1' & ls2' & H1' & H2' & ->).
  rewrite <- (component_lines_functional _ _ _ _ _ _ _ _ H1 H1').
  rewrite <- (component_lines_functional _ _ _ _ _ _ _ _ H2 H2').
  cbn [app]. rewrite !fsum_skip_zero by assumption.
  repeat split; reflexivity.
Qed.

Lemma unresolved_part_contributes_zero_witness :
  List.filter (part_matches (Sample.bom_line "PX" 1))
    (List.map (merge_origin Sample.sites) (data_Components Sample.data)) = []
  /\ exists t t',
       component_loop Sample.data (Sample.params "S_US") "ACTUATOR_AX100"
         Sample.us_site (yield_rate_of (Sample.assembly_option "S_US" None))
         (merge_bom
            ([Sample.bom_line "P1" 2; Sample.bom_line "P2" 1]
             ++ Sample.bom_line "PX" 1 :: [])
            (List.map (merge_origin Sample.sites)
               (data_Components Sample.data)))
         totals0 = Ok t
       /\ component_loop Sample.data (Sample.params "S_US") "ACTUATOR_AX100"
            Sample.us_site
            (yield_rate_of (Sample.assembly_option "S_US" None))
            (merge_bom
               ([Sample.bom_line "P1" 2; Sample.bom_line "P2" 1] ++ [])
               (List.map (merge_origin Sample.sites)
                  (data_Components Sample.data)))
            totals0 = Ok t'
       /\ material_total t = material_total t'
       /\ inbound_logistics_total t = inbound_logistics_total t'
       /\ component_tariffs_total t = component_tariffs_total t'.
Proof.
  split; [reflexivity |].
  apply (unresolved_part_contributes_zero Sample.data (Sample.params "S_US")
           "ACTUATOR_AX100" Sample.us_site
           (Sample.assembly_option "S_US" None)
           (Sample.bom_line "PX" 1)
           [Sample.bom_line "P1" 2; Sample.bom_line "P2" 1] []
           (List.map (merge_origin Sample.sites)
              (data_Components Sample.data))).
  reflexivity.
Defined.

(** * Objects: a call writes to objects of its own only *)

Lemma run_bind {A B : Type} (m : Run A) (f : A -> Run B) (h : store) :
  (m ≫= f) h
  = match m h with
    | (Ok a, h') => f a h'
    | (Raise e, h') => (Raise e, h')
    end.
Proof. reflexivity. Qed.

Lemma lift_run {A : Type} (r : result A) (h : store) : lift r h = (r, h).
Proof. reflexivity. Qed.

Section NewObjects.
Variable h0 : store.

Lemma new_at_inj (ext : list object) (a : address) (o o' : object) :
  new_at h0 ext a o -> new_at h0 ext a o' -> o = o'.
Proof.
  intros (k & -> & Hk) (k' & E & Hk'). assert (k' = k) by lia. subst k'.
  congruence.
Qed.

Lemma new_at_bound (ext : list object) (a : address) (o : object) :
  new_at h0 ext a o -> (length h0 <= a < length h0 + length ext)%nat.
Proof.
  intros (k & -> & Hk). apply lookup_lt_Some in Hk. lia.
Qed.

Lemma read_old {A : Type} (kind : object -> option A) (l : address)
    (o : object) (a : A) (ext : list object) :
  h0 !! l = Some o -> kind o = Some a ->
  read_as kind l (h0 ++ ext)%list = (Ok a, (h0 ++ ext)%list).
Proof.
  intros Hl Hk. unfold read_as. rewrite run_bind. unfold read.
  rewrite (lookup_app_l_Some _ _ _ _ Hl), Hk. reflexivity.
Qed.

Lemma read_new {A : Type} (kind : object -> option A) (l : address)
    (o : object) (a : A) (ext : list object) :
  new_at h0 ext l o -> kind o = Some a ->
  read_as kind l (h0 ++ ext)%list = (Ok a, (h0 ++ ext)%list).
Proof.
  intros (k & -> & Hl) Hk. unfold read_as. rewrite run_bind. unfold read.
  rewrite lookup_app_r by lia.
  replace (length h0 + k - length h0)%nat with k by lia.
  rewrite Hl, Hk. reflexivity.
Qed.

Lemma alloc_new (o : object) (ext : list object) :
  alloc o (h0 ++ ext)%list
  = (Ok (length h0 + length ext)%nat, (h0 ++ (ext ++ [o]))%list).
Proof.
  unfold alloc. rewrite length_app, app_assoc. reflexivity.
Qed.

Lemma new_at_alloc (ext : list object) (o : object) :
  new_at h0 (ext ++ [o]) (length h0 + length ext)%nat o.
Proof.
  exists (length ext). split; [reflexivity |].
  rewrite lookup_app_r by lia. rewrite Nat.sub_diag. reflexivity.
Qed.

Lemma new_at_kept (ext : list object) (o : object) (a : address)
    (x : object) :
  new_at h0 ext a x -> new_at h0 (ext ++ [o]) a x.
Proof.
  intros (k & -> & Hk). exists k. split; [reflexivity |].
  apply lookup_app_l_Some. exact Hk.
Qed.

Lemma write_new (l : address) (o o' : object) (ext : list object) :
  new_at h0 ext l o ->
  exists ext',
    write l o' (h0 ++ ext)%list = (Ok tt, (h0 ++ ext')%list)
    /\ new_at h0 ext' l o'
    /\ length ext' = length ext
    /\ forall a x, new_at h0 ext a x -> a <> l -> new_at h0 ext' a x.
Proof.
  intros (k & -> & Hk). exists (<[k := o']> ext).
  split; [| split; [| split]].
  - unfold write. rewrite insert_app_r. reflexivity.
  - exists k. split; [reflexivity |]. apply list_lookup_insert_eq.
    eapply lookup_lt_Some, Hk.
  - apply length_insert.
  - intros a x (k' & -> & Hk') Hne. exists k'. split; [reflexivity |].
    rewrite list_lookup_insert_ne by lia. exact Hk'.
Qed.

Lemma read_each_new {A : Type} (kind : object -> option A)
    (wrap : A -> object) (ext : list object) (ls : list address)
    (vs : list A) :
  (forall v, kind (wrap v) = Some v) ->
  all_at h0 wrap ext ls vs ->
  read_each kind ls (h0 ++ ext)%list = (Ok vs, (h0 ++ ext)%list).
Proof.
  intros Hkind H. induction H as [|a v ls vs Ha _ IH]; [reflexivity |].
  cbn [read_each]. rewrite run_bind, (read_new _ _ _ _ _ Ha (Hkind v)).
  rewrite run_bind, IH. reflexivity.
Qed.

Lemma read_each_old {A : Type} (kind : object -> option A)
    (wrap : A -> object) (ext : list object) (ls : list address)
    (vs : list A) :
  (forall v, kind (wrap v) = Some v) ->
  Forall2 (fun l v => h0 !! l = Some (wrap v)) ls vs ->
  read_each kind ls (h0 ++ ext)%list = (Ok vs, (h0 ++ ext)%list).
Proof.
  intros Hkind H. induction H as [|a v ls vs Ha _ IH]; [reflexivity |].
  cbn [read_each]. rewrite run_bind, (read_old _ _ _ _ _ Ha (Hkind v)).
  rewrite run_bind, IH. reflexivity.
Qed.

Lemma all_at_kept {A : Type} (wrap : A -> object) (ext ext' : list object)
    (ls : list address) (vs : list A) :
  all_at h0 wrap ext ls vs ->
  (forall a v, new_at h0 ext a (wrap v) -> In a ls -> new_at h0 ext' a (wrap v)) ->
  all_at h0 wrap ext' ls vs.
Proof.
  intros H Hkeep. induction H as [|a v ls vs Ha _ IH]; constructor.
  - apply Hkeep; [exact Ha | left; reflexivity].
  - apply IH. intros b x Hb Hin. apply Hkeep; [exact Hb | right; exact Hin].
Qed.

Lemma all_at_bound {A : Type} (wrap : A -> object) (ext : list object)
    (ls : list address) (vs : list A) (a : address) :
  all_at h0 wrap ext ls vs -> In a ls -> (a < length h0 + length ext)%nat.
Proof.
  intros H. induction H as [|b v ls vs Hb _ IH]; intros Hin;
    [destruct Hin |].
  destruct Hin as [<- | Hin]; [| exact (IH Hin)].
  apply new_at_bound in Hb. lia.
Qed.

Lemma all_at_snoc {A : Type} (wrap : A -> object) (ext : list object)
    (ls : list address) (vs : list A) (a : address) (v : A) :
  all_at h0 wrap ext ls vs -> new_at h0 ext a (wrap v) ->
  all_at h0 wrap ext (ls ++ [a]) (vs ++ [v]).
Proof.
  intros H Ha. apply Forall2_app; [exact H |]. constructor; [exact Ha |].
  constructor.
Qed.
End NewObjects.

Section Call.
Variables (h0 : store) (data : address) (d : Data) (refs : DataRefs).
Hypothesis Hdata : h0 !! data = Some (ODataDict refs).
Hypothesis HProducts :
  h0 !! ref_Products refs = Some (OFrame (Products_frame (data_Products d))).
Hypothesis HBOM : h0 !! ref_BOM refs = Some (OFrame (BOM_frame (data_BOM d))).
Hypothesis HComponents :
  h0 !! ref_Components refs
  = Some (OFrame (Components_frame (data_Components d))).
Hypothesis HSites :
  h0 !! ref_Sites refs = Some (OFrame (Sites_frame (data_Sites d))).
Hypothesis HAssemblyOptions :
  h0 !! ref_AssemblyOptions refs
  = Some (OFrame (AssemblyOptions_frame (data_AssemblyOptions d))).
Hypothesis HLogisticsLanes :
  h0 !! ref_LogisticsLanes refs
  = Some (OFrame (LogisticsLanes_frame (data_LogisticsLanes d))).
Hypothesis HTariffs_US :
  h0 !! ref_Tariffs_US refs
  = Some (OFrame (Tariffs_US_frame (data_Tariffs_US d))).
Hypothesis HFX : h0 !! ref_FX refs = Some (OFrame (FX_frame (data_FX d))).

Lemma sheet_run {A : Type} (ref : DataRefs -> address)
    (kind : object -> option A) (o : object) (a : A) (ext : list object) :
  h0 !! ref refs = Some o -> kind o = Some a ->
  sheet data ref kind (h0 ++ ext)%list = (Ok a, (h0 ++ ext)%list).
Proof.
  intros Ho Hk. unfold sheet.
  rewrite run_bind, (read_old h0 as_data _ _ _ ext Hdata eq_refl).
  exact (read_old h0 kind _ _ _ ext Ho Hk).
Qed.

Lemma tables_run (ti sr fr : address) (ext : list object) :
  tables (call_env data d refs ti sr fr) (h0 ++ ext)%list = (Ok d, (h0 ++ ext)%list).
Proof.
  unfold tables. cbn [call_env env_assembly_options env_logistics_lanes
    env_tariffs_us env_data env_products env_components env_sites
    env_fx_rates].
  rewrite run_bind,
    (read_old h0 as_AssemblyOptions _ _ _ ext HAssemblyOptions eq_refl).
  rewrite run_bind,
    (read_old h0 as_LogisticsLanes _ _ _ ext HLogisticsLanes eq_refl).
  rewrite run_bind, (read_old h0 as_Tariffs_US _ _ _ ext HTariffs_US eq_refl).
  rewrite run_bind, (sheet_run ref_BOM as_BOM _ _ ext HBOM eq_refl).
  destruct d. reflexivity.
Qed.

Ltac other_object H1 H2 :=
  let E := fresh in
  intros E; subst;
  pose proof (new_at_inj _ _ _ _ _ H1 H2); discriminate.

Lemma component_tariff_run (ti sr fr : address) (p : Params)
    (F : OverrideFrame) (assembly_country : label)
    (component : BomComponents.row) (origin_country : label)
    (ext : list object) :
  new_at h0 ext ti (OOverrides F) ->
  Objects.component_tariff (call_env data d refs ti sr fr) p assembly_country
    component origin_country (h0 ++ ext)%list
  = (if label_eqb assembly_country (Some "United States")
     then Records.compute_tariff_rate (BomComponents.Class component)
            origin_country (scenario_date p) F (data_Tariffs_US d)
     else mret (fl c0, "Outside US"),
     (h0 ++ ext)%list).
Proof.
  intros Hti. unfold Objects.component_tariff.
  destruct (label_eqb assembly_country (Some "United States"));
    [| reflexivity].
  rewrite run_bind, tables_run. cbv beta iota.
  cbn [call_env env_tariff_inputs].
  rewrite run_bind, (read_new h0 as_overrides _ _ _ ext Hti eq_refl).
  reflexivity.
Qed.

Lemma component_loop_run (ti sr fr : address) (p : Params)
    (F : OverrideFrame) (sku : string) (assembly : Sites.row)
    (y : pyfloat) (kl ke : address) (rows : list BomComponents.row) :
  forall (t : Totals) (elocs : list address) (ext : list object),
    new_at h0 ext ti (OOverrides F) ->
    new_at h0 ext kl (OFloats (component_leads t)) ->
    new_at h0 ext ke (OFlows elocs) ->
    all_at h0 OFlow ext elocs (component_flow_entries t) ->
    List.NoDup elocs ->
    exists r ext',
      Objects.component_loop (call_env data d refs ti sr fr) p sku assembly y kl ke rows
        (material_total t, inbound_logistics_total t,
         component_tariffs_total t) (h0 ++ ext)%list
      = (r, (h0 ++ ext')%list)
      /\ match Records.component_loop d p F sku assembly y rows t with
         | Ok t' =>
             r = Ok (material_total t', inbound_logistics_total t',
                     component_tariffs_total t')
             /\ new_at h0 ext' kl (OFloats (component_leads t'))
             /\ (exists elocs',
                    new_at h0 ext' ke (OFlows elocs')
                    /\ all_at h0 OFlow ext' elocs' (component_flow_entries t')
                    /\ List.NoDup elocs'
                    /\ forall a, In a elocs' ->
                         In a elocs \/ (length h0 + length ext <= a)%nat)
             /\ (forall a x, new_at h0 ext a x -> a <> kl -> a <> ke ->
                   new_at h0 ext' a x)
         | Raise e => r = Raise e
         end.
Proof.
  induction rows as [|c rows' IH]; intros t elocs ext Hti Hkl Hke Hall Hnd.
  - exists (Ok (material_total t, inbound_logistics_total t,
               component_tariffs_total t)), ext.
    split; [reflexivity |]. cbn [Records.component_loop mret result_ret].
    split; [reflexivity |]. split; [exact Hkl |].
    split; [| intros a x Ha _ _; exact Ha].
    exists elocs. split; [exact Hke |]. split; [exact Hall |].
    split; [exact Hnd |]. intros a Ha. left. exact Ha.
  - cbn [Objects.component_loop Records.component_loop].
    unfold Records.component_line.
    rewrite run_bind, lift_run.
    destruct (effective_quantity c y) as [quantity|e].
    2:{ exists (Raise e), ext. split; reflexivity. }
    cbn [mbind result_bind]. cbv beta iota.
    rewrite run_bind, tables_run. cbv beta iota.
    rewrite run_bind, lift_run.
    match goal with
    | |- context [local_to_chf ?a ?b ?f] =>
        destruct (local_to_chf a b f) as [material_cost|e]
    end.
    2:{ exists (Raise e), ext. split; reflexivity. }
    cbn [mbind result_bind]. cbv beta iota.
    rewrite run_bind, tables_run. cbv beta iota.
    rewrite run_bind, lift_run.
    match goal with
    | |- context [lane_cost d p ?a ?b ?w] =>
        destruct (lane_cost d p a b w) as [[logistics_cost lead_time]|e]
    end.
    2:{ exists (Raise e), ext. split; reflexivity. }
    cbn [mbind result_bind]. cbv beta iota.
    rewrite run_bind, (read_new h0 as_floats _ _ _ ext Hkl eq_refl).
    cbv beta iota.
    destruct (write_new h0 kl _
                (OFloats (component_leads t ++ [lead_time])%list)
                ext Hkl) as (ext1 & Hw1 & Hkl1 & Hlen1 & Hkeep1).
    rewrite run_bind, Hw1. cbv beta iota.
    assert (Hti1 : new_at h0 ext1 ti (OOverrides F)).
    { apply Hkeep1; [exact Hti |]. other_object Hti Hkl. }
    rewrite run_bind,
      (component_tariff_run ti sr fr p F (Sites.Country assembly) c _ ext1
         Hti1).
    match goal with
    | |- context [if label_eqb ?a ?b then ?x else ?z] =>
        destruct (if label_eqb a b then x else z) as [[rate source]|e]
    end.
    2:{ exists (Raise e), ext1. split; reflexivity. }
    cbn [mbind result_bind mret result_ret]. cbv beta iota.
    rewrite run_bind, alloc_new. cbv beta iota.
    match goal with
    | |- context [(ext1 ++ [OFlow ?e0])%list] => set (flow_entry := e0)
    end.
    set (entry := (length h0 + length ext1)%nat).
    set (ext2 := (ext1 ++ [OFlow flow_entry])%list).
    set (l := {| line_material_cost := material_cost;
                 line_logistics_cost := logistics_cost;
                 line_lead_time := lead_time;
                 line_tariff_value := fmul material_cost rate;
                 line_flow_entry := flow_entry |}).
    assert (Hne : ke <> kl) by other_object Hke Hkl.
    assert (Hke2 : new_at h0 ext2 ke (OFlows elocs)).
    { apply new_at_kept, Hkeep1; assumption. }
    rewrite run_bind, (read_new h0 as_flows _ _ _ ext2 Hke2 eq_refl).
    cbv beta iota.
    destruct (write_new h0 ke _ (OFlows (elocs ++ [entry])%list) ext2 Hke2)
      as (ext3 & Hw3 & Hke3 & Hlen3 & Hkeep3).
    rewrite run_bind, Hw3. cbv beta iota.
    assert (Hentry : new_at h0 ext3 entry (OFlow flow_entry)).
    { apply Hkeep3; [apply new_at_alloc |].
      intros E. apply new_at_bound in Hke. unfold entry in E. lia. }
    assert (Hfresh : ~ In entry elocs).
    { intros Hin. apply (all_at_bound h0 _ _ _ _ _ Hall) in Hin.
      unfold entry in Hin. lia. }
    destruct (IH (accumulate t l) (elocs ++ [entry])%list ext3)
      as (r & ext' & Hrun & Hpost).
    + apply Hkeep3; [apply new_at_kept; exact Hti1 |].
      other_object Hti Hke.
    + apply Hkeep3; [apply new_at_kept; exact Hkl1 |]. congruence.
    + exact Hke3.
    + cbn [accumulate component_flow_entries].
      apply all_at_snoc; [| exact Hentry].
      apply (all_at_kept h0 _ ext); [exact Hall |].
      intros a v Ha Hin. apply Hkeep3; [apply new_at_kept, Hkeep1;
        [exact Ha |] |].
      * other_object Ha Hkl.
      * other_object Ha Hke.
    + apply List.NoDup_app; [exact Hnd | repeat constructor; intros [] |].
      intros a Hin [<- | []]. exact (Hfresh Hin).
    + exists r, ext'. split; [exact Hrun |].
      destruct (Records.component_loop d p F sku assembly y rows'
                  (accumulate t l)) as [t'|e]; [| exact Hpost].
      destruct Hpost as (Hr & Hkl' & (elocs' & Hke' & Hall' & Hnd' & Hb)
                         & Hkeep').
      split; [exact Hr |]. split; [exact Hkl' |]. split.
      * exists elocs'. split; [exact Hke' |]. split; [exact Hall' |].
        split; [exact Hnd' |]. intros a Ha.
        destruct (Hb a Ha) as [Hin | Hge].
        -- apply in_app_or in Hin. destruct Hin as [Hin | [<- | []]].
           ++ left. exact Hin.
           ++ right. unfold entry. lia.
        -- right. rewrite Hlen3 in Hge. unfold ext2 in Hge.
           rewrite length_app in Hge. cbn in Hge. lia.
      * intros a x Ha Hakl Hake. apply Hkeep'; [| exact Hakl | exact Hake].
        apply Hkeep3; [| exact Hake]. apply new_at_kept, Hkeep1; assumption.
Qed.

Lemma emit_entries_run (ti sr fr : address) (landed : pyfloat)
    (elocs : list address) :
  forall (entries : list Flow) (flocs : list address) (fs : list Flow)
         (ext : list object),
    all_at h0 OFlow ext elocs entries ->
    List.NoDup elocs ->
    new_at h0 ext fr (OFlows flocs) ->
    all_at h0 OFlow ext flocs fs ->
    (forall a, In a flocs -> ~ In a elocs) ->
    exists r ext',
      Objects.emit_entries (call_env data d refs ti sr fr) landed elocs (h0 ++ ext)%list
      = (r, (h0 ++ ext')%list)
      /\ match emit_entries landed entries with
         | Ok es =>
             r = Ok tt
             /\ (exists flocs',
                    new_at h0 ext' fr (OFlows flocs')
                    /\ all_at h0 OFlow ext' flocs' (fs ++ es)%list)
             /\ (forall a x, new_at h0 ext a x -> ~ In a elocs -> a <> fr ->
                   new_at h0 ext' a x)
         | Raise e => r = Raise e
         end.
Proof.
  induction elocs as [|b rest IH];
    intros entries flocs fs ext Hall Hnd Hfr Hfs Hdisj;
    inversion Hall as [|? e ? es' Hb Hrest]; subst.
  - exists (Ok tt), ext. split; [reflexivity |].
    cbn [emit_entries mret result_ret]. split; [reflexivity |].
    split; [| intros a x Ha _ _; exact Ha].
    exists flocs. rewrite app_nil_r. split; assumption.
  - inversion Hnd as [|? ? Hnb Hnd']; subst.
    cbn [Objects.emit_entries emit_entries].
    rewrite run_bind, (read_new h0 as_flow _ _ _ ext Hb eq_refl).
    cbv beta iota.
    destruct (fle (cost_value e) (fl c0)).
    { destruct (IH es' flocs fs ext Hrest Hnd' Hfr Hfs)
        as (r & ext' & Hrun & Hpost).
      { intros a Ha Hin. apply (Hdisj a Ha). right. exact Hin. }
      exists r, ext'. split; [exact Hrun |].
      destruct (emit_entries landed es') as [out|err]; [| exact Hpost].
      destruct Hpost as (Hr & Hfl & Hkeep). split; [exact Hr |].
      split; [exact Hfl |]. intros a x Ha Hin Hne.
      apply Hkeep; [exact Ha | | exact Hne]. intros Hin'. apply Hin.
      right. exact Hin'. }
    rewrite run_bind. unfold lift at 1.
    destruct (share_of (cost_value e) landed) as [s|err] eqn:Es.
    2:{ exists (Raise err), ext. split; reflexivity. }
    cbn [mbind result_bind].
    destruct (write_new h0 b _ (OFlow (with_cost_share e s)) ext Hb)
      as (ext1 & Hw1 & Hb1 & Hlen1 & Hkeep1).
    rewrite run_bind, Hw1. cbv beta iota.
    cbn [call_env env_flow_records].
    assert (Hfr1 : new_at h0 ext1 fr (OFlows flocs)).
    { apply Hkeep1; [exact Hfr |]. other_object Hfr Hb. }
    rewrite run_bind, (read_new h0 as_flows _ _ _ ext1 Hfr1 eq_refl).
    cbv beta iota.
    destruct (write_new h0 fr _ (OFlows (flocs ++ [b])%list) ext1 Hfr1)
      as (ext2 & Hw2 & Hfr2 & Hlen2 & Hkeep2).
    rewrite run_bind, Hw2. cbv beta iota.
    assert (Hbfr : b <> fr) by other_object Hb Hfr.
    destruct (IH es' (flocs ++ [b])%list (fs ++ [with_cost_share e s])%list
                ext2) as (r & ext' & Hrun & Hpost).
    + apply (all_at_kept h0 _ ext); [exact Hrest |].
      intros a v Ha Hin. apply Hkeep2; [apply Hkeep1; [exact Ha |] |].
      * intros ->. exact (Hnb Hin).
      * other_object Ha Hfr.
    + exact Hnd'.
    + exact Hfr2.
    + apply all_at_snoc; [| apply Hkeep2; [exact Hb1 | exact Hbfr]].
      apply (all_at_kept h0 _ ext); [exact Hfs |].
      intros a v Ha Hin. apply Hkeep2; [apply Hkeep1; [exact Ha |] |].
      * intros ->. apply (Hdisj b Hin). left. reflexivity.
      * other_object Ha Hfr.
    + intros a Hin Hin'. apply in_app_or in Hin.
      destruct Hin as [Hin | [<- | []]].
      * apply (Hdisj a Hin). right. exact Hin'.
      * exact (Hnb Hin').
    + exists r, ext'. split; [exact Hrun |].
      destruct (emit_entries landed es') as [out|err]; [| exact Hpost].
      cbn [mbind result_bind mret result_ret].
      destruct Hpost as (Hr & (flocs' & Hfl & Hall') & Hkeep).
      split; [exact Hr |]. split.
      * exists flocs'. split; [exact Hfl |].
        rewrite <- app_assoc in Hall'. exact Hall'.
      * intros a x Ha Hin Hne. apply Hkeep; [| | exact Hne].
        -- apply Hkeep2; [apply Hkeep1; [exact Ha |] | exact Hne].
           intros ->. apply Hin. left. reflexivity.
        -- intros Hin'. apply Hin. right. exact Hin'.
Qed.

Lemma final_flow_run (ti sr fr : address) (p : Params)
    (assembly : Sites.row) (sku : string) (v : Locals)
    (flocs : list address) (fs : list Flow) (ext : list object) :
  new_at h0 ext fr (OFlows flocs) ->
  all_at h0 OFlow ext flocs fs ->
  exists r ext',
    Objects.final_flow (call_env data d refs ti sr fr) p assembly sku v (h0 ++ ext)%list
    = (r, (h0 ++ ext')%list)
    /\ match final_flow p assembly sku v with
       | Ok es =>
           r = Ok tt
           /\ (exists flocs',
                  new_at h0 ext' fr (OFlows flocs')
                  /\ all_at h0 OFlow ext' flocs' (fs ++ es)%list)
           /\ (forall a x, new_at h0 ext a x -> a <> fr ->
                 new_at h0 ext' a x)
       | Raise e => r = Raise e
       end.
Proof.
  intros Hfr Hfs. unfold Objects.final_flow, final_flow.
  destruct (fgt (final_flow_value v) (fl c0)).
  2:{ exists (Ok tt), ext. split; [reflexivity |].
      cbn [mret result_ret]. split; [reflexivity |].
      split; [| intros a x Ha _; exact Ha].
      exists flocs. rewrite app_nil_r. split; assumption. }
  rewrite run_bind, alloc_new. cbv beta iota.
  match goal with
  | |- context [(ext ++ [OFlow ?e0])%list] =>
      set (e := e0); set (ext1 := (ext ++ [OFlow e])%list)
  end.
  set (final := (length h0 + length ext)%nat).
  rewrite run_bind. unfold lift at 1.
  destruct (share_of (final_flow_value v) (landed_cost v)) as [s|err].
  2:{ exists (Raise err), ext1. split; reflexivity. }
  cbn [mbind result_bind mret result_ret].
  assert (Hfinal : new_at h0 ext1 final (OFlow e)) by apply new_at_alloc.
  rewrite run_bind, (read_new h0 as_flow _ _ _ ext1 Hfinal eq_refl).
  cbv beta iota.
  destruct (write_new h0 final _ (OFlow (with_cost_share e s)) ext1 Hfinal)
    as (ext2 & Hw2 & Hfinal2 & Hlen2 & Hkeep2).
  rewrite run_bind, Hw2. cbv beta iota.
  cbn [call_env env_flow_records].
  assert (Hne : final <> fr).
  { intros E. apply new_at_bound in Hfr. unfold final in E. lia. }
  assert (Hfr2 : new_at h0 ext2 fr (OFlows flocs)).
  { apply Hkeep2; [apply new_at_kept; exact Hfr | congruence]. }
  rewrite run_bind, (read_new h0 as_flows _ _ _ ext2 Hfr2 eq_refl).
  cbv beta iota.
  destruct (write_new h0 fr _ (OFlows (flocs ++ [final])%list) ext2 Hfr2)
    as (ext3 & Hw3 & Hfr3 & Hlen3 & Hkeep3).
  exists (Ok tt), ext3. split; [exact Hw3 |]. split; [reflexivity |].
  assert (Hkeep : forall a x, new_at h0 ext a x -> a <> fr ->
                    new_at h0 ext3 a x).
  { intros a x Ha Hafr. apply Hkeep3; [| exact Hafr].
    apply Hkeep2; [apply new_at_kept; exact Ha |].
    intros E. apply new_at_bound in Ha. unfold final in E. lia. }
  split; [| exact Hkeep].
  exists (flocs ++ [final])%list. split; [exact Hfr3 |].
  apply all_at_snoc; [| apply Hkeep3; [exact Hfinal2 | exact Hne]].
  apply (all_at_kept h0 _ ext); [exact Hfs |].
  intros a x Ha Hin. apply Hkeep; [exact Ha |]. other_object Ha Hfr.
Qed.

Lemma rollup_sku_run (ti sr fr : address) (p : Params) (F : OverrideFrame)
    (assembly : Sites.row) (sku : string) (rs : list ScenarioResult)
    (fs : list Flow) (ext : list object) :
  call_objects h0 ti sr fr F rs fs ext ->
  exists r ext',
    Objects.rollup_sku (call_env data d refs ti sr fr) p assembly sku (h0 ++ ext)%list
    = (r, (h0 ++ ext')%list)
    /\ match Records.rollup_sku d p F assembly sku with
       | Ok o =>
           r = Ok tt
           /\ call_objects h0 ti sr fr F (fst (appended o rs fs))
                (snd (appended o rs fs)) ext'
       | Raise e => r = Raise e
       end.
Proof.
  intros (Hti & rlocs & flocs & Hsr & Hrs & Hfr & Hfs).
  assert (Hsame : call_objects h0 ti sr fr F rs fs ext).
  { split; [exact Hti |]. exists rlocs, flocs. repeat split; assumption. }
  unfold Objects.rollup_sku, Records.rollup_sku, Records.sku_locals.
  cbn [call_env env_products].
  destruct (data_Products d !! sku) as [product|].
  2:{ exists (Ok tt), ext. split; [reflexivity |]. split; [reflexivity |].
      exact Hsame. }
  rewrite run_bind, tables_run. cbv beta iota.
  destruct (iloc0 (loc (option_mask sku (assembly_site_id p))
                       (data_AssemblyOptions d))) as [opt|].
  2:{ exists (Ok tt), ext. split; [reflexivity |]. split; [reflexivity |].
      exact Hsame. }
  rewrite run_bind. unfold lift at 1.
  destruct (usd_to_chf (getd (AssemblyOptions.BaseConvCost_USD opt) (fl c0))
              (data_FX d)) as [conversion|err].
  2:{ exists (Raise err), ext. split; reflexivity. }
  cbn [mbind result_bind].
  destruct (loc (bom_mask sku) (data_BOM d)) as [|b0 bom'] eqn:Ebom.
  { exists (Ok tt), ext. split; [reflexivity |]. split; [reflexivity |].
    exact Hsame. }
  set (rows := merge_bom (b0 :: bom')
                 (List.map (merge_origin (data_Sites d))
                    (data_Components d))).
  rewrite run_bind, alloc_new. cbv beta iota.
  rewrite run_bind, alloc_new. cbv beta iota.
  set (ext1 := (ext ++ [OFloats []])%list).
  set (ext2 := (ext1 ++ [OFlows []])%list).
  set (kl := (length h0 + length ext)%nat).
  set (ke := (length h0 + length ext1)%nat).
  assert (Hlen2 : length ext2 = S (S (length ext))).
  { unfold ext2, ext1. rewrite !length_app. cbn. lia. }
  assert (Hkeep02 : forall a x, new_at h0 ext a x -> new_at h0 ext2 a x).
  { intros a x Ha. apply new_at_kept, new_at_kept. exact Ha. }
  assert (Hkl : new_at h0 ext2 kl (OFloats [])).
  { apply new_at_kept, new_at_alloc. }
  assert (Hke : new_at h0 ext2 ke (OFlows [])) by apply new_at_alloc.
  destruct (component_loop_run ti sr fr p F sku assembly (yield_rate_of opt)
              kl ke rows totals0 [] ext2 (Hkeep02 _ _ Hti) Hkl Hke
              (Forall2_nil _) (List.NoDup_nil _))
    as (r1 & ext3 & Hrun1 & Hpost1).
  cbn [totals0 material_total inbound_logistics_total
       component_tariffs_total] in Hrun1.
  rewrite run_bind, Hrun1.
  destruct (Records.component_loop d p F sku assembly (yield_rate_of opt)
              rows totals0) as [t|err].
  2:{ subst r1. exists (Raise err), ext3. split; reflexivity. }
  destruct Hpost1 as (-> & Hkl3 & (elocs & Hke3 & Hall3 & Hnd3 & Hnew3)
                      & Hkeep3).
  cbn [mbind result_bind]. cbv beta iota.
  assert (Hkeep03 : forall a x, new_at h0 ext a x -> new_at h0 ext3 a x).
  { intros a x Ha. pose proof (new_at_bound h0 _ _ _ Ha) as Hb.
    apply Hkeep3; [exact (Hkeep02 _ _ Ha) | |]; unfold kl, ke, ext1;
      try rewrite length_app; cbn; lia. }
  rewrite run_bind, tables_run. cbv beta iota.
  rewrite run_bind. unfold lift at 1.
  destruct (lane_cost d p (Sites.Country assembly) (Some "United States")
              (getd (Products.UnitWeight_kg product) (fl c0)))
    as [[out_cost out_lead]|err].
  2:{ exists (Raise err), ext3. split; reflexivity. }
  cbn [mbind result_bind]. cbv beta iota.
  cbn [call_env env_tariff_inputs].
  rewrite run_bind,
    (read_new h0 as_overrides _ _ _ ext3 (Hkeep03 _ _ Hti) eq_refl).
  cbv beta iota.
  rewrite run_bind. unfold lift at 1.
  destruct (Records.final_tariff d p F (Sites.Country assembly))
    as [[rate source]|err].
  2:{ exists (Raise err), ext3. split; reflexivity. }
  cbn [mbind result_bind]. cbv beta iota.
  rewrite run_bind. unfold lift at 1.
  destruct (usd_to_chf (getd (Products.ListPrice_USD product) (fl c0))
              (data_FX d)) as [list_price|err].
  2:{ exists (Raise err), ext3. split; reflexivity. }
  cbn [mbind result_bind mret result_ret]. cbv beta iota.
  rewrite run_bind, (read_new h0 as_floats _ _ _ ext3 Hkl3 eq_refl).
  cbv beta iota.
  rewrite run_bind, (read_new h0 as_flows _ _ _ ext3 Hke3 eq_refl).
  cbv beta iota.
  rewrite run_bind,
    (read_each_new h0 as_flow OFlow ext3 _ _ (fun _ => eq_refl) Hall3).
  cbv beta iota.
  match goal with
  | |- context [margin_pct ?v0] => set (v := v0)
  end.
  assert (Hv : v = {| sku_product := product;
                      option_row := opt;
                      conversion_cost_chf := conversion;
                      bom_components := rows;
                      totals := t;
                      outbound_cost := out_cost;
                      outbound_lead := out_lead;
                      final_tariff_rate := rate;
                      final_tariff_source := source;
                      list_price_chf := list_price |}).
  { unfold v. destruct t. reflexivity. }
  rewrite <- Hv.
  rewrite run_bind. unfold lift at 1.
  destruct (margin_pct v) as [pct|err].
  2:{ exists (Raise err), ext3. split; reflexivity. }
  cbn [mbind result_bind]. cbv beta iota.
  rewrite run_bind, alloc_new. cbv beta iota.
  set (row := summary_row p sku v pct).
  set (ext4 := (ext3 ++ [ORow row])%list).
  set (krow := (length h0 + length ext3)%nat).
  cbn [call_env env_scenario_results].
  assert (Hsr4 : new_at h0 ext4 sr (ORows rlocs)).
  { apply new_at_kept, Hkeep03, Hsr. }
  rewrite run_bind, (read_new h0 as_rows _ _ _ ext4 Hsr4 eq_refl).
  cbv beta iota.
  destruct (write_new h0 sr _ (ORows (rlocs ++ [krow])%list) ext4 Hsr4)
    as (ext5 & Hw5 & Hsr5 & Hlen5 & Hkeep5).
  rewrite run_bind, Hw5. cbv beta iota.
  assert (Hkeep05 : forall a x, new_at h0 ext a x -> a <> sr ->
                      new_at h0 ext5 a x).
  { intros a x Ha Hne. apply Hkeep5; [| exact Hne].
    apply new_at_kept, Hkeep03, Ha. }
  assert (Hkeep35 : forall a x, new_at h0 ext3 a x -> a <> sr ->
                      new_at h0 ext5 a x).
  { intros a x Ha Hne. apply Hkeep5; [| exact Hne].
    apply new_at_kept, Ha. }
  assert (Hfr5 : new_at h0 ext5 fr (OFlows flocs)).
  { apply Hkeep05; [exact Hfr |]. other_object Hfr Hsr. }
  assert (Hfs5 : all_at h0 OFlow ext5 flocs fs).
  { apply (all_at_kept h0 _ ext); [exact Hfs |]. intros a x Ha _.
    apply Hkeep05; [exact Ha |]. other_object Ha Hsr. }
  assert (Hsr3 : new_at h0 ext3 sr (ORows rlocs)) by exact (Hkeep03 _ _ Hsr).
  assert (Hall5 : all_at h0 OFlow ext5 elocs (component_flow_entries t)).
  { apply (all_at_kept h0 _ ext3); [exact Hall3 |]. intros a x Ha _.
    apply Hkeep35; [exact Ha |]. other_object Ha Hsr3. }
  assert (Hdisj : forall a, In a flocs -> ~ In a elocs).
  { intros a Hin Hin'. apply (all_at_bound h0 _ _ _ _ _ Hfs) in Hin.
    destruct (Hnew3 a Hin') as [[] | Hge]. lia. }
  destruct (emit_entries_run ti sr fr (landed_cost v) elocs
              (component_flow_entries t) flocs fs ext5 Hall5 Hnd3 Hfr5 Hfs5
              Hdisj) as (r6 & ext6 & Hrun6 & Hpost6).
  rewrite run_bind, Hrun6.
  replace (component_flow_entries (totals v)) with (component_flow_entries t)
    by (rewrite Hv; reflexivity).
  destruct (emit_entries (landed_cost v) (component_flow_entries t))
    as [emitted|err].
  2:{ subst r6. exists (Raise err), ext6. split; reflexivity. }
  destruct Hpost6 as (-> & (flocs6 & Hfr6 & Hfs6) & Hkeep6).
  cbn [mbind result_bind]. cbv beta iota.
  destruct (final_flow_run ti sr fr p assembly sku v flocs6
              (fs ++ emitted)%list ext6 Hfr6 Hfs6)
    as (r7 & ext7 & Hrun7 & Hpost7).
  exists r7, ext7. split; [exact Hrun7 |].
  destruct (final_flow p assembly sku v) as [final|err]; [| exact Hpost7].
  destruct Hpost7 as (-> & (flocs7 & Hfr7 & Hfs7) & Hkeep7).
  cbn [mbind result_bind mret result_ret appended fst snd].
  split; [reflexivity |].
  assert (Hsrfr : sr <> fr) by other_object Hsr Hfr.
  assert (Hkeep57 : forall a x, new_at h0 ext5 a x -> ~ In a elocs ->
                      a <> fr -> new_at h0 ext7 a x).
  { intros a x Ha Hin Hne. apply Hkeep7; [| exact Hne].
    apply Hkeep6; assumption. }
  assert (Hold : forall a x, new_at h0 ext a x -> ~ In a elocs).
  { intros a x Ha Hin. apply new_at_bound in Ha.
    destruct (Hnew3 a Hin) as [[] | Hge]. lia. }
  split.
  - apply Hkeep57.
    + apply Hkeep05; [exact Hti |]. other_object Hti Hsr.
    + exact (Hold _ _ Hti).
    + other_object Hti Hfr.
  - exists (rlocs ++ [krow])%list, flocs7.
    split; [| split; [| split]].
    + apply Hkeep57; [exact Hsr5 | exact (Hold _ _ Hsr) | exact Hsrfr].
    + assert (Hkrow : krow <> sr).
      { intros E. apply new_at_bound in Hsr3. unfold krow in E. lia. }
      apply all_at_snoc.
      * apply (all_at_kept h0 _ ext); [exact Hrs |]. intros a x Ha _.
        apply Hkeep57.
        -- apply Hkeep05; [exact Ha |]. other_object Ha Hsr.
        -- exact (Hold _ _ Ha).
        -- other_object Ha Hfr.
      * apply Hkeep57.
        -- apply Hkeep5; [apply new_at_alloc | exact Hkrow].
        -- intros Hin. apply (all_at_bound h0 _ _ _ _ _ Hall3) in Hin.
           unfold krow in Hin. lia.
        -- intros E. pose proof (Hkeep03 _ _ Hfr) as Hfr3.
           apply new_at_bound in Hfr3. unfold krow in E. lia.
    + exact Hfr7.
    + rewrite <- app_assoc in Hfs7. exact Hfs7.
Qed.

Lemma sku_loop_run (ti sr fr : address) (p : Params) (F : OverrideFrame)
    (assembly : Sites.row) (skus : list string) :
  forall (rs : list ScenarioResult) (fs : list Flow) (ext : list object),
    call_objects h0 ti sr fr F rs fs ext ->
    exists r ext',
      Objects.sku_loop (call_env data d refs ti sr fr) p assembly skus (h0 ++ ext)%list
      = (r, (h0 ++ ext')%list)
      /\ match Records.sku_loop d p F assembly skus rs fs with
         | Ok (rs', fs') => r = Ok tt /\ call_objects h0 ti sr fr F rs' fs' ext'
         | Raise e => r = Raise e
         end.
Proof.
  induction skus as [|sku skus' IH]; intros rs fs ext Hobj.
  - exists (Ok tt), ext. split; [reflexivity |].
    cbn [Records.sku_loop mret result_ret]. split; [reflexivity | exact Hobj].
  - cbn [Objects.sku_loop Records.sku_loop].
    destruct (rollup_sku_run ti sr fr p F assembly sku rs fs ext Hobj)
      as (r1 & ext1 & Hrun1 & Hpost1).
    rewrite run_bind, Hrun1.
    destruct (Records.rollup_sku d p F assembly sku) as [o|err].
    2:{ subst r1. exists (Raise err), ext1. split; reflexivity. }
    destruct Hpost1 as (-> & Hobj1). cbn [mbind result_bind].
    destruct o as [[row edges]|]; cbn [appended fst snd] in Hobj1;
      exact (IH _ _ ext1 Hobj1).
Qed.

Section OverrideRecords.
Variables (records_ref : address) (record_refs : list address)
  (records : list OverrideRecord.t).
Hypothesis Hrecords : h0 !! records_ref = Some (ORecords record_refs).
Hypothesis Hrecord :
  Forall2 (fun l r => h0 !! l = Some (ORecord r)) record_refs records.

Lemma compute_costs_run (scenario : date) (site : string) (fees : bool)
    (ext : list object) :
  exists r ext',
    Objects.compute_costs data scenario site records_ref fees
      (h0 ++ ext)%list
    = (r, (h0 ++ ext')%list)
    /\ match Records.compute_costs d scenario site records fees with
       | Ok c =>
           exists refs',
             r = Ok refs'
             /\ forall later,
                  Objects.contents refs' (h0 ++ (ext' ++ later))%list
                  = (Ok c, (h0 ++ (ext' ++ later))%list)
       | Raise e => r = Raise e
       end.
Proof.
  unfold Objects.compute_costs, Records.compute_costs.
  rewrite run_bind, (read_old h0 as_records _ _ _ ext Hrecords eq_refl).
  cbv beta iota.
  rewrite run_bind,
    (read_each_old h0 as_record ORecord ext _ _ (fun _ => eq_refl) Hrecord).
  cbv beta iota.
  set (F := DataFrame records).
  rewrite run_bind, alloc_new. cbv beta iota.
  set (ti := (length h0 + length ext)%nat).
  set (ext1 := (ext ++ [OOverrides F])%list).
  assert (Hti1 : new_at h0 ext1 ti (OOverrides F)) by apply new_at_alloc.
  assert (Hpre : exists ext2,
             (if negb (frame_empty F)
              then
                frame ← read_as as_overrides ti;
                write ti (OOverrides frame);;
                frame ← read_as as_overrides ti;
                write ti (OOverrides frame)
              else mret tt) (h0 ++ ext1)%list = (Ok tt, (h0 ++ ext2)%list)
             /\ new_at h0 ext2 ti (OOverrides F)).
  { destruct (negb (frame_empty F)).
    - rewrite run_bind, (read_new h0 as_overrides _ _ _ ext1 Hti1 eq_refl).
      cbv beta iota.
      destruct (write_new h0 ti _ (OOverrides F) ext1 Hti1)
        as (exta & Hwa & Htia & _ & _).
      rewrite run_bind, Hwa. cbv beta iota.
      rewrite run_bind, (read_new h0 as_overrides _ _ _ exta Htia eq_refl).
      cbv beta iota.
      destruct (write_new h0 ti _ (OOverrides F) exta Htia)
        as (extb & Hwb & Htib & _ & _).
      exists extb. split; [exact Hwb | exact Htib].
    - exists ext1. split; [reflexivity | exact Hti1]. }
  destruct Hpre as (ext2 & Hrun2 & Hti2).
  rewrite run_bind, Hrun2. cbv beta iota.
  rewrite run_bind, (sheet_run ref_FX as_FX _ _ ext2 HFX eq_refl).
  cbv beta iota.
  rewrite run_bind, (sheet_run ref_Sites as_Sites _ _ ext2 HSites eq_refl).
  cbv beta iota.
  destruct (data_Sites d !! site) as [assembly|].
  2:{ eexists _, ext2. split; reflexivity. }
  rewrite run_bind,
    (sheet_run ref_Products as_Products _ _ ext2 HProducts eq_refl).
  cbv beta iota.
  rewrite run_bind,
    (sheet_run ref_Components as_Components _ _ ext2 HComponents eq_refl).
  cbv beta iota.
  rewrite run_bind, (read_old h0 as_data _ _ _ ext2 Hdata eq_refl).
  cbv beta iota.
  rewrite run_bind, alloc_new. cbv beta iota.
  rewrite run_bind, alloc_new. cbv beta iota.
  set (sr := (length h0 + length ext2)%nat).
  set (ext3 := (ext2 ++ [ORows []])%list).
  set (fr := (length h0 + length ext3)%nat).
  set (ext4 := (ext3 ++ [OFlows []])%list).
  set (p := {| scenario_date := scenario;
               assembly_site_id := site;
               tariff_records := override_rows F;
               include_fixed_fees := fees |}).
  change {| env_data := data;
            env_tariff_inputs := ti;
            env_fx_rates := data_FX d;
            env_sites := data_Sites d;
            env_products := data_Products d;
            env_components := data_Components d;
            env_assembly_options := ref_AssemblyOptions refs;
            env_logistics_lanes := ref_LogisticsLanes refs;
            env_tariffs_us := ref_Tariffs_US refs;
            env_scenario_results := sr;
            env_flow_records := fr |} with (call_env data d refs ti sr fr).
  assert (Hobj : call_objects h0 ti sr fr F [] [] ext4).
  { split; [apply new_at_kept, new_at_kept, Hti2 |].
    exists [], []. split; [apply new_at_kept, new_at_alloc |].
    split; [constructor |]. split; [apply new_at_alloc | constructor]. }
  destruct (sku_loop_run ti sr fr p F assembly TARGET_SKUS [] [] ext4 Hobj)
    as (r5 & ext5 & Hrun5 & Hpost5).
  rewrite run_bind, Hrun5.
  destruct (Records.sku_loop d p F assembly TARGET_SKUS [] [])
    as [[rs fs]|err].
  2:{ subst r5. exists (Raise err), ext5. split; reflexivity. }
  destruct Hpost5 as (-> & _ & rlocs & flocs & Hsr5 & Hrs5 & Hfr5 & Hfs5).
  cbn [mbind result_bind mret result_ret]. cbv beta iota.
  rewrite run_bind, (read_new h0 as_rows _ _ _ ext5 Hsr5 eq_refl).
  cbv beta iota.
  rewrite run_bind,
    (read_each_new h0 as_row ORow ext5 _ _ (fun _ => eq_refl) Hrs5).
  cbv beta iota.
  rewrite run_bind, alloc_new. cbv beta iota.
  set (ext6 := (ext5 ++ [OSummary rs])%list).
  eexists _, ext6. split; [reflexivity |].
  eexists. split; [reflexivity |]. intros later.
  unfold Objects.contents.
  cbn [Objects.summary_ref Objects.flows_ref Objects.assembly_site_entry].
  assert (Hlater : forall a x, new_at h0 ext5 a x ->
                     new_at h0 (ext6 ++ later) a x).
  { intros a x (k & -> & Hk). exists k. split; [reflexivity |].
    apply lookup_app_l_Some, lookup_app_l_Some. exact Hk. }
  assert (Hsum : new_at h0 (ext6 ++ later) (length h0 + length ext5)%nat
                   (OSummary rs)).
  { exists (length ext5). split; [reflexivity |].
    apply lookup_app_l_Some. unfold ext6.
    rewrite lookup_app_r by lia. rewrite Nat.sub_diag. reflexivity. }
  rewrite run_bind, (read_new h0 as_summary _ _ _ _ Hsum eq_refl).
  cbv beta iota.
  rewrite run_bind,
    (read_new h0 as_flows _ _ _ _ (Hlater _ _ Hfr5) eq_refl).
  cbv beta iota.
  rewrite run_bind,
    (read_each_new h0 as_flow OFlow (ext6 ++ later) flocs fs
       (fun _ => eq_refl)).
  - reflexivity.
  - apply (all_at_kept h0 _ ext5); [exact Hfs5 |]. intros a v Ha _.
    exact (Hlater _ _ Ha).
Qed.
End OverrideRecords.
End Call.

Lemma holds_later (h later : store) (data records_ref : address) (d : Data)
    (records : list OverrideRecord.t) :
  holds h data records_ref d records ->
  holds (h ++ later) data records_ref d records.
Proof.
  intros (refs & record_refs & Hdata & HP & HB & HC & HS & HA & HL & HT & HF
          & Hrecords & Hrecord).
  exists refs, record_refs.
  repeat (split; [apply lookup_app_l_Some; assumption |]).
  clear - Hrecord.
  induction Hrecord; constructor; [apply lookup_app_l_Some |]; assumption.
Qed.

(** a call on a store that holds its tables adds objects to the store, and
    what it returns reads as the outcome of the engine on the tables, also
    after more objects are added *)
Lemma compute_costs_on_store (h : store) (data records_ref : address)
    (d : Data) (records : list OverrideRecord.t) (scenario : date)
    (site : string) (fees : bool) :
  holds h data records_ref d records ->
  exists r new,
    Objects.compute_costs data scenario site records_ref fees h
    = (r, (h ++ new)%list)
    /\ forall later,
         outcome_of (r, ((h ++ new) ++ later)%list)
         = Records.compute_costs d scenario site records fees.
Proof.
  intros (refs & record_refs & Hdata & HP & HB & HC & HS & HA & HL & HT & HF
          & Hrecords & Hrecord).
  destruct (compute_costs_run h data d refs Hdata HP HB HC HS HA HL HT HF
              records_ref record_refs records Hrecords Hrecord scenario site
              fees []) as (r & new & Hrun & Hpost).
  rewrite app_nil_r in Hrun. exists r, new. split; [exact Hrun |].
  intros later. unfold outcome_of. cbn [fst snd].
  destruct (Records.compute_costs d scenario site records fees) as [c|e].
  - destruct Hpost as (refs' & -> & Hread). rewrite <- app_assoc.
    rewrite (Hread later). reflexivity.
  - subst r. reflexivity.
Qed.

(** C9: [compute_costs], run on a store of objects that holds its tables
    and its override records, changes no object that was there before the
    call: the store after the call is the store before it with the objects
    of the call added.  The tables it returns are the value of the engine
    on the tables and records it was given, so two calls with the same
    tables, date, site, records and flag return the same summary and the
    same flow records; a call that runs after another call returns what
    it returns without it, and what a call returned reads the same after
    another call has run. *)
Theorem compute_costs_leaves_its_inputs (h : store)
    (data records_ref : address) (d : Data)
    (records : list OverrideRecord.t) (scenario : date) (site : string)
    (fees : bool)
    (data' records_ref' : address) (d' : Data)
    (records' : list OverrideRecord.t) (scenario' : date) (site' : string)
    (fees' : bool) :
  holds h data records_ref d records ->
  holds h data' records_ref' d' records' ->
  let run := Objects.compute_costs data scenario site records_ref fees h in
  let other :=
    Objects.compute_costs data' scenario' site' records_ref' fees'
      (snd run) in
  (exists new, snd run = (h ++ new)%list)
  /\ outcome_of run = Records.compute_costs d scenario site records fees
  /\ holds (snd run) data records_ref d records
  /\ outcome_of other
     = outcome_of
         (Objects.compute_costs data' scenario' site' records_ref' fees' h)
  /\ outcome_of (fst run, snd other) = outcome_of run
  /\ outcome_of
       (Objects.compute_costs data scenario site records_ref fees
          (snd other))
     = outcome_of run.
Proof.
  intros H H' run other.
  destruct (compute_costs_on_store h data records_ref d records scenario
              site fees H) as (r & new & Hrun & Hout).
  assert (Hafter : holds (h ++ new) data' records_ref' d' records')
    by (apply holds_later; exact H').
  destruct (compute_costs_on_store (h ++ new)%list data' records_ref' d'
              records' scenario' site' fees' Hafter)
    as (r' & new' & Hrun' & Hout').
  destruct (compute_costs_on_store h data' records_ref' d' records'
              scenario' site' fees' H') as (r0 & new0 & Hrun0 & Hout0).
  assert (Hlast : holds ((h ++ new) ++ new') data records_ref d records)
    by (apply holds_later, holds_later; exact H).
  destruct (compute_costs_on_store ((h ++ new) ++ new')%list data records_ref
              d records scenario site fees Hlast)
    as (r2 & new2 & Hrun2 & Hout2).
  assert (E : run = (r, (h ++ new)%list)) by exact Hrun.
  assert (E' : other = (r', ((h ++ new) ++ new')%list)).
  { unfold other. rewrite E. exact Hrun'. }
  pose proof (Hout []) as Ho. rewrite app_nil_r in Ho.
  pose proof (Hout' []) as Ho'. rewrite app_nil_r in Ho'.
  pose proof (Hout0 []) as Ho0. rewrite app_nil_r in Ho0.
  pose proof (Hout2 []) as Ho2. rewrite app_nil_r in Ho2.
  rewrite E', E. cbn [fst snd]. rewrite Hrun0, Hrun2, Ho, Ho', Ho0, Ho2.
  split; [exists new; reflexivity |]. split; [reflexivity |].
  split; [apply holds_later; exact H |]. split; [reflexivity |].
  split; [exact (Hout new') | reflexivity].
Qed.

Lemma compute_costs_leaves_its_inputs_witness :
  holds sample_store 0%nat 9%nat Sample.data [full_record]
  /\ outcome_of
       (Objects.compute_costs 0%nat "2025-04-02" "S_US" 9%nat false
          (snd (Objects.compute_costs 0%nat "2025-04-02" "S_MX" 9%nat true
                  sample_store)))
     = outcome_of
         (Objects.compute_costs 0%nat "2025-04-02" "S_US" 9%nat false
            sample_store).
Proof.
  assert (H : holds sample_store 0%nat 9%nat Sample.data [full_record]).
  { eexists _, _. repeat split; try reflexivity. repeat constructor. }
  split; [exact H |].
  exact (proj1 (proj2 (proj2 (proj2
    (compute_costs_leaves_its_inputs sample_store 0%nat 9%nat Sample.data
       [full_record] "2025-04-02" "S_MX" true 0%nat 9%nat Sample.data
       [full_record] "2025-04-02" "S_US" false H H))))).
Defined.

(** the call for the US site on the sample store: the eleven objects of
    the caller are as before, and ten objects are new *)
Lemma sample_call_adds_objects :
  let run :=
    Objects.compute_costs 0%nat "2025-04-02" "S_US" 9%nat false
      sample_store in
  take 11 (snd run) = sample_store
  /\ length (snd run) = 21%nat
  /\ outcome_of run
     = Records.compute_costs Sample.data "2025-04-02" "S_US" [full_record]
         false.
Proof. vm_compute. repeat split; reflexivity. Qed.

(** * Further properties of the engine *)

(** ** Which SKUs get a row *)

Lemma sku_locals_buildable (d : Data) (p : Params) (assembly : Sites.row)
    (sku : string) :
  (buildable d p sku = true
   -> exists v, sku_locals d p assembly sku = Ok (Some v))
  /\ (buildable d p sku = false -> sku_locals d p assembly sku = Ok None).
Proof.
  pose proof (sku_locals_returns d p assembly sku) as [o Ho].
  revert Ho. unfold sku_locals, buildable.
  destruct (data_Products d !! sku) as [product|];
    [| intros _; split; [discriminate | reflexivity]].
  destruct (iloc0 _) as [opt|];
    [| intros _; split; [discriminate | reflexivity]].
  destruct (usd_to_chf_returns
              (getd (AssemblyOptions.BaseConvCost_USD opt) (fl c0))
              (data_FX d)) as [conv ->].
  cbn [mbind result_bind].
  destruct (loc (bom_mask sku) (data_BOM d)) as [|b bs];
    [intros _; split; [discriminate | reflexivity] |].
  intros Ho. split; [intros _ | discriminate].
  apply bind_Ok_inv in Ho as (t & Ht & Ho). rewrite Ht. cbn [mbind result_bind].
  apply bind_Ok_inv in Ho as ([oc ol] & Hlane & Ho). rewrite Hlane.
  cbn [mbind result_bind].
  destruct (final_tariff d p (Sites.Country assembly)) as [fr fs].
  apply bind_Ok_inv in Ho as (lp & Hlp & Ho). rewrite Hlp.
  cbn [mbind result_bind]. eauto.
Qed.

Lemma rollup_sku_buildable (d : Data) (p : Params) (assembly : Sites.row)
    (sku : string) :
  (buildable d p sku = true ->
   exists row edges,
     rollup_sku d p assembly sku = Ok (Some (row, edges)) /\ SKU row = sku)
  /\ (buildable d p sku = false -> rollup_sku d p assembly sku = Ok None).
Proof.
  destruct (sku_locals_buildable d p assembly sku) as [Hyes Hno]. split.
  - intros Hb. destruct (Hyes Hb) as [v Hv].
    destruct (rollup_sku_returns d p assembly sku) as [[[row edges]|] Hr].
    + exists row, edges. split; [exact Hr |].
      apply rollup_sku_SKU in Hr as [Hsku _]. exact Hsku.
    + exfalso. unfold rollup_sku in Hr. rewrite Hv in Hr.
      cbn [mbind result_bind] in Hr.
      apply bind_Ok_inv in Hr as (pct & _ & Hr).
      apply bind_Ok_inv in Hr as (em & _ & Hr).
      apply bind_Ok_inv in Hr as (fin & _ & Hr). discriminate.
  - intros Hb. unfold rollup_sku. rewrite (Hno Hb). reflexivity.
Qed.

Lemma sku_loop_skus (d : Data) (p : Params) (assembly : Sites.row)
    (skus : list string) (rs rs' : list ScenarioResult) (fs fs' : list Flow) :
  sku_loop d p assembly skus rs fs = Ok (rs', fs') ->
  List.map SKU rs'
  = (List.map SKU rs ++ List.filter (buildable d p) skus)%list.
Proof.
  revert rs fs. induction skus as [|sku skus IH]; intros rs fs; simpl.
  - intros [= <- <-]. rewrite app_nil_r. reflexivity.
  - destruct (rollup_sku_buildable d p assembly sku) as [Hyes Hno].
    destruct (buildable d p sku) eqn:Hb.
    + destruct (Hyes eq_refl) as (row & edges & Hr & Hsku). rewrite Hr.
      cbn [mbind result_bind]. intros H. apply IH in H. rewrite H.
      rewrite map_app, <- app_assoc. cbn [List.map app]. rewrite Hsku.
      reflexivity.
    + rewrite (Hno eq_refl). cbn [mbind result_bind]. apply IH.
Qed.

Lemma compute_costs_skus (d : Data) (p : Params) (c : Costs) :
  compute_costs d p = Ok c ->
  List.map SKU (summary c) = List.filter (buildable d p) TARGET_SKUS.
Proof.
  intros Hc. unfold compute_costs in Hc.
  destruct (data_Sites d !! assembly_site_id p) as [assembly|];
    [| discriminate].
  apply bind_Ok_inv in Hc as ([rs fs] & Hloop & Hc). injection Hc as <-.
  apply sku_loop_skus in Hloop. exact Hloop.
Qed.

Lemma compute_costs_stamps (d : Data) (p : Params) (c : Costs) :
  compute_costs d p = Ok c ->
  Forall (fun row => ScenarioDate row = scenario_date p
                     /\ AssemblySite row = assembly_site_id p
                     /\ SKU_Display row = str_remove "ACTUATOR_" (SKU row))
    (summary c).
Proof.
  intros Hc. apply List.Forall_forall. intros row Hrow.
  destruct (compute_costs_row _ _ _ _ Hc Hrow) as (assembly & _ & _ & Hr).
  apply rollup_sku_Some in Hr
    as (v & pct & em & fin & _ & _ & _ & _ & Hrow' & _).
  rewrite Hrow'.
  cbn [ScenarioDate AssemblySite SKU_Display SKU summary_row].
  repeat split; reflexivity.
Qed.

(** X1: for a known assembly site, the summary has one row per target SKU
    that has a product row, an assembly option for the site and at least
    one BOM line, in the order of [TARGET_SKUS]; every other target SKU is
    skipped without an error.  Each row is stamped with the scenario date
    and the assembly site of the call, and the returned site entry holds
    the identifier, country and role of the assembly site. *)
Theorem summary_lists_buildable_skus (d : Data) (p : Params) (c : Costs) :
  compute_costs d p = Ok c ->
  List.map SKU (summary c) = List.filter (buildable d p) TARGET_SKUS
  /\ Forall (fun row => ScenarioDate row = scenario_date p
                        /\ AssemblySite row = assembly_site_id p
                        /\ SKU_Display row = str_remove "ACTUATOR_" (SKU row))
       (summary c)
  /\ exists assembly,
       data_Sites d !! assembly_site_id p = Some assembly
       /\ assembly_site c
          = {| meta_id := assembly_site_id p;
               meta_country := Sites.Country assembly;
               meta_role := Sites.Role assembly |}.
Proof.
  intros Hc. split; [| split].
  - exact (compute_costs_skus _ _ _ Hc).
  - exact (compute_costs_stamps _ _ _ Hc).
  - unfold compute_costs in Hc.
    destruct (data_Sites d !! assembly_site_id p) as [assembly|];
      [| discriminate].
    apply bind_Ok_inv in Hc as ([rs fs] & _ & Hc). injection Hc as <-.
    exists assembly. split; reflexivity.
Qed.

Lemma summary_lists_buildable_skus_witness :
  exists c,
    compute_costs Sample.data (Sample.params "S_US") = Ok c
    /\ List.map SKU (summary c)
       = List.filter (buildable Sample.data (Sample.params "S_US")) TARGET_SKUS
    /\ Forall (fun row =>
                 ScenarioDate row = scenario_date (Sample.params "S_US")
                 /\ AssemblySite row = assembly_site_id (Sample.params "S_US")
                 /\ SKU_Display row = str_remove "ACTUATOR_" (SKU row))
         (summary c)
    /\ exists assembly,
         data_Sites Sample.data !! assembly_site_id (Sample.params "S_US")
         = Some assembly
         /\ assembly_site c
            = {| meta_id := assembly_site_id (Sample.params "S_US");
                 meta_country := Sites.Country assembly;
                 meta_role := Sites.Role assembly |}.
Proof.
  eexists. split; [vm_compute; reflexivity |].
  eapply (summary_lists_buildable_skus Sample.data (Sample.params "S_US")).
  vm_compute. reflexivity.
Defined.

(** ** Margin *)

Lemma usd_to_chf_nan (fx : gmap string pyfloat) : usd_to_chf nan fx = Ok (fl c0).
Proof. reflexivity. Qed.

(** X3: in every summary row the margin is the list price minus the landed
    cost; the margin percentage is exactly 0.0 when the list price in CHF
    is 0.0 and the margin divided by the list price otherwise.  A product
    whose list price is a missing cell gets the list price 0.0, hence the
    margin percentage 0.0 and the negated landed cost as margin, not an
    error. *)
Theorem margin_columns (d : Data) (p : Params) (c : Costs)
    (row : ScenarioResult) :
  compute_costs d p = Ok c ->
  In row (summary c) ->
  Margin_CHF row = fsub (ListPrice_CHF row) (LandedCost_CHF row)
  /\ (ListPrice_CHF row = fl c0 -> MarginPct row = fl c0)
  /\ (forall q, ListPrice_CHF row = fl q -> q <> c0 ->
        MarginPct row = fdiv_lit (Margin_CHF row) q)
  /\ (forall product,
        data_Products d !! SKU row = Some product ->
        Products.ListPrice_USD product = Some nan ->
        ListPrice_CHF row = fl c0
        /\ MarginPct row = fl c0
        /\ Margin_CHF row = fsub (fl c0) (LandedCost_CHF row)).
Proof.
  intros Hc Hrow.
  destruct (compute_costs_row _ _ _ _ Hc Hrow) as (assembly & _ & _ & Hr).
  apply rollup_sku_Some in Hr
    as (v & pct & em & fin & Hv & Hpct & _ & _ & Hrow' & _).
  apply sku_locals_Some in Hv as (Hprod & _ & _ & _ & _ & _ & _ & _ & Hlp).
  assert (Hzero : list_price_chf v = fl c0 -> pct = fl c0).
  { intros Hz. unfold margin_pct in Hpct. rewrite Hz, truthy_fl_zero in Hpct.
    injection Hpct as <-. reflexivity. }
  rewrite Hrow'.
  cbn [Margin_CHF ListPrice_CHF LandedCost_CHF MarginPct SKU summary_row].
  split; [reflexivity |]. split; [exact Hzero |]. split.
  - intros q Hq Hne. unfold margin_pct in Hpct. rewrite Hq in Hpct.
    assert (Hz : Qc_is_zero q = false).
    { destruct (Qc_is_zero q) eqn:E; [| reflexivity].
      apply Qc_is_zero_spec in E. contradiction. }
    cbn [truthy] in Hpct. rewrite Hz in Hpct. cbn [negb] in Hpct.
    unfold fdiv in Hpct. rewrite Hz in Hpct.
    destruct (margin_chf v); injection Hpct as <-; reflexivity.
  - intros product Hproduct Hprice.
    rewrite Hprod in Hproduct. injection Hproduct as <-.
    rewrite Hprice in Hlp. cbn [getd] in Hlp. rewrite usd_to_chf_nan in Hlp.
    injection Hlp as Hlp. symmetry in Hlp.
    split; [exact Hlp |]. split; [apply Hzero, Hlp |].
    unfold margin_chf. rewrite Hlp. reflexivity.
Qed.

Lemma margin_columns_witness :
  exists c row,
    compute_costs Sample.data (Sample.params "S_US") = Ok c
    /\ In row (summary c)
    /\ Margin_CHF row = fsub (ListPrice_CHF row) (LandedCost_CHF row)
    /\ (ListPrice_CHF row = fl c0 -> MarginPct row = fl c0)
    /\ (forall q, ListPrice_CHF row = fl q -> q <> c0 ->
          MarginPct row = fdiv_lit (Margin_CHF row) q)
    /\ (forall product,
          data_Products Sample.data !! SKU row = Some product ->
          Products.ListPrice_USD product = Some nan ->
          ListPrice_CHF row = fl c0
          /\ MarginPct row = fl c0
          /\ Margin_CHF row = fsub (fl c0) (LandedCost_CHF row)).
Proof.
  eexists _, _. split; [vm_compute; reflexivity |].
  split; [left; reflexivity |].
  eapply (margin_columns Sample.data (Sample.params "S_US")).
  - vm_compute. reflexivity.
  - left. reflexivity.
Defined.

(** ** Cost shares *)

Lemma Forall2_In_r {A B : Type} (R : A -> B -> Prop) (xs : list A)
    (ys : list B) (y : B) :
  Forall2 R xs ys -> In y ys -> exists x, In x xs /\ R x y.
Proof.
  induction 1 as [|x y' xs ys HR _ IH]; intros Hin; [destruct Hin |].
  destruct Hin as [<- | Hin].
  - exists x. split; [left; reflexivity | exact HR].
  - destruct (IH Hin) as (x' & Hx' & HR'). exists x'.
    split; [right; exact Hx' | exact HR'].
Qed.

Lemma rollup_sku_shares (d : Data) (p : Params) (assembly : Sites.row)
    (sku : string) (row : ScenarioResult) (edges : list Flow) (e : Flow) :
  rollup_sku d p assembly sku = Ok (Some (row, edges)) ->
  In e edges ->
  fle (cost_value e) (fl c0) = false
  /\ exists s,
       cost_share e = Some s
       /\ share_of (cost_value e) (LandedCost_CHF row) = Ok s.
Proof.
  intros H Hin.
  apply rollup_sku_Some in H
    as (v & pct & emitted & final & _ & _ & Hem & Hfin & -> & ->).
  cbn [LandedCost_CHF summary_row].
  apply in_app_or in Hin as [Hin | Hin].
  - apply emit_entries_kept in Hem.
    destruct (Forall2_In_r _ _ _ _ Hem Hin) as (e0 & He0 & s & Hs & ->).
    apply List.filter_In in He0 as [_ Hk]. unfold kept in Hk.
    apply negb_true_iff in Hk.
    cbn [cost_value cost_share with_cost_share]. eauto.
  - unfold final_flow in Hfin.
    destruct (fgt (final_flow_value v) (fl c0)) eqn:Hgt.
    + apply bind_Ok_inv in Hfin as (s & Hs & Hfin). injection Hfin as <-.
      destruct Hin as [<- | []]. cbn [cost_value cost_share]. split; [| eauto].
      destruct (final_flow_value v) as [|q]; [reflexivity |].
      cbn [fgt fle] in *. unfold Qc_ltb in Hgt. unfold Qc_leb.
      apply negb_true_iff in Hgt. exact Hgt.
    + injection Hfin as <-. destruct Hin.
Qed.

(** X4: every returned flow record belongs to a row of the summary, has a
    cost value that is not [<= 0], and carries a cost share: its cost value
    divided by the landed cost of its SKU, or 0.0 when that landed cost is
    0.0.  No record leaves the engine without a share. *)
Theorem flow_records_carry_shares (d : Data) (p : Params) (c : Costs)
    (e : Flow) :
  compute_costs d p = Ok c ->
  In e (flows c) ->
  exists row s,
    In row (summary c)
    /\ SKU row = flow_SKU e
    /\ fle (cost_value e) (fl c0) = false
    /\ cost_share e = Some s
    /\ (LandedCost_CHF row = fl c0 -> s = fl c0)
    /\ (forall q, LandedCost_CHF row = fl q -> q <> c0 ->
          s = fdiv_lit (cost_value e) q).
Proof.
  intros Hc Hin.
  apply compute_costs_outputs in Hc as (assembly & outs & _ & Houts & Hs & Hf).
  rewrite Hs. rewrite Hf in Hin. clear Hs Hf.
  apply List.in_concat in Hin as (edges & Hedges & Hin).
  apply List.in_map_iff in Hedges as ([row edges'] & <- & Hout).
  cbn [snd] in Hin.
  eapply List.Forall_forall in Houts; [| exact Hout].
  destruct Houts as (sku & _ & Hroll). cbn [fst snd] in Hroll.
  destruct (rollup_sku_shares _ _ _ _ _ _ _ Hroll Hin) as (Hpos & s & Hs & Hshare).
  pose proof (rollup_sku_SKU _ _ _ _ _ _ Hroll) as [Hsku Hall].
  exists row, s.
  split; [apply List.in_map_iff; exists (row, edges'); split;
          [reflexivity | exact Hout] |].
  split.
  { rewrite Hsku. symmetry.
    eapply List.Forall_forall in Hall; [exact Hall | exact Hin]. }
  split; [exact Hpos |]. split; [exact Hs |]. split.
  - intros Hz. unfold share_of in Hshare. rewrite Hz, truthy_fl_zero in Hshare.
    injection Hshare as <-. reflexivity.
  - intros q Hq Hne. unfold share_of in Hshare. rewrite Hq in Hshare.
    assert (Hz : Qc_is_zero q = false).
    { destruct (Qc_is_zero q) eqn:E; [| reflexivity].
      apply Qc_is_zero_spec in E. contradiction. }
    cbn [truthy] in Hshare. rewrite Hz in Hshare. cbn [negb] in Hshare.
    unfold fdiv in Hshare. rewrite Hz in Hshare.
    destruct (cost_value e); injection Hshare as <-; reflexivity.
Qed.

Lemma flow_records_carry_shares_witness :
  exists c e,
    compute_costs Sample.data (Sample.params "S_US") = Ok c
    /\ In e (flows c)
    /\ exists row s,
         In row (summary c)
         /\ SKU row = flow_SKU e
         /\ fle (cost_value e) (fl c0) = false
         /\ cost_share e = Some s
         /\ (LandedCost_CHF row = fl c0 -> s = fl c0)
         /\ (forall q, LandedCost_CHF row = fl q -> q <> c0 ->
               s = fdiv_lit (cost_value e) q).
Proof.
  eexists _, _. split; [vm_compute; reflexivity |].
  split; [left; reflexivity |].
  eapply (flow_records_carry_shares Sample.data (Sample.params "S_US")).
  - vm_compute. reflexivity.
  - left. reflexivity.
Defined.

(** ** Fixed fees *)

Lemma first_lane_with_fixed_fees (fee : LogisticsLanes.row -> option pyfloat)
    (d : Data) (from_c to_c : label) :
  first_lane (with_fixed_fees fee d) from_c to_c
  = option_map (with_fixed_fee fee) (first_lane d from_c to_c).
Proof.
  unfold first_lane, with_fixed_fees, loc, iloc0. cbn [data_LogisticsLanes].
  induction (data_LogisticsLanes d) as [|l ls IH]; [reflexivity |].
  cbn [List.map List.filter].
  change (lane_mask from_c to_c (with_fixed_fee fee l))
    with (lane_mask from_c to_c l).
  destruct (lane_mask from_c to_c l); [reflexivity | exact IH].
Qed.

Lemma lane_cost_without_fees (fee : LogisticsLanes.row -> option pyfloat)
    (d : Data) (p : Params) (from_c to_c : label) (w : pyfloat) :
  include_fixed_fees p = false ->
  lane_cost (with_fixed_fees fee d) p from_c to_c w
  = lane_cost d p from_c to_c w.
Proof.
  intros Hoff. unfold lane_cost. rewrite first_lane_with_fixed_fees, Hoff.
  destruct (first_lane d from_c to_c); reflexivity.
Qed.

Lemma component_line_without_fees
    (fee : LogisticsLanes.row -> option pyfloat) (d : Data) (p : Params)
    (sku : string) (assembly : Sites.row) (y : pyfloat)
    (c : BomComponents.row) :
  include_fixed_fees p = false ->
  component_line (with_fixed_fees fee d) p sku assembly y c
  = component_line d p sku assembly y c.
Proof.
  intros Hoff. unfold component_line.
  destruct (effective_quantity c y) as [q|e]; [| reflexivity].
  cbn [mbind result_bind].
  change (origin_country_of (with_fixed_fees fee d) c)
    with (origin_country_of d c).
  change (data_FX (with_fixed_fees fee d)) with (data_FX d).
  destruct (local_to_chf _ _ _) as [m|e]; [| reflexivity].
  cbn [mbind result_bind].
  rewrite (lane_cost_without_fees fee d p _ _ _ Hoff). reflexivity.
Qed.

Lemma component_loop_without_fees
    (fee : LogisticsLanes.row -> option pyfloat) (d : Data) (p : Params)
    (sku : string) (assembly : Sites.row) (y : pyfloat)
    (rows : list BomComponents.row) (t : Totals) :
  include_fixed_fees p = false ->
  component_loop (with_fixed_fees fee d) p sku assembly y rows t
  = component_loop d p sku assembly y rows t.
Proof.
  intros Hoff. revert t. induction rows as [|c rows IH]; intros t;
    [reflexivity |].
  cbn [component_loop]. rewrite (component_line_without_fees _ _ _ _ _ _ _ Hoff).
  destruct (component_line d p sku assembly y c) as [l|e]; [| reflexivity].
  cbn [mbind result_bind]. apply IH.
Qed.

Lemma sku_locals_without_fees
    (fee : LogisticsLanes.row -> option pyfloat) (d : Data) (p : Params)
    (assembly : Sites.row) (sku : string) :
  include_fixed_fees p = false ->
  sku_locals (with_fixed_fees fee d) p assembly sku
  = sku_locals d p assembly sku.
Proof.
  intros Hoff. unfold sku_locals.
  change (data_Products (with_fixed_fees fee d)) with (data_Products d).
  change (data_AssemblyOptions (with_fixed_fees fee d))
    with (data_AssemblyOptions d).
  change (data_FX (with_fixed_fees fee d)) with (data_FX d).
  change (data_BOM (with_fixed_fees fee d)) with (data_BOM d).
  change (data_Sites (with_fixed_fees fee d)) with (data_Sites d).
  change (data_Components (with_fixed_fees fee d)) with (data_Components d).
  destruct (data_Products d !! sku) as [product|]; [| reflexivity].
  destruct (iloc0 _) as [opt|]; [| reflexivity].
  destruct (usd_to_chf (getd (AssemblyOptions.BaseConvCost_USD opt) (fl c0))
              (data_FX d)) as [conv|e]; [| reflexivity].
  cbn [mbind result_bind].
  destruct (loc (bom_mask sku) (data_BOM d)) as [|b bs]; [reflexivity |].
  rewrite (component_loop_without_fees _ _ _ _ _ _ _ _ Hoff).
  destruct (component_loop _ _ _ _ _ _ _) as [t|e]; [| reflexivity].
  cbn [mbind result_bind].
  rewrite (lane_cost_without_fees fee d p _ _ _ Hoff).
  destruct (lane_cost _ _ _ _ _) as [[oc ol]|e]; [| reflexivity].
  cbn [mbind result_bind].
  change (final_tariff (with_fixed_fees fee d) p (Sites.Country assembly))
    with (final_tariff d p (Sites.Country assembly)).
  reflexivity.
Qed.

Lemma sku_loop_without_fees
    (fee : LogisticsLanes.row -> option pyfloat) (d : Data) (p : Params)
    (assembly : Sites.row) (skus : list string) (rs : list ScenarioResult)
    (fs : list Flow) :
  include_fixed_fees p = false ->
  sku_loop (with_fixed_fees fee d) p assembly skus rs fs
  = sku_loop d p assembly skus rs fs.
Proof.
  intros Hoff. revert rs fs. induction skus as [|sku skus IH]; intros rs fs;
    [reflexivity |].
  cbn [sku_loop]. unfold rollup_sku.
  rewrite (sku_locals_without_fees _ _ _ _ _ Hoff).
  destruct (sku_locals d p assembly sku ≫= _) as [[[row edges]|]|e];
    cbn [mbind result_bind]; [apply IH | apply IH | reflexivity].
Qed.

Lemma compute_costs_without_fees
    (fee : LogisticsLanes.row -> option pyfloat) (d : Data) (p : Params) :
  include_fixed_fees p = false ->
  compute_costs (with_fixed_fees fee d) p = compute_costs d p.
Proof.
  intros Hoff. unfold compute_costs.
  change (data_Sites (with_fixed_fees fee d)) with (data_Sites d).
  destruct (data_Sites d !! assembly_site_id p) as [assembly|];
    [| reflexivity].
  rewrite (sku_loop_without_fees _ _ _ _ _ _ _ Hoff). reflexivity.
Qed.

(** X6: the fixed fee per shipment is charged only when the flag is set:
    with [include_fixed_fees] off, the outcome of [compute_costs] (summary,
    flow records and errors alike) does not depend on the column
    [Fixed_per_shipment_USD] of the lanes, whatever it holds (numbers,
    missing cells or no column at all). *)
Theorem fixed_fees_ignored_when_off
    (fee : LogisticsLanes.row -> option pyfloat) (d : Data) (p : Params) :
  include_fixed_fees p = false ->
  compute_costs (with_fixed_fees fee d) p = compute_costs d p
  /\ forall from_c to_c weight,
       lane_cost (with_fixed_fees fee d) p from_c to_c weight
       = lane_cost d p from_c to_c weight.
Proof.
  intros Hoff. split; [apply compute_costs_without_fees, Hoff |].
  intros from_c to_c weight. apply lane_cost_without_fees, Hoff.
Qed.

Lemma fixed_fees_ignored_when_off_witness :
  include_fixed_fees (Sample.params "S_US") = false
  /\ compute_costs (with_fixed_fees (fun _ => None) Sample.data)
       (Sample.params "S_US")
     = compute_costs Sample.data (Sample.params "S_US")
  /\ forall from_c to_c weight,
       lane_cost (with_fixed_fees (fun _ => None) Sample.data)
         (Sample.params "S_US") from_c to_c weight
       = lane_cost Sample.data (Sample.params "S_US") from_c to_c weight.
Proof.
  split; [reflexivity |].
  eapply (fixed_fees_ignored_when_off (fun _ => None) Sample.data
           (Sample.params "S_US")).
  reflexivity.
Defined.

(** * Further properties of the tariff resolver *)

Lemma iloc0_loc_mask {A : Type} (mask : A -> bool) (df : list A) (r : A) :
  iloc0 (loc mask df) = Some r -> mask r = true.
Proof. intros H. apply iloc0_loc_Some in H as (_ & _ & _ & _ & H). exact H. Qed.

Lemma iloc0_loc_first_only {A : Type} (mask : A -> bool) (df : list A) :
  iloc0 (loc mask (option_list (iloc0 (loc mask df)))) = iloc0 (loc mask df).
Proof.
  destruct (iloc0 (loc mask df)) as [r|] eqn:H; [| reflexivity].
  apply iloc0_loc_mask in H. unfold loc, iloc0. simpl. rewrite H. reflexivity.
Qed.

Lemma candidate_first_only (cls org : label) (tis : list TariffInputs.row) :
  iloc0 match tis with
        | [] => []
        | _ => loc (override_mask cls org) tis
        end
  = iloc0 (loc (override_mask cls org) tis).
Proof. destruct tis; reflexivity. Qed.

(** X7: the resolver reads at most one row of each table: its answer is
    the answer for the tables cut down to the first override row of the
    key and the first schedule row of the date and key.  Rows of other
    keys, and later rows of the same key, never change the result. *)
Theorem resolver_reads_first_rows_only (cls org : label) (dt : date)
    (tis : list TariffInputs.row) (tus : list Tariffs_US.row) :
  compute_tariff_rate cls org dt tis tus
  = compute_tariff_rate cls org dt
      (option_list (iloc0 (loc (override_mask cls org) tis)))
      (option_list (iloc0 (loc (scenario_mask dt cls org) tus))).
Proof.
  unfold compute_tariff_rate.
  rewrite !candidate_first_only, !iloc0_loc_first_only. reflexivity.
Qed.

(** X8: the resolver never answers NaN and never answers without a
    provenance: the rate is a number and the provenance is "Override",
    "Scenario <date>", "Default" or "None"; with the provenance "None" the
    rate is 0.0, and with any other provenance it is one hundredth of a
    numeric cell of the table named by the provenance. *)
Theorem resolver_answers (cls org : label) (dt : date)
    (tis : list TariffInputs.row) (tus : list Tariffs_US.row) :
  let '(rate, source) := compute_tariff_rate cls org dt tis tus in
  (exists q, rate = fl q)
  /\ ((source = "Override"
       /\ exists r q, In r tis /\ TariffInputs.UserRate_pct r = fl q
                      /\ rate = fl (q / c100))
      \/ (source = "Scenario " ++ dt
          /\ exists r q, In r tus
                         /\ Tariffs_US.US_AdValoremTariff_pct r = fl q
                         /\ rate = fl (q / c100))
      \/ (source = "Default"
          /\ exists r q, In r tis /\ TariffInputs.DefaultRate_pct r = fl q
                         /\ rate = fl (q / c100))
      \/ (source = "None" /\ rate = fl c0)).
Proof.
  unfold compute_tariff_rate. rewrite candidate_first_only.
  assert (Hin_tis : forall r,
            iloc0 (loc (override_mask cls org) tis) = Some r -> In r tis).
  { intros r H. unfold iloc0, loc in H.
    destruct (List.filter (override_mask cls org) tis) as [|x xs] eqn:E;
      [discriminate |]. injection H as ->.
    assert (Hx : In r (List.filter (override_mask cls org) tis))
      by (rewrite E; left; reflexivity).
    apply List.filter_In in Hx as [Hx _]. exact Hx. }
  assert (Hin_tus : forall r,
            iloc0 (loc (scenario_mask dt cls org) tus) = Some r -> In r tus).
  { intros r H. unfold iloc0, loc in H.
    destruct (List.filter (scenario_mask dt cls org) tus) as [|x xs] eqn:E;
      [discriminate |]. injection H as ->.
    assert (Hx : In r (List.filter (scenario_mask dt cls org) tus))
      by (rewrite E; left; reflexivity).
    apply List.filter_In in Hx as [Hx _]. exact Hx. }
  destruct (iloc0 (loc (override_mask cls org) tis)) as [c|] eqn:Hc;
  destruct (iloc0 (loc (scenario_mask dt cls org) tus)) as [s|] eqn:Hs.
  all: try (destruct (TariffInputs.UserRate_pct c) as [|u] eqn:Hu;
            cbn [notna isna negb fdiv_lit];
            [| split; [eauto |];
               left; split; [reflexivity |]; exists c, u; auto]).
  all: try (destruct (Tariffs_US.US_AdValoremTariff_pct s) as [|r] eqn:Hr;
            cbn [notna isna negb fdiv_lit];
            [| split; [eauto |];
               right; left; split; [reflexivity |]; exists s, r; auto]).
  all: try (destruct (TariffInputs.DefaultRate_pct c) as [|dr] eqn:Hd;
            cbn [notna isna negb fdiv_lit];
            [| split; [eauto |];
               right; right; left; split; [reflexivity |];
               exists c, dr; auto]).
  all: split; [eauto | right; right; right; split; reflexivity].
Qed.

Lemma compute_tariff_rate_missing_origin (cls : label) (dt : date)
    (tis : list TariffInputs.row) (tus : list Tariffs_US.row) :
  compute_tariff_rate cls None dt tis tus = (fl c0, "None").
Proof.
  unfold compute_tariff_rate.
  replace (match tis with [] => [] | _ => loc (override_mask cls None) tis end)
    with (@nil TariffInputs.row).
  2:{ destruct tis; [reflexivity |]. symmetry. apply loc_none.
      intros x. unfold override_mask. rewrite label_eqb_None_r.
      apply andb_false_r. }
  rewrite loc_none; [reflexivity |].
  intros x. unfold scenario_mask. rewrite label_eqb_None_r.
  apply andb_false_r.
Qed.

(** X9: a missing component class or a missing origin country matches no
    row, not even a row whose own cell is missing: the resolver answers
    (0.0, "None") whatever the tables hold. *)
Theorem resolver_missing_key (cls org : label) (dt : date)
    (tis : list TariffInputs.row) (tus : list Tariffs_US.row) :
  cls = None \/ org = None ->
  compute_tariff_rate cls org dt tis tus = (fl c0, "None").
Proof.
  intros [-> | ->];
    [apply compute_tariff_rate_missing_class
    | apply compute_tariff_rate_missing_origin].
Qed.

Lemma resolver_missing_key_witness :
  (@None string = None \/ Some "China" = None)
  /\ compute_tariff_rate None (Some "China") "2025-04-02" Sample.overrides
       (data_Tariffs_US Sample.data)
     = (fl c0, "None").
Proof.
  split; [left; reflexivity |].
  eapply (resolver_missing_key None (Some "China")). left. reflexivity.
Defined.

(** * The map *)

Lemma existsb_eqb_In (s : string) (seen : list string) :
  existsb (String.eqb s) seen = true <-> In s seen.
Proof.
  rewrite existsb_exists. split.
  - intros (x & Hx & He). apply String.eqb_eq in He. subst. exact Hx.
  - intros H. exists s. split; [exact H | apply String.eqb_refl].
Qed.

Lemma find_drop_duplicates (seen : list string) (rows : list MapNodes.row)
    (id : string) :
  ~ In id seen ->
  List.find (fun r => String.eqb (MapNodes.SiteID r) id)
    (drop_duplicates seen rows)
  = List.find (fun r => String.eqb (MapNodes.SiteID r) id) rows.
Proof.
  revert seen. induction rows as [|r rows IH]; intros seen Hid; [reflexivity |].
  cbn [drop_duplicates List.find].
  destruct (existsb (String.eqb (MapNodes.SiteID r)) seen) eqn:Hseen.
  - apply existsb_eqb_In in Hseen.
    destruct (String.eqb_spec (MapNodes.SiteID r) id) as [E | E].
    + exfalso. apply Hid. rewrite <- E. exact Hseen.
    + apply IH, Hid.
  - cbn [List.find].
    destruct (String.eqb_spec (MapNodes.SiteID r) id) as [E | E];
      [reflexivity |].
    apply IH. intros [H | H]; [contradiction | apply Hid, H].
Qed.

Lemma drop_duplicates_NoDup (seen : list string) (rows : list MapNodes.row) :
  List.NoDup (List.map MapNodes.SiteID (drop_duplicates seen rows))
  /\ Forall (fun r => ~ In (MapNodes.SiteID r) seen)
       (drop_duplicates seen rows).
Proof.
  revert seen. induction rows as [|r rows IH]; intros seen;
    [split; constructor |].
  cbn [drop_duplicates].
  destruct (existsb (String.eqb (MapNodes.SiteID r)) seen) eqn:Hseen;
    [apply IH |].
  destruct (IH (MapNodes.SiteID r :: seen)) as [Hnd Hall].
  assert (Hnot : ~ In (MapNodes.SiteID r) seen).
  { intros H. apply existsb_eqb_In in H. congruence. }
  split.
  - cbn [List.map]. constructor; [| exact Hnd].
    intros Hin. apply List.in_map_iff in Hin as (r' & Heq & Hr').
    eapply List.Forall_forall in Hall; [| exact Hr'].
    apply Hall. left. symmetry. exact Heq.
  - constructor; [exact Hnot |].
    refine (List.Forall_impl _ _ Hall). intros r' Hr' Hin. apply Hr'.
    right. exact Hin.
Qed.

Lemma find_app_first {A : Type} (f : A -> bool) (xs ys : list A) :
  List.find f (xs ++ ys)
  = match List.find f xs with
    | Some x => Some x
    | None => List.find f ys
    end.
Proof.
  induction xs as [|x xs IH]; [reflexivity |]. cbn [app List.find].
  destruct (f x); [reflexivity | exact IH].
Qed.

Lemma node_of_nodes_ext (nodes : list MapNodes.row) (id : string) :
  node_of (nodes_ext nodes) (Some id)
  = match List.find (fun r => String.eqb (MapNodes.SiteID r) id) nodes with
    | Some r => Some r
    | None =>
        if String.eqb US_CUSTOMER_NODE.SiteID id
        then Some us_customer_node
        else None
    end.
Proof.
  unfold node_of, nodes_ext.
  rewrite find_drop_duplicates by (intros []).
  rewrite find_app_first. reflexivity.
Qed.

(** X12: the index of the extended node table has no repeated identifier,
    and looking a site up in it gives the first row of the node table with
    that identifier; only when the node table has none, the identifier
    "US_CUSTOMER" gives the built-in customer node.  So the customer node
    is always on the map, and a row of the node table with its identifier
    takes its place. *)
Theorem node_lookup (nodes : list MapNodes.row) (id : string) :
  List.NoDup (List.map MapNodes.SiteID (nodes_ext nodes))
  /\ node_of (nodes_ext nodes) (Some id)
     = match List.find (fun r => String.eqb (MapNodes.SiteID r) id) nodes with
       | Some r => Some r
       | None =>
           if String.eqb US_CUSTOMER_NODE.SiteID id
           then Some us_customer_node
           else None
       end
  /\ is_Some (node_of (nodes_ext nodes) (Some US_CUSTOMER_NODE.SiteID)).
Proof.
  split; [apply drop_duplicates_NoDup |].
  split; [apply node_of_nodes_ext |].
  rewrite node_of_nodes_ext.
  destruct (List.find _ nodes); [eauto |].
  rewrite String.eqb_refl. eauto.
Qed.

Lemma node_of_on_map (nodes : list MapNodes.row) (site : label) :
  is_Some (node_of (nodes_ext nodes) site) <-> on_map nodes site = true.
Proof.
  destruct site as [s|]; [| split; [intros [x H]; discriminate | discriminate]].
  rewrite node_of_nodes_ext. cbn [on_map].
  destruct (List.find _ nodes) as [r|] eqn:Hf.
  - split; [intros _ | eauto].
    apply orb_true_iff. left. apply existsb_exists. exists r.
    apply List.find_some in Hf. exact Hf.
  - assert (He : existsb (fun r => String.eqb (MapNodes.SiteID r) s) nodes
                 = false).
    { destruct (existsb _ nodes) eqn:E; [| reflexivity].
      apply existsb_exists in E as (r & Hr & Hs).
      eapply List.find_none in Hf; [| exact Hr]. cbn beta in Hf. congruence. }
    rewrite He. cbn [orb].
    destruct (String.eqb US_CUSTOMER_NODE.SiteID s);
      split; eauto; try discriminate. intros [x H]. discriminate.
Qed.

(** ** No line is ever drawn *)

Lemma line_trace_outcome (R : Rendering) (nodes : list MapNodes.row)
    (e : Flow) :
  line_trace R (nodes_ext nodes) e
  = if drawable nodes e then Raise (ValueError (invalid_color R))
    else Ok None.
Proof.
  unfold line_trace, drawable.
  pose proof (node_of_on_map nodes (from_site e)) as Hf.
  pose proof (node_of_on_map nodes (Some (to_site e))) as Ht.
  destruct (node_of (nodes_ext nodes) (from_site e)) as [start|].
  - rewrite (proj1 Hf) by eauto. cbn [andb].
    destruct (node_of (nodes_ext nodes) (Some (to_site e))) as [finish|].
    + rewrite (proj1 Ht) by eauto. reflexivity.
    + destruct (on_map nodes (Some (to_site e))); [| reflexivity].
      destruct (proj2 Ht eq_refl) as [x Hx]. discriminate.
  - destruct (on_map nodes (from_site e)); [| reflexivity].
    destruct (proj2 Hf eq_refl) as [x Hx]. discriminate.
Qed.

Lemma flow_loop_outcome (R : Rendering) (nodes : list MapNodes.row)
    (flows : list Flow) (traces : list Trace) :
  flow_loop R (nodes_ext nodes) flows traces
  = if existsb (drawable nodes) flows
    then Raise (ValueError (invalid_color R))
    else Ok traces.
Proof.
  revert traces. induction flows as [|e flows IH]; intros traces;
    [reflexivity |].
  cbn [flow_loop existsb]. rewrite line_trace_outcome.
  destruct (drawable nodes e); [reflexivity |].
  cbn [mbind result_bind option_list orb]. rewrite IH, app_nil_r.
  reflexivity.
Qed.

Lemma build_map_cases (R : Rendering) (flows : list Flow)
    (nodes : list MapNodes.row) :
  build_map R flows nodes
  = match flows with
    | [] => Ok (GeoFigure false [])
    | _ =>
        if forallb (fun e => negb (bool_decide (is_Some (cost_share e))))
             flows
        then Raise (KeyError "cost_share")
        else if existsb (drawable nodes) flows
             then Raise (ValueError (invalid_color R))
             else
               let unique_nodes :=
                 List.filter (is_endpoint flows) (nodes_ext nodes) in
               Ok (GeoFigure true
                     [Markers (List.map MapNodes.Lon unique_nodes)
                              (List.map MapNodes.Lat unique_nodes)
                              (List.map (marker_text R) unique_nodes)])
    end.
Proof.
  unfold build_map. destruct flows as [|e0 rest]; [reflexivity |].
  destruct (forallb _ (e0 :: rest)); [reflexivity |].
  rewrite flow_loop_outcome.
  destruct (existsb (drawable nodes) (e0 :: rest)); reflexivity.
Qed.

Lemma build_map_no_line (R : Rendering) (flows : list Flow)
    (nodes : list MapNodes.row) (fig : Figure) :
  build_map R flows nodes = Ok fig -> no_line fig.
Proof.
  rewrite build_map_cases. destruct flows as [|e0 rest].
  - intros [= <-]. constructor.
  - destruct (forallb _ (e0 :: rest)); [discriminate |].
    destruct (existsb _ (e0 :: rest)); [discriminate |].
    intros [= <-]. cbn [no_line]. repeat constructor.
Qed.

Lemma no_share_forallb (flows : list Flow) :
  forallb (fun e => negb (bool_decide (is_Some (cost_share e)))) flows = true
  <-> Forall (fun e => cost_share e = None) flows.
Proof.
  rewrite forallb_forall, List.Forall_forall.
  split; intros H e He; specialize (H e He).
  - destruct (cost_share e); [discriminate | reflexivity].
  - rewrite H. reflexivity.
Qed.

Lemma engine_flows_have_shares (d : Data) (p : Params) (c : Costs) :
  compute_costs d p = Ok c ->
  Forall (fun e => is_Some (cost_share e)) (flows c).
Proof.
  intros Hc. apply List.Forall_forall. intros e He.
  pose proof Hc as Hc'.
  apply compute_costs_outputs in Hc' as (assembly & outs & _ & Houts & _ & Hf).
  rewrite Hf in He.
  apply List.in_concat in He as (edges & Hedges & He).
  apply List.in_map_iff in Hedges as ([row edges'] & <- & Hout).
  eapply List.Forall_forall in Houts; [| exact Hout].
  destruct Houts as (sku & _ & Hroll). cbn [fst snd] in Hroll, He.
  destruct (rollup_sku_shares _ _ _ _ _ _ _ Hroll He) as (_ & s & Hs & _).
  rewrite Hs. eauto.
Qed.

Lemma build_map_of_engine (R : Rendering) (nodes : list MapNodes.row)
    (d : Data) (p : Params) (c : Costs) :
  compute_costs d p = Ok c ->
  build_map R (flows c) nodes
  = if existsb (drawable nodes) (flows c)
    then Raise (ValueError (invalid_color R))
    else
      match flows c with
      | [] => Ok (GeoFigure false [])
      | _ =>
          let unique_nodes :=
            List.filter (is_endpoint (flows c)) (nodes_ext nodes) in
          Ok (GeoFigure true
                [Markers (List.map MapNodes.Lon unique_nodes)
                         (List.map MapNodes.Lat unique_nodes)
                         (List.map (marker_text R) unique_nodes)])
      end.
Proof.
  intros Hc. rewrite build_map_cases.
  pose proof (engine_flows_have_shares _ _ _ Hc) as Hall.
  destruct (flows c) as [|e0 rest]; [reflexivity |].
  assert (Hf : forallb
                 (fun e => negb (bool_decide (is_Some (cost_share e))))
                 (e0 :: rest) = false).
  { destruct (forallb _ (e0 :: rest)) eqn:E; [| reflexivity].
    apply no_share_forallb in E. apply List.Forall_inv in E.
    apply List.Forall_inv in Hall. rewrite E in Hall.
    destruct Hall as [x Hx]. discriminate. }
  rewrite Hf. reflexivity.
Qed.

(** X13: [build_map] never returns a figure with a line.  For an empty
    list it returns the bare layout; for a list of records none of which
    has a cost share it raises the [KeyError] of the column "cost_share";
    otherwise, as soon as one record has both its sites on the map, the
    construction of the line raises the [ValueError] of plotly's validator
    (the sampled colour is a list); and when no record has both sites on
    the map it returns the marker trace alone. *)
Theorem build_map_never_draws_a_line (R : Rendering) (flows : list Flow)
    (nodes : list MapNodes.row) :
  (build_map R flows nodes = Raise (KeyError "cost_share")
   <-> flows <> [] /\ Forall (fun e => cost_share e = None) flows)
  /\ (build_map R flows nodes = Raise (ValueError (invalid_color R))
      <-> Exists (fun e => is_Some (cost_share e)) flows
          /\ Exists (fun e => drawable nodes e = true) flows)
  /\ (forall e,
        build_map R flows nodes = Raise e ->
        e = KeyError "cost_share" \/ e = ValueError (invalid_color R))
  /\ (forall fig, build_map R flows nodes = Ok fig -> no_line fig)
  /\ (flows = [] -> build_map R flows nodes = Ok (GeoFigure false [])).
Proof.
  rewrite build_map_cases.
  destruct flows as [|e0 rest].
  { repeat split; try discriminate.
    - intros [H _]. congruence.
    - intros [H _]. inversion H.
    - intros fig [= <-]. constructor. }
  set (flows := e0 :: rest).
  assert (Hdraw : existsb (drawable nodes) flows = true
                  <-> Exists (fun e => drawable nodes e = true) flows).
  { rewrite existsb_exists, List.Exists_exists. reflexivity. }
  assert (Hsome : Exists (fun e => is_Some (cost_share e)) flows
                  -> ~ Forall (fun e => cost_share e = None) flows).
  { intros Hex Hall. apply List.Exists_exists in Hex as (e & He & [x Hx]).
    rewrite List.Forall_forall in Hall. rewrite (Hall e He) in Hx.
    discriminate. }
  assert (Hnone : ~ Forall (fun e => cost_share e = None) flows
                  -> Exists (fun e => is_Some (cost_share e)) flows).
  { intros Hn.
    destruct (forallb (fun e => negb (bool_decide
                                        (is_Some (cost_share e)))) flows)
      eqn:E.
    - exfalso. apply Hn. apply no_share_forallb. exact E.
    - apply List.Exists_exists.
      assert (Hx : existsb (fun e => bool_decide (is_Some (cost_share e)))
                     flows = true).
      { clear -E. induction flows as [|e es IH]; [discriminate |].
        cbn [forallb existsb] in *.
        destruct (bool_decide (is_Some (cost_share e))); [reflexivity |].
        cbn [negb andb orb] in *. apply IH, E. }
      apply existsb_exists in Hx as (e & He & Hx).
      exists e. split; [exact He |]. apply bool_decide_eq_true in Hx.
      exact Hx. }
  destruct (forallb _ flows) eqn:Ef.
  - apply no_share_forallb in Ef.
    split; [| split; [| split; [| split]]].
    + split; [intros _; split; [discriminate | exact Ef] | reflexivity].
    + split; [discriminate |]. intros [Hex _]. exfalso. exact (Hsome Hex Ef).
    + intros e He. left. congruence.
    + discriminate.
    + discriminate.
  - assert (Hn : ~ Forall (fun e => cost_share e = None) flows).
    { intros H. apply no_share_forallb in H. congruence. }
    destruct (existsb (drawable nodes) flows) eqn:Ed.
    + split; [| split; [| split; [| split]]].
      * split; [discriminate | intros [_ H]; contradiction].
      * split; [intros _ | reflexivity].
        split; [apply Hnone, Hn | apply Hdraw; reflexivity].
      * intros e He. right. congruence.
      * discriminate.
      * discriminate.
    + split; [| split; [| split; [| split]]].
      * split; [discriminate | intros [_ H]; contradiction].
      * split; [discriminate |]. intros [_ H]. apply Hdraw in H.
        discriminate.
      * discriminate.
      * intros fig [= <-]. cbn [no_line]. repeat constructor.
      * discriminate.
Qed.

(** ** The map of an engine result *)

Lemma component_line_sites (d : Data) (p : Params) (sku : string)
    (assembly : Sites.row) (y : pyfloat) (c : BomComponents.row) (l : Line) :
  component_line d p sku assembly y c = Ok l ->
  to_site (line_flow_entry l) = assembly_site_id p.
Proof.
  unfold component_line. intros H.
  apply bind_Ok_inv in H as (q & _ & H).
  apply bind_Ok_inv in H as (m & _ & H).
  apply bind_Ok_inv in H as ([lc lt] & _ & H).
  destruct (if label_eqb _ _ then _ else _) as [rate source].
  injection H as <-. reflexivity.
Qed.

Lemma rollup_sku_sites (d : Data) (p : Params) (assembly : Sites.row)
    (sku : string) (row : ScenarioResult) (edges : list Flow) (e : Flow) :
  rollup_sku d p assembly sku = Ok (Some (row, edges)) ->
  In e edges ->
  to_site e = assembly_site_id p
  \/ (to_site e = US_CUSTOMER_NODE.SiteID
      /\ from_site e = Some (assembly_site_id p)).
Proof.
  intros H Hin.
  apply rollup_sku_Some in H
    as (v & pct & emitted & final & Hv & _ & Hem & Hfin & _ & ->).
  apply in_app_or in Hin as [Hin | Hin].
  - left. apply emit_entries_kept in Hem.
    destruct (Forall2_In_r _ _ _ _ Hem Hin) as (e0 & He0 & s & _ & ->).
    apply List.filter_In in He0 as [He0 _].
    apply sku_locals_Some in Hv as (_ & _ & _ & _ & _ & Hloop & _).
    apply component_loop_totals in Hloop as (ls & Hls & _ & _ & _ & _ & He).
    rewrite He in He0. apply List.in_map_iff in He0 as (l & <- & Hl).
    cbn [to_site with_cost_share].
    clear -Hls Hl. induction Hls as [|c l' rows ls Hc _ IH]; [destruct Hl |].
    destruct Hl as [<- | Hl]; [eapply component_line_sites, Hc | apply IH, Hl].
  - right. unfold final_flow in Hfin. destruct (fgt _ _).
    + apply bind_Ok_inv in Hfin as (s & _ & Hfin). injection Hfin as <-.
      destruct Hin as [<- | []]. split; reflexivity.
    + injection Hfin as <-. destruct Hin.
Qed.

Lemma engine_flow_drawable (nodes : list MapNodes.row) (d : Data)
    (p : Params) (c : Costs) (e : Flow) :
  compute_costs d p = Ok c ->
  In e (flows c) ->
  drawable nodes e
  = on_map nodes (from_site e)
    && on_map nodes (Some (assembly_site_id p)).
Proof.
  intros Hc He.
  apply compute_costs_outputs in Hc as (assembly & outs & _ & Houts & _ & Hf).
  rewrite Hf in He.
  apply List.in_concat in He as (edges & Hedges & He).
  apply List.in_map_iff in Hedges as ([row edges'] & <- & Hout).
  eapply List.Forall_forall in Houts; [| exact Hout].
  destruct Houts as (sku & _ & Hroll). cbn [fst snd] in Hroll, He.
  unfold drawable.
  destruct (rollup_sku_sites _ _ _ _ _ _ _ Hroll He) as [-> | [-> ->]].
  - reflexivity.
  - assert (Hus : on_map nodes (Some US_CUSTOMER_NODE.SiteID) = true).
    { cbn [on_map]. rewrite String.eqb_refl. apply orb_true_r. }
    rewrite Hus, andb_true_r, andb_diag. reflexivity.
Qed.

(** X15: on the flow records that [compute_costs] returned, [build_map]
    raises the [ValueError] of the refused line colour exactly when the
    assembly site of the call is on the map (in the node table, or the
    customer node) together with the origin site of at least one record;
    otherwise it returns a figure, which has no line.  So the map of an
    engine result can only be built when nothing of it can be drawn. *)
Theorem map_of_engine_flows (R : Rendering) (nodes : list MapNodes.row)
    (d : Data) (p : Params) (c : Costs) :
  compute_costs d p = Ok c ->
  (build_map R (flows c) nodes = Raise (ValueError (invalid_color R))
   <-> on_map nodes (Some (assembly_site_id p)) = true
       /\ exists e, In e (flows c) /\ on_map nodes (from_site e) = true)
  /\ (on_map nodes (Some (assembly_site_id p)) = false
      \/ (forall e, In e (flows c) -> on_map nodes (from_site e) = false)
      -> exists fig, build_map R (flows c) nodes = Ok fig /\ no_line fig).
Proof.
  intros Hc. rewrite (build_map_of_engine R nodes d p c Hc).
  assert (Hd : existsb (drawable nodes) (flows c) = true
               <-> on_map nodes (Some (assembly_site_id p)) = true
                   /\ exists e, In e (flows c)
                                /\ on_map nodes (from_site e) = true).
  { rewrite existsb_exists. split.
    - intros (e & He & Hdraw).
      rewrite (engine_flow_drawable nodes d p c e Hc He) in Hdraw.
      apply andb_true_iff in Hdraw as [Hfrom Hsite]. eauto.
    - intros (Hsite & e & He & Hfrom). exists e. split; [exact He |].
      rewrite (engine_flow_drawable nodes d p c e Hc He), Hfrom, Hsite.
      reflexivity. }
  destruct (existsb (drawable nodes) (flows c)) eqn:E.
  - split; [split; [intros _; apply Hd; reflexivity | reflexivity] |].
    destruct (proj1 Hd eq_refl) as (Hsite & e & He & Hfrom).
    intros [H | H]; [congruence |]. rewrite (H e He) in Hfrom. discriminate.
  - split.
    + split; [destruct (flows c); discriminate |].
      intros H. apply Hd in H. discriminate.
    + intros _. destruct (flows c) as [|e0 rest]; eexists;
        (split; [reflexivity |]); cbn [no_line]; repeat constructor.
Qed.

Lemma map_of_engine_flows_witness :
  exists c,
    compute_costs Sample.data (Sample.params "S_US") = Ok c
    /\ (build_map plain_rendering (flows c) sample_nodes
        = Raise (ValueError (invalid_color plain_rendering))
        <-> on_map sample_nodes
              (Some (assembly_site_id (Sample.params "S_US"))) = true
            /\ exists e, In e (flows c)
                         /\ on_map sample_nodes (from_site e) = true)
    /\ (on_map sample_nodes
          (Some (assembly_site_id (Sample.params "S_US"))) = false
        \/ (forall e, In e (flows c)
                      -> on_map sample_nodes (from_site e) = false)
        -> exists fig,
             build_map plain_rendering (flows c) sample_nodes = Ok fig
             /\ no_line fig).
Proof.
  eexists. split; [vm_compute; reflexivity |].
  eapply (map_of_engine_flows plain_rendering sample_nodes Sample.data
            (Sample.params "S_US")).
  vm_compute. reflexivity.
Defined.

(** * The KPI cards *)

(** X16: the KPI cards of an engine result are one card per summary row,
    titled with the display names of the buildable target SKUs in order;
    the card of a row whose list price in CHF is 0.0 shows "N/A" as margin
    percentage (the engine has set that percentage to 0.0), every other
    card shows the formatted percentage. *)
Theorem kpi_cards_of_engine (R : Rendering) (d : Data) (p : Params)
    (c : Costs) :
  compute_costs d p = Ok c ->
  List.map card_title (render_kpi_cards R (summary c))
  = List.map (str_remove "ACTUATOR_") (List.filter (buildable d p) TARGET_SKUS)
  /\ Forall2
       (fun row card =>
          (ListPrice_CHF row = fl c0 ->
           MarginPct row = fl c0
           /\ List.last (card_lines card) "" = "Margin %: N/A")
          /\ (ListPrice_CHF row <> fl c0 ->
              List.last (card_lines card) ""
              = "Margin %: "
                ++ format_fixed1 R (fmul (MarginPct row) (fl c100)) ++ "%"))
       (summary c) (render_kpi_cards R (summary c)).
Proof.
  intros Hc.
  assert (Hcards : render_kpi_cards R (summary c)
                   = List.map (kpi_card R) (summary c))
    by (unfold render_kpi_cards; destruct (summary c); reflexivity).
  rewrite Hcards. split.
  - rewrite <- (compute_costs_skus _ _ _ Hc), !List.map_map.
    pose proof (compute_costs_stamps _ _ _ Hc) as Hst. clear Hcards.
    induction Hst as [|row rows (_ & _ & Hd) _ IH]; [reflexivity |].
    cbn [List.map]. f_equal; [exact Hd | exact IH].
  - assert (Hgen : forall rs,
              Forall (fun row => In row (summary c)) rs ->
              Forall2
                (fun row card =>
                   (ListPrice_CHF row = fl c0 ->
                    MarginPct row = fl c0
                    /\ List.last (card_lines card) "" = "Margin %: N/A")
                   /\ (ListPrice_CHF row <> fl c0 ->
                       List.last (card_lines card) ""
                       = "Margin %: "
                         ++ format_fixed1 R (fmul (MarginPct row) (fl c100))
                         ++ "%"))
                rs (List.map (kpi_card R) rs));
      [| apply Hgen, List.Forall_forall; auto].
    intros rs Hrs.
    induction Hrs as [|row rs Hrow _ IH]; cbn [List.map]; constructor;
      [| exact IH].
    cbn [kpi_card card_lines List.last]. split.
    + intros Hz. rewrite Hz, truthy_fl_zero. split; [| reflexivity].
      destruct (compute_costs_row _ _ _ _ Hc Hrow) as (assembly & _ & _ & Hr).
      apply rollup_sku_Some in Hr
        as (v & pct & em & fin & _ & Hpct & _ & _ & Hrow' & _).
      rewrite Hrow' in Hz |- *. cbn [ListPrice_CHF MarginPct summary_row] in *.
      unfold margin_pct in Hpct. rewrite Hz, truthy_fl_zero in Hpct.
      injection Hpct as <-. reflexivity.
    + intros Hnz.
      assert (Ht : truthy (ListPrice_CHF row) = true).
      { destruct (truthy (ListPrice_CHF row)) eqn:E; [reflexivity |].
        apply truthy_false in E. contradiction. }
      rewrite Ht. reflexivity.
Qed.

Lemma kpi_cards_of_engine_witness :
  exists c,
    compute_costs Sample.data (Sample.params "S_US") = Ok c
    /\ List.map card_title (render_kpi_cards plain_rendering (summary c))
       = List.map (str_remove "ACTUATOR_")
           (List.filter (buildable Sample.data (Sample.params "S_US"))
              TARGET_SKUS)
    /\ Forall2
         (fun row card =>
            (ListPrice_CHF row = fl c0 ->
             MarginPct row = fl c0
             /\ List.last (card_lines card) "" = "Margin %: N/A")
            /\ (ListPrice_CHF row <> fl c0 ->
                List.last (card_lines card) ""
                = "Margin %: "
                  ++ format_fixed1 plain_rendering
                       (fmul (MarginPct row) (fl c100)) ++ "%"))
         (summary c) (render_kpi_cards plain_rendering (summary c)).
Proof.
  eexists. split; [vm_compute; reflexivity |].
  eapply (kpi_cards_of_engine plain_rendering Sample.data
           (Sample.params "S_US")).
  vm_compute. reflexivity.
Defined.

(** * The dashboard callback *)

Lemma site_loop_returns (d : Data) (params : string -> Params)
    (sites : list string) (acc : list (string * Costs)) :
  Forall (fun s => returns (compute_costs d (params s))) sites ->
  returns (site_loop d params sites acc).
Proof.
  intros H. revert acc. induction H as [|s sites [c Hc] _ IH]; intros acc;
    cbn [site_loop]; [eexists; reflexivity |].
  rewrite Hc. cbn [mbind result_bind]. apply IH.
Qed.

Lemma site_loop_unknown (d : Data) (params : string -> Params)
    (pre post : list string) (s : string) (acc : list (string * Costs)) :
  assembly_site_id (params s) = s ->
  Forall (fun x => returns (compute_costs d (params x))) pre ->
  data_Sites d !! s = None ->
  site_loop d params (pre ++ s :: post) acc
  = Raise (ValueError ("Unknown assembly site: " ++ s)).
Proof.
  intros Hid Hpre Hs. revert acc.
  induction Hpre as [|x pre [c Hc] _ IH]; intros acc; cbn [app site_loop].
  - rewrite compute_costs_unknown by (rewrite Hid; exact Hs).
    rewrite Hid. reflexivity.
  - rewrite Hc. cbn [mbind result_bind]. apply IH.
Qed.

Lemma callback_params_site (sv : date) (tt : list TariffInputs.row)
    (ffs : list string) (s : string) :
  assembly_site_id (callback_params sv tt ffs s) = s.
Proof. reflexivity. Qed.

(** X17: the callback catches the unknown-site error of the selected
    assembly site only: then it returns the neutral outputs.  Once the
    result for the selected site is there, nothing is caught any more: the
    [ValueError] of an unknown comparison site escapes; when the
    comparison calls return, the [ValueError] of the refused line colour
    escapes whenever a flow record of the selected site has both sites on
    the map; and when none has, the [ValueError] of an unknown what-if
    site escapes.  Outputs are returned only when no flow record can be
    drawn and the what-if call returns. *)
Theorem refresh_dashboard_outcome (R : Rendering) (data : Data)
    (nodes : list MapNodes.row) (sites : list string) (sv : date)
    (av : string) (tt : list TariffInputs.row) (ffs : list string)
    (motor : string) :
  let params := callback_params sv tt ffs in
  let outcome := refresh_dashboard R data nodes sites sv av tt ffs motor in
  (data_Sites data !! av = None -> outcome = Ok neutral_dashboard)
  /\ (forall base,
        compute_costs data (params av) = Ok base ->
        (forall pre s post,
           sites = (pre ++ s :: post)%list ->
           Forall (fun x => returns (compute_costs data (params x))) pre ->
           data_Sites data !! s = None ->
           outcome = Raise (unknown_site s))
        /\ (Forall (fun x => returns (compute_costs data (params x))) sites ->
            (Exists (fun e => drawable nodes e = true) (flows base) ->
             outcome = Raise (ValueError (invalid_color R)))
            /\ (Forall (fun e => drawable nodes e = false) (flows base) ->
                (data_Sites data !! motor = None ->
                 outcome = Raise (unknown_site motor))
                /\ (returns (compute_costs data (params motor)) ->
                    exists dash, outcome = Ok dash)))).
Proof.
  intros params outcome. subst outcome. unfold refresh_dashboard.
  fold params. split.
  - intros Hav. rewrite compute_costs_unknown by exact Hav. reflexivity.
  - intros base Hbase. rewrite Hbase. split.
    + intros pre s post -> Hpre Hs.
      rewrite (site_loop_unknown data params pre post s []
                 (callback_params_site sv tt ffs s) Hpre Hs).
      reflexivity.
    + intros Hsites.
      destruct (site_loop_returns data params sites [] Hsites)
        as [items Hitems].
      rewrite Hitems. cbn [mbind result_bind].
      rewrite (build_map_of_engine R nodes _ _ _ Hbase). split.
      * intros Hex.
        assert (E : existsb (drawable nodes) (flows base) = true).
        { apply existsb_exists. apply List.Exists_exists in Hex. exact Hex. }
        rewrite E. reflexivity.
      * intros Hall.
        assert (E : existsb (drawable nodes) (flows base) = false).
        { destruct (existsb _ (flows base)) eqn:E; [| reflexivity].
          apply existsb_exists in E as (e & He & Hd).
          rewrite List.Forall_forall in Hall. rewrite (Hall e He) in Hd.
          discriminate. }
        rewrite E. split.
        -- intros Hmotor.
           rewrite (compute_costs_unknown data (params motor))
             by exact Hmotor.
           destruct (flows base); reflexivity.
        -- intros [w Hw]. rewrite Hw.
           destruct (flows base); eexists; reflexivity.
Qed.

(** ** The comparison chart agrees with the cards *)

Lemma dict_set_In {V : Type} (k : string) (v : V) (items : list (string * V))
    (k' : string) (v' : V) :
  In (k', v') (dict_set k v items) ->
  (k' = k /\ v' = v) \/ In (k', v') items.
Proof.
  induction items as [|[k0 v0] rest IH]; cbn [dict_set].
  - intros [[= <- <-] | []]. left. split; reflexivity.
  - destruct (String.eqb_spec k0 k) as [-> | Hne].
    + intros [[= <- <-] | H]; [left; split; reflexivity | right; right; exact H].
    + intros [H | H]; [right; left; exact H |].
      destruct (IH H) as [Hk | Hin]; [left; exact Hk | right; right; exact Hin].
Qed.

Lemma dict_set_keys {V : Type} (k : string) (v : V)
    (items : list (string * V)) (k' : string) :
  In k' (List.map fst (dict_set k v items))
  <-> k' = k \/ In k' (List.map fst items).
Proof.
  induction items as [|[k0 v0] rest IH]; cbn [dict_set List.map fst].
  - cbn [In]. intuition.
  - destruct (String.eqb_spec k0 k) as [-> | Hne]; cbn [List.map fst In].
    + intuition.
    + rewrite IH. intuition.
Qed.

Lemma dict_set_NoDup {V : Type} (k : string) (v : V)
    (items : list (string * V)) :
  List.NoDup (List.map fst items) ->
  List.NoDup (List.map fst (dict_set k v items)).
Proof.
  induction items as [|[k0 v0] rest IH]; cbn [dict_set List.map fst];
    intros Hnd.
  - constructor; [intros [] | constructor].
  - inversion Hnd as [|? ? Hnot Hrest]; subst.
    destruct (String.eqb_spec k0 k) as [-> | Hne]; cbn [List.map fst].
    + constructor; assumption.
    + constructor; [| apply IH, Hrest].
      rewrite dict_set_keys. intros [-> | H]; [congruence | contradiction].
Qed.

Lemma site_loop_items (d : Data) (params : string -> Params)
    (sites : list string) (acc items : list (string * Costs)) :
  site_loop d params sites acc = Ok items ->
  List.NoDup (List.map fst acc) ->
  (forall k v, In (k, v) acc -> compute_costs d (params k) = Ok v) ->
  List.NoDup (List.map fst items)
  /\ (forall k v, In (k, v) items -> compute_costs d (params k) = Ok v)
  /\ (forall s, In s sites -> In s (List.map fst items)).
Proof.
  revert acc. induction sites as [|s sites IH]; intros acc; cbn [site_loop].
  - intros [= <-] Hnd Hval. repeat split; [exact Hnd | exact Hval |].
    intros s [].
  - intros H Hnd Hval. apply bind_Ok_inv in H as (c & Hc & H).
    assert (Hkeys : forall s', In s' (List.map fst (dict_set s c acc)) ->
                               In s' (List.map fst items)).
    { clear -H. revert H. generalize (dict_set s c acc). clear.
      induction sites as [|s0 sites IH]; intros acc; cbn [site_loop].
      - intros [= <-] s' Hs'. exact Hs'.
      - intros H s' Hs'. apply bind_Ok_inv in H as (c0 & _ & H).
        eapply IH; [exact H |]. apply dict_set_keys. right. exact Hs'. }
    destruct (IH _ H (dict_set_NoDup s c acc Hnd)) as (Hnd' & Hval' & Hin').
    { intros k v Hk. apply dict_set_In in Hk as [[-> ->] | Hk];
        [exact Hc | apply Hval, Hk]. }
    repeat split; [exact Hnd' | exact Hval' |].
    intros s' [<- | Hs']; [| apply Hin', Hs'].
    apply Hkeys, dict_set_keys. left. reflexivity.
Qed.

Lemma comparison_records_cons (k : string) (v : Costs)
    (items : list (string * Costs)) :
  comparison_records ((k, v) :: items)
  = (site_records k v ++ comparison_records items)%list.
Proof. reflexivity. Qed.

Lemma filter_site_records (k k' : string) (v : Costs) :
  List.filter (fun r => String.eqb (cmp_AssemblySite r) k) (site_records k' v)
  = if String.eqb k' k then site_records k' v else [].
Proof.
  unfold site_records. induction (summary v) as [|row rows IH];
    cbn [List.map List.filter cmp_AssemblySite].
  - destruct (String.eqb k' k); reflexivity.
  - rewrite IH. destruct (String.eqb k' k); reflexivity.
Qed.

Lemma filter_comparison_absent (k : string) (items : list (string * Costs)) :
  ~ In k (List.map fst items) ->
  List.filter (fun r => String.eqb (cmp_AssemblySite r) k)
    (comparison_records items) = [].
Proof.
  induction items as [|[k0 v0] rest IH]; intros Hk; [reflexivity |].
  rewrite comparison_records_cons, List.filter_app, filter_site_records.
  destruct (String.eqb_spec k0 k) as [-> | Hne].
  - exfalso. apply Hk. left. reflexivity.
  - apply IH. intros H. apply Hk. right. exact H.
Qed.

Lemma filter_comparison_present (k : string) (v : Costs)
    (items : list (string * Costs)) :
  List.NoDup (List.map fst items) ->
  In (k, v) items ->
  List.filter (fun r => String.eqb (cmp_AssemblySite r) k)
    (comparison_records items) = site_records k v.
Proof.
  induction items as [|[k0 v0] rest IH]; intros Hnd Hin; [destruct Hin |].
  cbn [List.map fst] in Hnd. inversion Hnd as [|? ? Hnot Hrest]; subst.
  rewrite comparison_records_cons, List.filter_app, filter_site_records.
  destruct Hin as [[= -> ->] | Hin].
  - rewrite String.eqb_refl, (filter_comparison_absent _ _ Hnot).
    apply app_nil_r.
  - destruct (String.eqb_spec k0 k) as [-> | Hne].
    + exfalso. apply Hnot. apply List.in_map_iff. exists (k, v).
      split; [reflexivity | exact Hin].
    + apply IH; assumption.
Qed.

Lemma figure_records_comparison (records : list ComparisonRecord) :
  figure_records
    match records with
    | [] => EmptyFigure (Some "Landed cost by assembly site")
    | _ => BarFigure "Landed cost by assembly site" records
    end = records.
Proof. destruct records; reflexivity. Qed.

(** X18: the outputs of the callback agree with each other: the cards and
    the breakdown table show the result for the selected site; when the
    selected site is one of [assembly_sites], the records of the
    comparison chart for that site are the display names and landed costs
    of that same result; when the what-if site is the selected site, the
    what-if table shows the rows of that result; every record of the
    comparison chart belongs to a site of [assembly_sites]; and the map
    has no line. *)
Theorem dashboard_is_consistent (R : Rendering) (data : Data)
    (nodes : list MapNodes.row) (sites : list string) (sv : date)
    (av : string) (tt : list TariffInputs.row) (ffs : list string)
    (motor : string) (dash : Dashboard) (base : Costs) :
  refresh_dashboard R data nodes sites sv av tt ffs motor = Ok dash ->
  compute_costs data (callback_params sv tt ffs av) = Ok base ->
  kpi_cards dash = render_kpi_cards R (summary base)
  /\ breakdown_data dash = breakdown base
  /\ (In av sites ->
      List.filter (fun r => String.eqb (cmp_AssemblySite r) av)
        (figure_records (comparison_fig dash))
      = site_records av base)
  /\ (motor = av ->
      what_if_table_data dash = List.map what_if_row (summary base))
  /\ Forall (fun r => In (cmp_AssemblySite r) sites)
       (figure_records (comparison_fig dash))
  /\ no_line (map_fig dash).
Proof.
  unfold refresh_dashboard.
  set (params := callback_params sv tt ffs). intros H Hbase.
  rewrite Hbase in H.
  destruct (site_loop data params sites []) as [items|e] eqn:Hloop;
    [| discriminate].
  cbn [mbind result_bind] in H.
  destruct (build_map R (flows base) nodes) as [fig|e] eqn:Hfig;
    [| discriminate].
  cbn [mbind result_bind] in H.
  destruct (compute_costs data (params motor)) as [w|e] eqn:Hw;
    [| discriminate].
  injection H as <-.
  cbn [kpi_cards breakdown_data comparison_fig what_if_table_data map_fig].
  rewrite figure_records_comparison.
  destruct (site_loop_items _ _ _ _ _ Hloop (NoDup_nil _))
    as (Hnd & Hval & Hin); [intros k v [] |].
  split; [reflexivity |]. split; [reflexivity |].
  split; [| split; [| split]].
  - intros Hav. apply filter_comparison_present; [exact Hnd |].
    apply Hin in Hav. apply List.in_map_iff in Hav as ([k v] & Hk & Hkv).
    cbn [fst] in Hk. subst k.
    pose proof (Hval _ _ Hkv) as Hv.
    rewrite Hbase in Hv. injection Hv as <-. exact Hkv.
  - intros ->. rewrite Hbase in Hw. injection Hw as <-. reflexivity.
  - assert (Hkeys : forall k v, In (k, v) items -> In k sites).
    { clear -Hloop. revert Hloop.
      assert (Hgen : forall ss acc its,
                site_loop data params ss acc = Ok its ->
                forall k v, In (k, v) its ->
                            In k ss \/ In (k, v) acc).
      { clear. induction ss as [|s ss IH]; intros acc its; cbn [site_loop].
        - intros [= <-] k v Hk. right. exact Hk.
        - intros H k v Hk. apply bind_Ok_inv in H as (c & _ & H).
          destruct (IH _ _ H k v Hk) as [Hs | Hs]; [left; right; exact Hs |].
          apply dict_set_In in Hs as [[-> _] | Hs];
            [left; left; reflexivity | right; exact Hs]. }
      intros Hloop k v Hk.
      destruct (Hgen _ _ _ Hloop k v Hk) as [Hs | []]. exact Hs. }
    apply List.Forall_forall. intros r Hr.
    unfold comparison_records in Hr. apply List.in_flat_map in Hr
      as ([k v] & Hkv & Hr).
    apply List.in_map_iff in Hr as (row & <- & _).
    cbn [cmp_AssemblySite]. eapply Hkeys, Hkv.
  - eapply build_map_no_line, Hfig.
Qed.

Lemma dashboard_is_consistent_witness :
  exists dash base,
    refresh_dashboard plain_rendering Sample.data sample_nodes
      ["S_MX"; "S_US"] "2025-04-02" "S_MX" [] [] "S_MX" = Ok dash
    /\ compute_costs Sample.data (callback_params "2025-04-02" [] [] "S_MX")
       = Ok base
    /\ kpi_cards dash = render_kpi_cards plain_rendering (summary base)
    /\ breakdown_data dash = breakdown base
    /\ (In "S_MX" ["S_MX"; "S_US"] ->
        List.filter (fun r => String.eqb (cmp_AssemblySite r) "S_MX")
          (figure_records (comparison_fig dash))
        = site_records "S_MX" base)
    /\ ("S_MX" = "S_MX" ->
        what_if_table_data dash = List.map what_if_row (summary base))
    /\ Forall (fun r => In (cmp_AssemblySite r) ["S_MX"; "S_US"])
         (figure_records (comparison_fig dash))
    /\ no_line (map_fig dash).
Proof.
  eexists _, _. split; [vm_compute; reflexivity |].
  split; [vm_compute; reflexivity |].
  eapply (dashboard_is_consistent plain_rendering Sample.data sample_nodes
           ["S_MX"; "S_US"] "2025-04-02" "S_MX" [] [] "S_MX").
  - vm_compute. reflexivity.
  - vm_compute. reflexivity.
Defined.

(** ** The fee checkbox *)

Lemma site_loop_without_fees (fee : LogisticsLanes.row -> option pyfloat)
    (d : Data) (params : string -> Params) (sites : list string)
    (acc : list (string * Costs)) :
  (forall s, include_fixed_fees (params s) = false) ->
  site_loop (with_fixed_fees fee d) params sites acc
  = site_loop d params sites acc.
Proof.
  intros Hoff. revert acc. induction sites as [|s sites IH]; intros acc;
    [reflexivity |].
  cbn [site_loop]. rewrite (compute_costs_without_fees fee d _ (Hoff s)).
  destruct (compute_costs d (params s)) as [c|e]; [| reflexivity].
  cbn [mbind result_bind]. apply IH.
Qed.

(** X19: unless the checkbox value "include" is selected (the selection is
    empty when the page loads), nothing the callback returns or raises
    depends on the fixed fees of the lanes. *)
Theorem dashboard_ignores_fixed_fees_unless_selected (R : Rendering)
    (fee : LogisticsLanes.row -> option pyfloat) (data : Data)
    (nodes : list MapNodes.row) (sites : list string) (sv : date)
    (av : string) (tt : list TariffInputs.row) (ffs : list string)
    (motor : string) :
  ~ In "include" ffs ->
  refresh_dashboard R (with_fixed_fees fee data) nodes sites sv av tt ffs motor
  = refresh_dashboard R data nodes sites sv av tt ffs motor.
Proof.
  intros Hsel.
  assert (Hoff : forall s,
            include_fixed_fees (callback_params sv tt ffs s) = false).
  { intros s. cbn [include_fixed_fees callback_params].
    destruct (existsb (String.eqb "include") ffs) eqn:E; [| reflexivity].
    apply existsb_eqb_In in E. contradiction. }
  unfold refresh_dashboard.
  rewrite (compute_costs_without_fees fee data _ (Hoff av)).
  rewrite (site_loop_without_fees fee data _ sites [] Hoff).
  rewrite (compute_costs_without_fees fee data _ (Hoff motor)).
  reflexivity.
Qed.

Lemma dashboard_ignores_fixed_fees_unless_selected_witness :
  ~ In "include" ([] : list string)
  /\ refresh_dashboard plain_rendering
       (with_fixed_fees (fun _ => None) Sample.data) sample_nodes
       ["S_MX"; "S_US"] "2025-04-02" "S_US" [] [] "S_MX"
     = refresh_dashboard plain_rendering Sample.data sample_nodes
         ["S_MX"; "S_US"] "2025-04-02" "S_US" [] [] "S_MX".
Proof.
  split; [intros [] |].
  eapply (dashboard_ignores_fixed_fees_unless_selected plain_rendering
           (fun _ => None) Sample.data sample_nodes ["S_MX"; "S_US"]
           "2025-04-02" "S_US" [] [] "S_MX").
  intros [].
Defined.

(** * What the tariff inputs can change *)

Lemma lane_cost_params (d : Data) (p p' : Params) (from_c to_c : label)
    (w : pyfloat) :
  include_fixed_fees p' = include_fixed_fees p ->
  lane_cost d p' from_c to_c w = lane_cost d p from_c to_c w.
Proof. intros H. unfold lane_cost. rewrite H. reflexivity. Qed.

Lemma component_line_params (d : Data) (p p' : Params) (sku : string)
    (assembly : Sites.row) (y : pyfloat) (c : BomComponents.row)
    (l l' : Line) :
  include_fixed_fees p' = include_fixed_fees p ->
  component_line d p sku assembly y c = Ok l ->
  component_line d p' sku assembly y c = Ok l' ->
  line_material_cost l = line_material_cost l'
  /\ line_logistics_cost l = line_logistics_cost l'
  /\ line_lead_time l = line_lead_time l'.
Proof.
  intros Hfee. unfold component_line. intros H H'.
  apply bind_Ok_inv in H as (q & Hq & H).
  apply bind_Ok_inv in H' as (q' & Hq' & H').
  rewrite Hq in Hq'. injection Hq' as <-.
  apply bind_Ok_inv in H as (m & Hm & H).
  apply bind_Ok_inv in H' as (m' & Hm' & H').
  rewrite Hm in Hm'. injection Hm' as <-.
  rewrite (lane_cost_params d p p' _ _ _ Hfee) in H'.
  apply bind_Ok_inv in H as ([lc lt] & Hl & H).
  apply bind_Ok_inv in H' as ([lc' lt'] & Hl' & H').
  rewrite Hl in Hl'. injection Hl' as <- <-.
  destruct (if label_eqb _ _ then _ else _) as [rate source] in H.
  destruct (if label_eqb _ _ then _ else _) as [rate' source'] in H'.
  injection H as <-. injection H' as <-. repeat split.
Qed.

Lemma component_lines_params (d : Data) (p p' : Params) (sku : string)
    (assembly : Sites.row) (y : pyfloat) (rows : list BomComponents.row)
    (ls ls' : list Line) :
  include_fixed_fees p' = include_fixed_fees p ->
  Forall2 (fun c l => component_line d p sku assembly y c = Ok l) rows ls ->
  Forall2 (fun c l => component_line d p' sku assembly y c = Ok l) rows ls' ->
  List.map line_material_cost ls = List.map line_material_cost ls'
  /\ List.map line_logistics_cost ls = List.map line_logistics_cost ls'
  /\ List.map line_lead_time ls = List.map line_lead_time ls'.
Proof.
  intros Hfee H. revert ls'.
  induction H as [|c l rows ls Hl _ IH]; intros ls' H'.
  - inversion H'. repeat split.
  - inversion H' as [|x l' xs ls0 Hl' Hrest]; subst.
    cbn [List.map].
    destruct (IH _ Hrest) as (-> & -> & ->).
    destruct (component_line_params _ _ _ _ _ _ _ _ _ Hfee Hl Hl')
      as (-> & -> & ->).
    repeat split.
Qed.

Lemma rollup_sku_params (d : Data) (p p' : Params) (assembly : Sites.row)
    (sku : string) (row row' : ScenarioResult) (edges edges' : list Flow) :
  assembly_site_id p' = assembly_site_id p ->
  include_fixed_fees p' = include_fixed_fees p ->
  rollup_sku d p assembly sku = Ok (Some (row, edges)) ->
  rollup_sku d p' assembly sku = Ok (Some (row', edges')) ->
  same_untaxed row row'.
Proof.
  intros Hsite Hfee H H'.
  apply rollup_sku_Some in H as (v & pct & em & fin & Hv & _ & _ & _ & -> & _).
  apply rollup_sku_Some in H'
    as (v' & pct' & em' & fin' & Hv' & _ & _ & _ & -> & _).
  apply sku_locals_Some in Hv
    as (Hprod & Hopt & Hconv & _ & Hrows & Hloop & Hlane & _ & Hlp).
  apply sku_locals_Some in Hv'
    as (Hprod' & Hopt' & Hconv' & _ & Hrows' & Hloop' & Hlane' & _ & Hlp').
  rewrite Hprod in Hprod'. injection Hprod' as Hprod'.
  rewrite Hsite, Hopt in Hopt'. injection Hopt' as Hopt'.
  rewrite <- Hopt', Hconv in Hconv'. injection Hconv' as Hconv'.
  rewrite <- Hrows in Hrows'.
  rewrite <- Hopt', Hrows' in Hloop'.
  rewrite <- Hprod', (lane_cost_params d p p' _ _ _ Hfee), Hlane in Hlane'.
  injection Hlane' as Hoc Hol.
  rewrite <- Hprod', Hlp in Hlp'. injection Hlp' as Hlp'.
  apply component_loop_totals in Hloop
    as (ls & Hls & Hmat & Hinb & _ & Hleads & _).
  apply component_loop_totals in Hloop'
    as (ls' & Hls' & Hmat' & Hinb' & _ & Hleads' & _).
  destruct (component_lines_params _ _ _ _ _ _ _ _ _ Hfee Hls Hls')
    as (Em & El & Et).
  unfold same_untaxed.
  cbn [SKU SKU_Display AssemblySite MaterialCost_CHF InboundLogistics_CHF
       OutboundLogistics_CHF ConversionCost_CHF ListPrice_CHF LeadTime_days
       summary_row].
  unfold lead_time_days.
  rewrite Hmat, Hmat', Hinb, Hinb', Hleads, Hleads', Em, El, Et, Hsite.
  rewrite <- Hoc, <- Hol, <- Hconv', <- Hlp'.
  repeat split.
Qed.

Lemma Forall2_of_keys {A K : Type} (key : A -> K) (R : A -> A -> Prop)
    (xs ys : list A) :
  List.map key xs = List.map key ys ->
  (forall x y, In x xs -> In y ys -> key x = key y -> R x y) ->
  Forall2 R xs ys.
Proof.
  revert ys. induction xs as [|x xs IH]; intros [|y ys] Hk HR;
    try discriminate; [constructor |].
  injection Hk as Hxy Hk. constructor.
  - apply HR; [left; reflexivity | left; reflexivity | exact Hxy].
  - apply IH; [exact Hk |]. intros a b Ha Hb. apply HR; right; assumption.
Qed.

Lemma buildable_params (d : Data) (p p' : Params) (sku : string) :
  assembly_site_id p' = assembly_site_id p ->
  buildable d p' sku = buildable d p sku.
Proof. intros H. unfold buildable. rewrite H. reflexivity. Qed.

(** X23: the scenario date and the override table change tariffs only:
    when two calls of [compute_costs] on the same tables, for the same
    assembly site and fee flag, both return, their summaries list the same
    SKUs with the same material, inbound, outbound and conversion costs,
    list prices and lead times, whatever the scenario dates and override
    rows are. *)
Theorem tariff_inputs_change_tariffs_only (d : Data) (p p' : Params)
    (c c' : Costs) :
  assembly_site_id p' = assembly_site_id p ->
  include_fixed_fees p' = include_fixed_fees p ->
  compute_costs d p = Ok c ->
  compute_costs d p' = Ok c' ->
  Forall2 same_untaxed (summary c) (summary c').
Proof.
  intros Hsite Hfee Hc Hc'.
  apply (Forall2_of_keys SKU).
  - rewrite (compute_costs_skus _ _ _ Hc), (compute_costs_skus _ _ _ Hc').
    apply List.filter_ext. intros sku. symmetry.
    apply buildable_params, Hsite.
  - intros row row' Hrow Hrow' Hsku.
    destruct (compute_costs_row _ _ _ _ Hc Hrow) as (a & Ha & _ & Hr).
    destruct (compute_costs_row _ _ _ _ Hc' Hrow') as (a' & Ha' & _ & Hr').
    rewrite Hsite, Ha in Ha'. injection Ha' as <-.
    rewrite <- Hsku in Hr'.
    eapply rollup_sku_params; eassumption.
Qed.

Lemma tariff_inputs_change_tariffs_only_witness :
  exists c c',
    assembly_site_id
      {| scenario_date := "2026-01-01";
         assembly_site_id := "S_US";
         tariff_records := Sample.overrides;
         include_fixed_fees := false |}
    = assembly_site_id (Sample.params "S_US")
    /\ include_fixed_fees
         {| scenario_date := "2026-01-01";
            assembly_site_id := "S_US";
            tariff_records := Sample.overrides;
            include_fixed_fees := false |}
       = include_fixed_fees (Sample.params "S_US")
    /\ compute_costs Sample.data (Sample.params "S_US") = Ok c
    /\ compute_costs Sample.data
         {| scenario_date := "2026-01-01";
            assembly_site_id := "S_US";
            tariff_records := Sample.overrides;
            include_fixed_fees := false |}
       = Ok c'
    /\ Forall2 same_untaxed (summary c) (summary c').
Proof.
  eexists _, _. split; [reflexivity |]. split; [reflexivity |].
  split; [vm_compute; reflexivity |]. split; [vm_compute; reflexivity |].
  eapply (tariff_inputs_change_tariffs_only Sample.data
            (Sample.params "S_US")
            {| scenario_date := "2026-01-01";
               assembly_site_id := "S_US";
               tariff_records := Sample.overrides;
               include_fixed_fees := false |}).
  - reflexivity.
  - reflexivity.
  - vm_compute. reflexivity.
  - vm_compute. reflexivity.
Defined.
